(** * Whidbey tides: a shallow embedding of [Whidbey/script.js]

    The script exists in two revisions.  The first one (tide chart and
    table only) is embedded in module [V1], the second one (same tide
    code with a defensive [loadData], plus the weather cards) in module
    [V2].  The functions that are textually identical in both revisions
    ([fmtDate], [localTZ], [buildUrl], [fetchJSON], [last7Next7],
    [setHiloNote]) are embedded once.  The weather cards of the second
    revision ([loadWeather]) share nothing with the tide code but the
    network; they are embedded over a page of their own, [WxPage].

    JavaScript values are modelled as follows.
    - Strings are [string]s of bytes holding the UTF-8 encoding.
    - A Number is an IEEE 754 binary64 value, kept as the exact dyadic
      rational it denotes ([number]).
    - Parsed JSON is the inductive type [json]; [undefined] is
      [None : value].
    - A [Date] is its time value (milliseconds since the epoch, UTC) or
      invalid.
    - The page (selectors, note, table body, canvas, console), the clock
      and the network are fields of the record [World]; script code is
      written in a state-and-exception monad [JS] over [World]. *)

From Stdlib Require Import ZArith List String Ascii Bool Lia.
Import ListNotations.

Open Scope list_scope.
Open Scope string_scope.
Open Scope Z_scope.

(** ** Strings *)

Definition digit_char (d : Z) : ascii :=
  ascii_of_nat (48 + Z.to_nat d).

Fixpoint digits_upto (fuel : nat) (n : Z) (acc : string) : string :=
  match fuel with
  | O => acc
  | S fuel' =>
      let acc' := String (digit_char (n mod 10)) acc in
      if n <? 10 then acc' else digits_upto fuel' (n / 10) acc'
  end.

(** The decimal digits of a non-negative integer, most significant
    first.  The number of decimal digits never exceeds the number of
    binary digits. *)
Definition decimal (n : Z) : string :=
  digits_upto (S (Z.to_nat (Z.log2 n))) n "".

(** ToString applied to an integral Number below 10^21. *)
Definition string_of_Z (n : Z) : string :=
  if n <? 0 then "-" ++ decimal (- n) else decimal n.

Fixpoint repeat_char (c : ascii) (n : nat) : string :=
  match n with
  | O => ""
  | S n' => String c (repeat_char c n')
  end.

(** [s.padStart(len, c)] for a one-character filler [c]. *)
Definition padStart (s : string) (len : nat) (c : ascii) : string :=
  repeat_char c (len - String.length s) ++ s.

Fixpoint take (n : nat) (s : string) : string :=
  match n, s with
  | S n', String c s' => String c (take n' s')
  | _, _ => ""
  end.

Fixpoint drop (n : nat) (s : string) : string :=
  match n, s with
  | S n', String _ s' => drop n' s'
  | _, _ => s
  end.

Fixpoint starts_with (p s : string) : option string :=
  match p, s with
  | EmptyString, _ => Some s
  | String a p', String b s' =>
      if Ascii.eqb a b then starts_with p' s' else None
  | _, _ => None
  end.

(** [s.replace(a, b)] with one-character string arguments: only the
    first occurrence is replaced. *)
Fixpoint replace_first (a b : ascii) (s : string) : string :=
  match s with
  | EmptyString => EmptyString
  | String c s' =>
      if Ascii.eqb c a then String b s' else String c (replace_first a b s')
  end.

Fixpoint join (sep : string) (l : list string) : string :=
  match l with
  | [] => ""
  | [s] => s
  | s :: l' => s ++ sep ++ join sep l'
  end.

(** Length in UTF-16 code units of a well-formed UTF-8 string: every
    code point counts once, those outside the basic plane (four-byte
    sequences, lead byte at least 0xF0) twice. *)
Fixpoint utf16_length (s : string) : Z :=
  match s with
  | EmptyString => 0
  | String c s' =>
      let b := Z.of_nat (nat_of_ascii c) in
      (if (128 <=? b) && (b <? 192) then 0
       else if 240 <=? b then 2 else 1) + utf16_length s'
  end.

Definition is_digit (c : ascii) : bool :=
  let n := nat_of_ascii c in (48 <=? n)%nat && (n <=? 57)%nat.

Definition digit_val (c : ascii) : Z := Z.of_nat (nat_of_ascii c) - 48.


(** ** Numbers (IEEE 754 binary64) *)

(** [Finite neg m e] denotes [(-1)^neg * m * 2^e].  Values produced by
    [round_binary64] are canonical: [2^52 <= m < 2^53] with
    [-1074 <= e <= 971], or [m < 2^52] with [e = -1074] (subnormals and
    zero). *)
Inductive number : Type :=
| NaN
| Infinity (neg : bool)
| Finite (neg : bool) (m e : Z).

(** Quotient [p / q] rounded to an integer, ties to even. *)
Definition div_ties_even (p q : Z) : Z :=
  let n := p / q in
  let r := p mod q in
  if 2 * r <? q then n
  else if q <? 2 * r then n + 1
  else if Z.even n then n else n + 1.

(** floor(log2(p/q)) for positive [p], [q]. *)
Definition log2_ratio (p q : Z) : Z :=
  let k := Z.log2 p - Z.log2 q in
  let below :=
    if 0 <=? k then p <? q * 2 ^ k else p * 2 ^ (- k) <? q in
  if below then k - 1 else k.

(** The Number value for the non-negative rational [p / q]
    (roundTiesToEven), with sign [neg]. *)
Definition round_binary64 (neg : bool) (p q : Z) : number :=
  if p =? 0 then Finite neg 0 (-1074)
  else
    let e := Z.max (log2_ratio p q - 52) (-1074) in
    let m := div_ties_even (p * 2 ^ Z.max 0 (- e)) (q * 2 ^ Z.max 0 e) in
    let '(m, e) := if m =? 2 ^ 53 then (2 ^ 52, e + 1) else (m, e) in
    if 971 <? e then Infinity neg else Finite neg m e.

Definition number_of_Z (n : Z) : number :=
  round_binary64 (n <? 0) (Z.abs n) 1.

(** The magnitude of a finite number as a fraction [(p, q)]. *)
Definition magnitude (m e : Z) : Z * Z :=
  (m * 2 ^ Z.max 0 e, 2 ^ Z.max 0 (- e)).

(** ToBoolean on a Number. *)
Definition number_truthy (x : number) : bool :=
  match x with
  | NaN => false
  | Infinity _ => true
  | Finite _ m _ => negb (m =? 0)
  end.

(** *** StringToNumber: [Number(s)] for a string [s] *)

(** StrWhiteSpaceChar in UTF-8: TAB, LF, VT, FF, CR, SP, U+00A0,
    U+1680, U+2000..U+200A, U+2028, U+2029, U+202F, U+205F, U+3000 and
    U+FEFF. *)
Definition utf8 (bytes : list nat) : string :=
  string_of_list_ascii (map ascii_of_nat bytes).

Definition white_space : list string :=
  map utf8
    ([[9]; [10]; [11]; [12]; [13]; [32]; [194; 160]; [225; 154; 128]]
     ++ map (fun b => [226; 128; b]) (seq 128 11)
     ++ [[226; 128; 168]; [226; 128; 169]; [226; 128; 175];
         [226; 129; 159]; [227; 128; 128]; [239; 187; 191]])%nat%list.

Fixpoint strip_any (prefixes : list string) (s : string) : option string :=
  match prefixes with
  | [] => None
  | p :: ps =>
      match starts_with p s with
      | Some rest => Some rest
      | None => strip_any ps s
      end
  end.

Fixpoint skip_ws_upto (fuel : nat) (s : string) : string :=
  match fuel with
  | O => s
  | S fuel' =>
      match strip_any white_space s with
      | Some rest => skip_ws_upto fuel' rest
      | None => s
      end
  end.

Definition skip_ws (s : string) : string := skip_ws_upto (String.length s) s.

(** Longest prefix of characters satisfying [ok], and the rest. *)
Fixpoint span (ok : ascii -> bool) (s : string) : string * string :=
  match s with
  | String c s' =>
      if ok c then let '(a, b) := span ok s' in (String c a, b)
      else (EmptyString, s)
  | EmptyString => (EmptyString, EmptyString)
  end.

Definition hex_val (c : ascii) : option Z :=
  let n := Z.of_nat (nat_of_ascii c) in
  if (48 <=? n) && (n <=? 57) then Some (n - 48)
  else if (97 <=? n) && (n <=? 102) then Some (n - 87)
  else if (65 <=? n) && (n <=? 70) then Some (n - 55)
  else None.

Definition is_radix_digit (radix : Z) (c : ascii) : bool :=
  match hex_val c with
  | Some d => d <? radix
  | None => false
  end.

Fixpoint radix_value (radix : Z) (s : string) (acc : Z) : Z :=
  match s with
  | EmptyString => acc
  | String c s' =>
      radix_value radix s'
        (acc * radix + match hex_val c with Some d => d | None => 0 end)
  end.

Definition sign_prefix (s : string) : bool * string :=
  match s with
  | String "-" s' => (true, s')
  | String "+" s' => (false, s')
  | _ => (false, s)
  end.

(** ExponentPart (optional): the exponent and the rest, or [None] when
    an [e] is not followed by a SignedInteger. *)
Definition exponent_part (s : string) : option (Z * string) :=
  match s with
  | String c s' =>
      if Ascii.eqb c "e" || Ascii.eqb c "E" then
        let '(neg, s1) := sign_prefix s' in
        let '(ds, rest) := span is_digit s1 in
        match ds with
        | EmptyString => None
        | _ =>
            let n := radix_value 10 ds 0 in
            Some (if neg then - n else n, rest)
        end
      else Some (0, s)
  | EmptyString => Some (0, s)
  end.

(** StrUnsignedDecimalLiteral other than [Infinity]: the mathematical
    value as a fraction and the rest of the input. *)
Definition unsigned_decimal (s : string) : option (Z * Z * string) :=
  let '(ip, s1) := span is_digit s in
  let '(fp, s2, dot) :=
    match s1 with
    | String "." s1' => let '(fp, s2) := span is_digit s1' in (fp, s2, true)
    | _ => (EmptyString, s1, false)
    end in
  match ip, fp with
  | EmptyString, EmptyString => None
  | _, _ =>
      match exponent_part s2 with
      | None => None
      | Some (ex, rest) =>
          let n := radix_value 10 (ip ++ fp) 0 in
          let scale := ex - Z.of_nat (String.length fp) in
          Some (if 0 <=? scale then (n * 10 ^ scale, 1, rest)
                else (n, 10 ^ (- scale), rest))
      end
  end.

(** NonDecimalIntegerLiteral: [0x], [0o] and [0b] forms, unsigned. *)
Definition non_decimal (s : string) : option (Z * string) :=
  match s with
  | String "0" (String c s') =>
      let radix :=
        if Ascii.eqb c "x" || Ascii.eqb c "X" then Some 16
        else if Ascii.eqb c "o" || Ascii.eqb c "O" then Some 8
        else if Ascii.eqb c "b" || Ascii.eqb c "B" then Some 2
        else None in
      match radix with
      | Some r =>
          let '(ds, rest) := span (is_radix_digit r) s' in
          match ds with
          | EmptyString => None
          | _ => Some (radix_value r ds 0, rest)
          end
      | None => None
      end
  | _ => None
  end.

Definition only_ws (s : string) : bool :=
  match skip_ws s with
  | EmptyString => true
  | _ => false
  end.

(** StringToNumber.  The literal is rounded to the nearest binary64
    value (engines round the exact decimal value; the licence to drop
    digits after the twentieth is not used by them). *)
Definition StringToNumber (s : string) : number :=
  let s0 := skip_ws s in
  match s0 with
  | EmptyString => Finite false 0 (-1074)
  | _ =>
      match non_decimal s0 with
      | Some (n, rest) =>
          if only_ws rest then round_binary64 false n 1 else NaN
      | None =>
          let '(neg, s1) := sign_prefix s0 in
          match starts_with "Infinity" s1 with
          | Some rest => if only_ws rest then Infinity neg else NaN
          | None =>
              match unsigned_decimal s1 with
              | Some (p, q, rest) =>
                  if only_ws rest then round_binary64 neg p q else NaN
              | None => NaN
              end
          end
      end
  end.

(** *** Number::toString and Number.prototype.toFixed *)

Definition number_eqb (x y : number) : bool :=
  match x, y with
  | NaN, NaN => true
  | Infinity a, Infinity b => Bool.eqb a b
  | Finite a m e, Finite b m' e' => Bool.eqb a b && (m =? m') && (e =? e')
  | _, _ => false
  end.

(** [10^j <= p / q] *)
Definition pow10_le (j p q : Z) : bool :=
  if 0 <=? j then 10 ^ j * q <=? p else q <=? p * 10 ^ (- j).

(** floor(log10(p/q)) for positive [p], [q]: an estimate from the
    binary logarithm, corrected by comparison. *)
Definition log10_ratio (p q : Z) : Z :=
  let j := log2_ratio p q * 30103 / 100000 in
  if pow10_le (j + 1) p q then j + 1
  else if pow10_le j p q then j
  else j - 1.

(** [s * 10^j] as a fraction. *)
Definition scale10 (s j : Z) : Z * Z :=
  if 0 <=? j then (s * 10 ^ j, 1) else (s, 10 ^ (- j)).

(** Does the decimal [s * 10^j] denote (round to) the number [m * 2^e]? *)
Definition denotes (s j m e : Z) : bool :=
  let '(a, b) := scale10 s j in
  number_eqb (round_binary64 false a b) (Finite false m e).

(** Step 5 of Number::toString for the positive number [m * 2^e]:
    integers [n], [k], [s] with [10^(k-1) <= s < 10^k] such that
    [s * 10^(n-k)] denotes the number, [k] as small as possible and,
    for that [k], [s * 10^(n-k)] as close to the number as possible.
    The search goes through [k = k0, k0 + 1, ...]; seventeen digits
    always suffice. *)
Fixpoint shortest_upto (fuel : nat) (k n m e : Z) : Z * Z * Z :=
  let '(p, q) := magnitude m e in
  let '(a, b) := scale10 1 (n - k) in
  (* p/q divided by 10^(n-k) is (p*b)/(q*a) *)
  let lo := (p * b) / (q * a) in
  let hi := lo + 1 in
  let r := (p * b) mod (q * a) in
  let ok_lo := (10 ^ (k - 1) <=? lo) && denotes lo (n - k) m e in
  let ok_hi := denotes hi (n - k) m e in
  let pick_hi := if hi =? 10 ^ k then (n + 1, k, 10 ^ (k - 1)) else (n, k, hi) in
  let pick_lo := (n, k, lo) in
  match ok_lo, ok_hi with
  | true, true =>
      if 2 * r <? q * a then pick_lo
      else if q * a <? 2 * r then pick_hi
      else if Z.even lo then pick_lo else pick_hi
  | true, false => pick_lo
  | false, true => pick_hi
  | false, false =>
      match fuel with
      | O => pick_lo
      | S fuel' => shortest_upto fuel' (k + 1) n m e
      end
  end.

Definition zeros (n : Z) : string := repeat_char "0" (Z.to_nat n).

(** Number::toString(x), radix 10. *)
Definition Number_toString (x : number) : string :=
  match x with
  | NaN => "NaN"
  | Infinity neg => if neg then "-Infinity" else "Infinity"
  | Finite neg m e =>
      if m =? 0 then "0"
      else
        let '(p, q) := magnitude m e in
        let '(n, k, s) := shortest_upto 20 1 (log10_ratio p q + 1) m e in
        let ds := decimal s in
        let body :=
          if (k <=? n) && (n <=? 21) then ds ++ zeros (n - k)
          else if (0 <? n) && (n <=? 21) then
            take (Z.to_nat n) ds ++ "." ++ drop (Z.to_nat n) ds
          else if (-6 <? n) && (n <=? 0) then "0." ++ zeros (- n) ++ ds
          else
            let ex := (if 0 <=? n - 1 then "+" else "-") ++ decimal (Z.abs (n - 1)) in
            if k =? 1 then ds ++ "e" ++ ex
            else take 1 ds ++ "." ++ drop 1 ds ++ "e" ++ ex in
        (if neg then "-" else "") ++ body
  end.

(** Number.prototype.toFixed(f) for [0 <= f <= 100]. *)
Definition toFixed (x : number) (f : nat) : string :=
  match x with
  | Finite neg m e =>
      let '(p, q) := magnitude m e in
      let s := if neg && negb (m =? 0) then "-" else "" in
      if 10 ^ 21 * q <=? p then s ++ Number_toString (Finite false m e)
      else
        (* the integer n with n / 10^f closest to p/q, the larger of two *)
        let n := (2 * p * 10 ^ Z.of_nat f + q) / (2 * q) in
        let ds := decimal n in
        match f with
        | O => s ++ ds
        | _ =>
            let k := String.length ds in
            let ds := repeat_char "0" (f + 1 - k) ++ ds in
            let k := String.length ds in
            s ++ take (k - f) ds ++ "." ++ drop (k - f) ds
        end
  | _ => Number_toString x
  end.

(** ** Exceptions and completion records *)

(** What a [throw] (or a rejected promise) carries: an [Error] created
    by the script with its message, a [TypeError] raised by the engine
    (the message text is engine-specific and not modelled), or a
    rejection produced by the host ([fetch], [Response.json]). *)
Inductive exn : Type :=
| Error (message : string)
| TypeError
| HostError (description : string).

Inductive completion (A : Type) : Type :=
| Normal (a : A)
| Throw (e : exn).

Arguments Normal {A} a.
Arguments Throw {A} e.

Definition bind_completion {A B} (c : completion A) (k : A -> completion B)
  : completion B :=
  match c with
  | Normal a => k a
  | Throw e => Throw e
  end.

Declare Scope completion_scope.
Delimit Scope completion_scope with completion.

Notation "'let?' x ':=' c 'in' k" :=
  (bind_completion c (fun x => k))
  (at level 10, x pattern, c at level 100, k at level 200)
  : completion_scope.

Open Scope completion_scope.

(** [l.map(f)] where the callback may throw: elements are visited in
    order and the first exception aborts the call. *)
Fixpoint map_completion {A B} (f : A -> completion B) (l : list A)
  : completion (list B) :=
  match l with
  | [] => Normal []
  | a :: l' =>
      let? b := f a in
      let? bs := map_completion f l' in
      Normal (b :: bs)
  end.

(** ** JSON values *)

#[local] Set Warnings "-register-all".

(** The result of [JSON.parse]: objects keep their members in an
    association list (the first binding of a key is the one in force). *)
Inductive json : Type :=
| JNull
| JBool (b : bool)
| JNum (n : number)
| JStr (s : string)
| JArr (items : list json)
| JObj (members : list (string * json)).

(** A JavaScript value that originates from JSON; [None] is
    [undefined]. *)
Definition value : Type := option json.

Definition undefined : value := None.

Fixpoint assoc {A} (k : string) (l : list (string * A)) : option A :=
  match l with
  | [] => None
  | (k', a) :: l' => if String.eqb k k' then Some a else assoc k l'
  end.

(** ToBoolean *)
Definition truthy (v : value) : bool :=
  match v with
  | None | Some JNull => false
  | Some (JBool b) => b
  | Some (JNum n) => number_truthy n
  | Some (JStr s) => negb (String.eqb s "")
  | Some (JArr _) | Some (JObj _) => true
  end.

(** [a || b] *)
Definition or_else (a b : value) : value := if truthy a then a else b.

(** The property names the script reads from JSON-born values.  None
    of them is defined on [Object.prototype], [Array.prototype] (except
    [length], an own property of arrays) or on the wrappers of
    primitives (except [length] of strings), so a read that misses the
    own properties yields [undefined]. *)
Inductive prop : Type :=
| p_error | p_message | p_predictions | p_t | p_v | p_type | p_length.

Definition prop_name (p : prop) : string :=
  match p with
  | p_error => "error"
  | p_message => "message"
  | p_predictions => "predictions"
  | p_t => "t"
  | p_v => "v"
  | p_type => "type"
  | p_length => "length"
  end.

(** [v.p]: reading a property throws a TypeError on [null] and
    [undefined]. *)
Definition get (v : value) (p : prop) : completion value :=
  match v with
  | None | Some JNull => Throw TypeError
  | Some (JObj members) => Normal (assoc (prop_name p) members)
  | Some (JArr items) =>
      match p with
      | p_length => Normal (Some (JNum (number_of_Z (Z.of_nat (List.length items)))))
      | _ => Normal undefined
      end
  | Some (JStr s) =>
      match p with
      | p_length => Normal (Some (JNum (number_of_Z (utf16_length s))))
      | _ => Normal undefined
      end
  | Some (JBool _) | Some (JNum _) => Normal undefined
  end.

(** [Array.isArray(v)] *)
Definition isArray (v : value) : bool :=
  match v with
  | Some (JArr _) => true
  | _ => false
  end.

(** [v.map(f)]: only arrays have a callable [map]; a JSON object may
    have an own member of that name but it is never a function. *)
Definition array_map {B} (v : value) (f : value -> completion B)
  : completion (list B) :=
  match v with
  | Some (JArr items) => map_completion (fun x => f (Some x)) items
  | _ => Throw TypeError
  end.

(** [v === s] for a string literal [s] *)
Definition strict_eq_string (v : value) (s : string) : bool :=
  match v with
  | Some (JStr s') => String.eqb s' s
  | _ => false
  end.

Fixpoint all_some {A} (l : list (option A)) : option (list A) :=
  match l with
  | [] => Some []
  | Some a :: l' =>
      match all_some l' with
      | Some r => Some (a :: r)
      | None => None
      end
  | None :: _ => None
  end.

(** ToString on a JSON value; [None] stands for the TypeError thrown
    when the conversion to a primitive finds no callable [toString]:
    that happens for an object with an own member named [toString]
    (shadowing [Object.prototype.toString]; [valueOf] returns the object
    itself).  Arrays are joined with commas, [null] items printing as
    the empty string. *)
Fixpoint ToString_json (v : json) : option string :=
  match v with
  | JNull => Some "null"
  | JBool b => Some (if b then "true" else "false")
  | JNum n => Some (Number_toString n)
  | JStr s => Some s
  | JArr items =>
      match
        all_some
          (map (fun x => match x with
                         | JNull => Some ""
                         | _ => ToString_json x
                         end) items)
      with
      | Some parts => Some (join "," parts)
      | None => None
      end
  | JObj members =>
      match assoc "toString" members with
      | Some _ => None
      | None => Some "[object Object]"
      end
  end.

Definition ToString (v : value) : completion string :=
  match v with
  | None => Normal "undefined"
  | Some j =>
      match ToString_json j with
      | Some s => Normal s
      | None => Throw TypeError
      end
  end.

(** [Number(v)]: ToNumber.  Objects and arrays go through ToPrimitive
    (their [valueOf] returns the object itself, so the string form is
    what gets converted). *)
Definition Number (v : value) : completion number :=
  match v with
  | None => Normal NaN
  | Some JNull => Normal (Finite false 0 (-1074))
  | Some (JBool b) => Normal (if b then number_of_Z 1 else Finite false 0 (-1074))
  | Some (JNum n) => Normal n
  | Some (JStr s) => Normal (StringToNumber s)
  | Some (JArr _ as j) | Some (JObj _ as j) =>
      let? s := ToString (Some j) in
      Normal (StringToNumber s)
  end.

(** ** Dates (ECMAScript time values) *)

Definition msPerDay : Z := 86400000.
Definition msPerHour : Z := 3600000.

Definition Day (t : Z) : Z := t / msPerDay.
Definition TimeWithinDay (t : Z) : Z := t mod msPerDay.

Definition is_leap (y : Z) : bool :=
  (y mod 4 =? 0) && (negb (y mod 100 =? 0) || (y mod 400 =? 0)).

Definition DaysInYear (y : Z) : Z := if is_leap y then 366 else 365.

Definition DayFromYear (y : Z) : Z :=
  365 * (y - 1970) + (y - 1969) / 4 - (y - 1901) / 100 + (y - 1601) / 400.

(** The largest [y] with [DayFromYear y <= Day t]: the estimate from
    the mean year length (146097 days in 400 years) is off by at most
    one. *)
Definition YearFromTime (t : Z) : Z :=
  let d := Day t in
  let y := 1970 + 400 * d / 146097 in
  if DayFromYear (y + 1) <=? d then y + 1
  else if d <? DayFromYear y then y - 1
  else y.

Definition DayWithinYear (t : Z) : Z := Day t - DayFromYear (YearFromTime t).

Definition InLeapYear (t : Z) : Z :=
  if is_leap (YearFromTime t) then 1 else 0.

Definition MonthFromTime (t : Z) : Z :=
  let d := DayWithinYear t in
  let l := InLeapYear t in
  if d <? 31 then 0
  else if d <? 59 + l then 1
  else if d <? 90 + l then 2
  else if d <? 120 + l then 3
  else if d <? 151 + l then 4
  else if d <? 181 + l then 5
  else if d <? 212 + l then 6
  else if d <? 243 + l then 7
  else if d <? 273 + l then 8
  else if d <? 304 + l then 9
  else if d <? 334 + l then 10
  else 11.

Definition DateFromTime (t : Z) : Z :=
  let d := DayWithinYear t in
  let l := InLeapYear t in
  match MonthFromTime t with
  | 0 => d + 1
  | 1 => d - 30
  | 2 => d - 58 - l
  | 3 => d - 89 - l
  | 4 => d - 119 - l
  | 5 => d - 150 - l
  | 6 => d - 180 - l
  | 7 => d - 211 - l
  | 8 => d - 242 - l
  | 9 => d - 272 - l
  | 10 => d - 303 - l
  | _ => d - 333 - l
  end.

(** Day number of the first day of month [mn] (0..11) of year [y]. *)
Definition DayFromMonth (y mn : Z) : Z :=
  let l := if is_leap y then 1 else 0 in
  DayFromYear y +
  match mn with
  | 0 => 0
  | 1 => 31
  | 2 => 59 + l
  | 3 => 90 + l
  | 4 => 120 + l
  | 5 => 151 + l
  | 6 => 181 + l
  | 7 => 212 + l
  | 8 => 243 + l
  | 9 => 273 + l
  | 10 => 304 + l
  | _ => 334 + l
  end.

(** MakeDay on integral arguments: the day number of the first of the
    month, plus [date - 1]. *)
Definition MakeDay (year month date : Z) : Z :=
  let ym := year + month / 12 in
  let mn := month mod 12 in
  DayFromMonth ym mn + date - 1.

Definition MakeDate (day time : Z) : Z := day * msPerDay + time.

(** A Date object's time value; [None] is NaN (Invalid Date). *)
Definition Date : Type := option Z.

Definition TimeClip (t : Z) : Date :=
  if 8640000000000000 <? Z.abs t then None else Some t.

(** ToString on the integral Numbers the Date getters return. *)
Definition String_of_int (n : option Z) : string :=
  match n with
  | None => "NaN"
  | Some z => string_of_Z z
  end.

(** ** URLSearchParams *)

(** The application/x-www-form-urlencoded byte serializer: ASCII
    alphanumerics and [*-._] are kept, a space becomes [+], every other
    byte is percent-encoded with upper-case hexadecimal digits. *)
Definition hex_char (d : Z) : ascii :=
  if d <? 10 then ascii_of_nat (48 + Z.to_nat d)
  else ascii_of_nat (55 + Z.to_nat d).

Definition url_safe (c : ascii) : bool :=
  let n := Z.of_nat (nat_of_ascii c) in
  ((48 <=? n) && (n <=? 57)) || ((65 <=? n) && (n <=? 90))
  || ((97 <=? n) && (n <=? 122))
  || (n =? 42) || (n =? 45) || (n =? 46) || (n =? 95).

Fixpoint urlencode (s : string) : string :=
  match s with
  | EmptyString => EmptyString
  | String c s' =>
      let n := Z.of_nat (nat_of_ascii c) in
      if url_safe c then String c (urlencode s')
      else if n =? 32 then String "+" (urlencode s')
      else String "%" (String (hex_char (n / 16))
                         (String (hex_char (n mod 16)) (urlencode s')))
  end.

(** The list of name-value pairs of a URLSearchParams object. *)
Definition URLSearchParams : Type := list (string * string).

Fixpoint remove_name (name : string) (l : URLSearchParams) : URLSearchParams :=
  match l with
  | [] => []
  | (n, v) :: l' =>
      if String.eqb n name then remove_name name l'
      else (n, v) :: remove_name name l'
  end.

(** [params.set(name, value)]: the first pair named [name] gets the
    value and the other ones are removed; without such a pair a new one
    is appended. *)
Fixpoint params_set (name value : string) (l : URLSearchParams)
  : URLSearchParams :=
  match l with
  | [] => [(name, value)]
  | (n, v) :: l' =>
      if String.eqb n name then (n, value) :: remove_name name l'
      else (n, v) :: params_set name value l'
  end.

(** [params.toString()] *)
Definition params_toString (l : URLSearchParams) : string :=
  join "&" (map (fun '(n, v) => urlencode n ++ "=" ++ urlencode v) l).

Definition params_names (l : URLSearchParams) : list string := map fst l.

Definition params_get (name : string) (l : URLSearchParams) : option string :=
  assoc name l.

(** Reading a query string back (the urlencoded parser): split at
    [&], cut each piece at its first [=], decode [+] and the percent
    escapes. *)
Fixpoint urldecode (s : string) : string :=
  match s with
  | EmptyString => EmptyString
  | String c s' =>
      if Ascii.eqb c "+" then String " " (urldecode s')
      else if Ascii.eqb c "%" then
        match s' with
        | String h (String l s'') =>
            match hex_val h, hex_val l with
            | Some a, Some b =>
                String (ascii_of_nat (Z.to_nat (a * 16 + b))) (urldecode s'')
            | _, _ => String c (urldecode s')
            end
        | _ => String c (urldecode s')
        end
      else String c (urldecode s')
  end.

(** The pieces of [s] between the occurrences of [sep]. *)
Fixpoint split_at (sep : ascii) (s : string) : list string :=
  match s with
  | EmptyString => [EmptyString]
  | String c s' =>
      if Ascii.eqb c sep then EmptyString :: split_at sep s'
      else match split_at sep s' with
           | piece :: pieces => String c piece :: pieces
           | [] => [String c EmptyString]
           end
  end.

(** [s] before and after its first [sep]. *)
Fixpoint cut_at (sep : ascii) (s : string) : string * string :=
  match s with
  | EmptyString => (EmptyString, EmptyString)
  | String c s' =>
      if Ascii.eqb c sep then (EmptyString, s')
      else let '(a, b) := cut_at sep s' in (String c a, b)
  end.

Definition parse_query (s : string) : URLSearchParams :=
  match s with
  | EmptyString => []
  | _ =>
      map (fun piece =>
             let '(n, v) := cut_at "=" piece in (urldecode n, urldecode v))
        (split_at "&" s)
  end.

Fixpoint free_of (c : ascii) (s : string) : bool :=
  match s with
  | EmptyString => true
  | String c' s' => negb (Ascii.eqb c' c) && free_of c s'
  end.

(** ** The host environment *)

(** What the browser supplies and the script cannot observe otherwise.
    - [LocalTZA t isUTC]: the offset of local time from UTC in
      milliseconds, at the UTC instant [t] ([isUTC = true]) or for the
      local time value [t] ([isUTC = false]).
    - [Date_parse s]: the time value of [new Date(s)] for a string [s]
      (the formats accepted besides the ISO one are
      implementation-defined).
    - [toLocaleDateString d] and [toLocaleTimeString_hm d], the latter
      for [d.toLocaleTimeString([], {hour: '2-digit', minute:
      '2-digit'})], depend on the locale of the browser. *)
Record Host : Type := {
  LocalTZA : Z -> bool -> Z;
  Date_parse : string -> Date;
  toLocaleDateString : Date -> string;
  toLocaleTimeString_hm : Date -> string
}.

Section DatesAndUrls.

Variable host : Host.

Definition LocalTime (t : Z) : Z := t + LocalTZA host t true.
Definition UTC (t : Z) : Z := t - LocalTZA host t false.

Definition getFullYear (d : Date) : option Z :=
  option_map (fun t => YearFromTime (LocalTime t)) d.

Definition getMonth (d : Date) : option Z :=
  option_map (fun t => MonthFromTime (LocalTime t)) d.

Definition getDate (d : Date) : option Z :=
  option_map (fun t => DateFromTime (LocalTime t)) d.

(** [d.setDate(dt)]: the new time value of [d]. *)
Definition setDate (d : Date) (dt : option Z) : Date :=
  match d, dt with
  | Some t, Some dt =>
      let t := LocalTime t in
      let newDate :=
        MakeDate (MakeDay (YearFromTime t) (MonthFromTime t) dt)
                 (TimeWithinDay t) in
      TimeClip (UTC newDate)
  | _, _ => None
  end.

(** *** The script: constants and pure helpers *)

Definition STATION_ID : string := "9447856".
Definition API_BASE : string :=
  "https://api.tidesandcurrents.noaa.gov/api/prod/datagetter".

Definition fmtDate (date : Date) : string :=
  let y := getFullYear date in
  let m := padStart (String_of_int (option_map (Z.add 1) (getMonth date))) 2 "0" in
  let d := padStart (String_of_int (getDate date)) 2 "0" in
  String_of_int y ++ m ++ d.

Definition localTZ : string := "lst_ldt".

(** The argument object of [buildUrl]; [interval = None] when the
    caller leaves the property out. *)
Record UrlArgs : Type := {
  begin : Date;
  end_ : Date;
  product : string;
  interval : option string;
  datum : string;
  units : string
}.

Definition string_truthy (s : option string) : bool :=
  match s with
  | Some s => negb (String.eqb s "")
  | None => false
  end.

Definition buildUrl_params (a : UrlArgs) : URLSearchParams :=
  let params :=
    [("product", product a);
     ("application", "Jeremy.Whidbey.Tides");
     ("begin_date", fmtDate (begin a));
     ("end_date", fmtDate (end_ a));
     ("datum", datum a);
     ("station", STATION_ID);
     ("time_zone", localTZ);
     ("units", units a);
     ("format", "json")] in
  if string_truthy (interval a) then
    match interval a with
    | Some i => params_set "interval" i params
    | None => params
    end
  else params.

Definition buildUrl (a : UrlArgs) : string :=
  API_BASE ++ "?" ++ params_toString (buildUrl_params a).

End DatesAndUrls.

(** ** Chart.js, the page and the network *)

(** The part of the configuration handed to [new Chart] that depends
    on the data: the labels, the two datasets, the colour callback of
    the marker dataset, the tooltip callback and the axis title.  The
    constant styling members are left out. *)
Record HiloPoint : Type := {
  pt_x : Date;
  pt_y : number;
  pt_type : value
}.

Record LineDataset : Type := {
  line_label : string;
  line_data : list number
}.

Record ScatterDataset : Type := {
  scatter_label : string;
  scatter_data : list HiloPoint;
  scatter_backgroundColor : HiloPoint -> string
}.

Record ChartConfig : Type := {
  cfg_labels : list Date;
  cfg_line : LineDataset;
  cfg_scatter : ScatterDataset;
  cfg_tooltip_label : number -> string;
  cfg_y_title : string
}.

(** A Chart.js instance. *)
Record Chart : Type := {
  chart_id : nat;
  chart_config : ChartConfig
}.

(** [Response]: [resp.ok], [resp.status] and the outcome of
    [resp.json()]. *)
Record Response : Type := {
  ok : bool;
  status : Z;
  json_body : completion json
}.

(** Observable actions, most recent first in [trace]. *)
Inductive event : Type :=
| Fetch (url : string)
| Call_setHiloNote (supportsHourly : bool)
| Call_renderChart (hourly hilo : value) (units : string)
| Call_renderTable (hilo : value) (units : string)
| Chart_destroy (id : nat)
| Chart_new (id : nat)
| Console_warn (e : exn).

(** The state a run of the script can read or change.
    - [clock]: the time value [new Date()] returns;
    - [datumSel_value], [unitsSel_value]: the selected options;
    - [network]: the outcome of [fetch(url)];
    - [chart]: the global variable [chart] ([None] is [undefined]);
    - [live_charts]: the ids of the Chart instances that were created
      and not destroyed;
    - [hiloNote]: the text of the note; [tbody]: the rows of the table
      body (their [innerHTML]);
    - [trace]: the actions so far. *)
Record World : Type := {
  clock : Z;
  datumSel_value : string;
  unitsSel_value : string;
  network : string -> completion Response;
  chart : option Chart;
  live_charts : list nat;
  next_chart_id : nat;
  hiloNote : string;
  tbody : list string;
  trace : list event
}.

(** ** The script monad: state and exceptions *)

Definition M (S A : Type) : Type := S -> completion A * S.

Definition ret {S A} (a : A) : M S A := fun s => (Normal a, s).

Definition bind {S A B} (c : M S A) (k : A -> M S B) : M S B :=
  fun s =>
    match c s with
    | (Normal a, s') => k a s'
    | (Throw e, s') => (Throw e, s')
    end.

Definition throw {S A} (e : exn) : M S A := fun s => (Throw e, s).

(** [try { body } catch (e) { handler }]: the handler runs in the state
    the body reached when it threw. *)
Definition try_catch {S A} (body : M S A) (handler : exn -> M S A) : M S A :=
  fun s =>
    match body s with
    | (Normal a, s') => (Normal a, s')
    | (Throw e, s') => handler e s'
    end.

(** A computation that may throw and has no other effect. *)
Definition pure {S A} (c : completion A) : M S A := fun s => (c, s).

Definition gets {S A} (f : S -> A) : M S A := fun s => (Normal (f s), s).

Definition modify {S} (f : S -> S) : M S unit := fun s => (Normal tt, f s).

Definition when {S} (b : bool) (c : M S unit) : M S unit :=
  if b then c else ret tt.

Declare Scope js_scope.
Delimit Scope js_scope with js.

Notation "x <- c ;; k" := (bind c (fun x => k))
  (at level 61, c at next level, right associativity) : js_scope.
Notation "c ;; k" := (bind c (fun _ => k))
  (at level 61, right associativity) : js_scope.

Open Scope js_scope.

(** [for (const a of l) body(a)] *)
Fixpoint for_of {S A} (l : list A) (body : A -> M S unit) : M S unit :=
  match l with
  | [] => ret tt
  | a :: l' => body a ;; for_of l' body
  end.

(** Code that runs on the page. *)
Definition JS (A : Type) : Type := M World A.

(** A function body with local variables of type [L] that are assigned
    to: the state is the locals together with the page. *)
Definition Block (L A : Type) : Type := M (L * World) A.

Definition on_page {L A} (c : JS A) : Block L A :=
  fun '(l, w) => let '(r, w') := c w in (r, (l, w')).

Definition local {L A} (f : L -> A) : Block L A :=
  fun '(l, w) => (Normal (f l), (l, w)).

Definition assign {L} (f : L -> L) : Block L unit :=
  fun '(l, w) => (Normal tt, (f l, w)).

Definition run_block {L A} (init : L) (b : Block L A) : JS A :=
  fun w => let '(r, (_, w')) := b (init, w) in (r, w').

(** *** Updates of the page *)

Definition with_trace (t : list event) (w : World) : World :=
  {| clock := clock w;
     datumSel_value := datumSel_value w;
     unitsSel_value := unitsSel_value w;
     network := network w;
     chart := chart w;
     live_charts := live_charts w;
     next_chart_id := next_chart_id w;
     hiloNote := hiloNote w;
     tbody := tbody w;
     trace := t |}.

Definition with_hiloNote (s : string) (w : World) : World :=
  {| clock := clock w;
     datumSel_value := datumSel_value w;
     unitsSel_value := unitsSel_value w;
     network := network w;
     chart := chart w;
     live_charts := live_charts w;
     next_chart_id := next_chart_id w;
     hiloNote := s;
     tbody := tbody w;
     trace := trace w |}.

Definition with_tbody (rows : list string) (w : World) : World :=
  {| clock := clock w;
     datumSel_value := datumSel_value w;
     unitsSel_value := unitsSel_value w;
     network := network w;
     chart := chart w;
     live_charts := live_charts w;
     next_chart_id := next_chart_id w;
     hiloNote := hiloNote w;
     tbody := rows;
     trace := trace w |}.

Definition with_chart (c : option Chart) (w : World) : World :=
  {| clock := clock w;
     datumSel_value := datumSel_value w;
     unitsSel_value := unitsSel_value w;
     network := network w;
     chart := c;
     live_charts := live_charts w;
     next_chart_id := next_chart_id w;
     hiloNote := hiloNote w;
     tbody := tbody w;
     trace := trace w |}.

Definition with_live_charts (l : list nat) (next : nat) (w : World) : World :=
  {| clock := clock w;
     datumSel_value := datumSel_value w;
     unitsSel_value := unitsSel_value w;
     network := network w;
     chart := chart w;
     live_charts := l;
     next_chart_id := next;
     hiloNote := hiloNote w;
     tbody := tbody w;
     trace := trace w |}.

Definition log_event (e : event) (w : World) : World :=
  with_trace (e :: trace w) w.

Definition emit (e : event) : JS unit := modify (log_event e).

(** [new Date()] *)
Definition new_Date : JS Date := gets (fun w => Some (clock w)).

(** [await fetch(url)] *)
Definition fetch (url : string) : JS Response :=
  emit (Fetch url) ;;
  r <- gets (fun w => network w url) ;;
  pure r.

(** [note.textContent = s] *)
Definition set_hiloNote (s : string) : JS unit := modify (with_hiloNote s).

(** [tbody.innerHTML = ''] and [tbody.appendChild(tr)] *)
Definition set_tbody (rows : list string) : JS unit := modify (with_tbody rows).

Definition tbody_appendChild (tr : string) : JS unit :=
  rows <- gets tbody ;;
  set_tbody (rows ++ [tr])%list.

(** [c.destroy()]: the instance is released. *)
Definition Chart_destroy_ (c : Chart) : JS unit :=
  emit (Chart_destroy (chart_id c)) ;;
  modify (fun w =>
    with_live_charts
      (filter (fun i => negb (Nat.eqb i (chart_id c))) (live_charts w))
      (next_chart_id w) w).

(** [new Chart(ctx, config)]: a fresh instance comes to life. *)
Definition Chart_new_ (config : ChartConfig) : JS Chart :=
  i <- gets next_chart_id ;;
  emit (Chart_new i) ;;
  modify (fun w => with_live_charts (i :: live_charts w) (S i) w) ;;
  ret {| chart_id := i; chart_config := config |}.

(** [chart = c] *)
Definition set_chart (c : Chart) : JS unit := modify (with_chart (Some c)).

(** ** The script: functions common to both revisions *)

(** [fetchJSON(url)]: the parsed body, unless the status is not a
    success ([resp.ok] false) or the body has a truthy [error]
    member. *)
Definition fetchJSON (url : string) : JS value :=
  resp <- fetch url ;;
  if negb (ok resp) then
    throw (Error ("HTTP " ++ string_of_Z (status resp)))
  else
    data <- pure (json_body resp) ;;
    err <- pure (get (Some data) p_error) ;;
    if truthy err then
      msg <- pure (get err p_message) ;;
      message <- pure (ToString (or_else msg (Some (JStr "API error")))) ;;
      throw (Error message)
    else
      ret (Some data).

Definition last7Next7 (host : Host) : JS (Date * Date) :=
  now <- new_Date ;;
  let begin := now in
  let begin := setDate host begin (option_map (fun d => d - 7) (getDate host now)) in
  let end_ := now in
  let end_ := setDate host end_ (option_map (fun d => d + 7) (getDate host now)) in
  ret (begin, end_).

Definition hiloNote_text (supportsHourly : bool) : string :=
  if supportsHourly
  then "Showing verified high/low times alongside hourly predictions."
  else "Station provides high/low predictions only; no hourly series available.".

Definition setHiloNote (supportsHourly : bool) : JS unit :=
  emit (Call_setHiloNote supportsHourly) ;;
  set_hiloNote (hiloNote_text supportsHourly).

(** [units === 'metric' ? 'm' : 'ft'] *)
Definition unitLabel (units : string) : string :=
  if String.eqb units "metric" then "m" else "ft".

(** [row.type === 'H' ? 'High' : 'Low'] *)
Definition typeStr (type : value) : string :=
  if strict_eq_string type "H" then "High" else "Low".

(** The [backgroundColor] callback of the marker dataset, applied to
    [ctx.raw]. *)
Definition markerColor (raw : HiloPoint) : string :=
  if strict_eq_string (pt_type raw) "H"
  then "rgba(25,150,25,0.9)"
  else "rgba(200,60,60,0.9)".

(** The tooltip [label] callback, applied to [ctx.parsed.y]. *)
Definition tooltipLabel (units : string) (y : number) : string :=
  toFixed y 2 ++ " " ++ unitLabel units.

(** [`<td>${dateStr}</td><td>${timeStr}</td><td>${typeStr}</td><td>${h} ${unitLabel}</td>`] *)
Definition row_html (dateStr timeStr typeStr h unitLabel : string) : string :=
  "<td>" ++ dateStr ++ "</td><td>" ++ timeStr ++ "</td><td>" ++ typeStr
  ++ "</td><td>" ++ h ++ " " ++ unitLabel ++ "</td>".

Definition is_continuation (s : string) : bool :=
  match s with
  | String c _ =>
      let b := Z.of_nat (nat_of_ascii c) in (128 <=? b) && (b <? 192)
  | EmptyString => false
  end.

(** The code points of a string, as strings. *)
Fixpoint code_points (s : string) : list string :=
  match s with
  | EmptyString => []
  | String c s' =>
      match code_points s' with
      | next :: rest =>
          if is_continuation next then String c next :: rest
          else String c "" :: next :: rest
      | [] => [String c ""]
      end
  end.

(** The values [for (const row of v)] goes through: the items of an
    array, the code points of a string; other JSON values are not
    iterable. *)
Definition iterate (v : value) : completion (list value) :=
  match v with
  | Some (JArr items) => Normal (map Some items)
  | Some (JStr s) => Normal (map (fun c => Some (JStr c)) (code_points s))
  | _ => Throw TypeError
  end.

(** [s.replace(' ', 'T')]: only strings have a callable [replace]. *)
Definition replace_space_T (s : value) : completion string :=
  match s with
  | Some (JStr s') => Normal (replace_first " " "T" s')
  | _ => Throw TypeError
  end.

(** [if (chart){ chart.destroy(); } chart = new Chart(ctx, config);] *)
Definition replace_chart (config : ChartConfig) : JS unit :=
  old <- gets chart ;;
  match old with
  | Some c => Chart_destroy_ c
  | None => ret tt
  end ;;
  c <- Chart_new_ config ;;
  set_chart c.

(** The local variables of [loadData] that are assigned to after their
    declaration. *)
Record Frame : Type := {
  hourly : value;
  supportsHourly : bool
}.

Definition set_hourly (v : value) (f : Frame) : Frame :=
  {| hourly := v; supportsHourly := supportsHourly f |}.

Definition set_supportsHourly (b : bool) (f : Frame) : Frame :=
  {| hourly := hourly f; supportsHourly := b |}.

Definition empty_array : value := Some (JArr []).

(** ** First revision of the script *)

Module V1.

Section Script.

Variable host : Host.

Definition toLocalISO (s : value) : completion Date :=
  let? s' := replace_space_T s in
  Normal (Date_parse host s').

Definition label_of (p : value) : completion Date :=
  let? t := get p p_t in toLocalISO t.

Definition height_of (p : value) : completion number :=
  let? v := get p p_v in Number v.

Definition hiloPoint_of (p : value) : completion HiloPoint :=
  let? t := get p p_t in
  let? x := toLocalISO t in
  let? v := get p p_v in
  let? y := Number v in
  let? type := get p p_type in
  Normal {| pt_x := x; pt_y := y; pt_type := type |}.

(** The configuration [renderChart] builds before it touches the
    chart. *)
Definition chart_config_of (hourly hilo : value) (units : string)
  : completion ChartConfig :=
  let? labels :=
    (let? len := get hourly p_length in
     if truthy len then array_map hourly label_of
     else array_map hilo label_of) in
  let? series :=
    (let? len := get hourly p_length in
     if truthy len then array_map hourly height_of
     else array_map hilo height_of) in
  let? hiloPoints := array_map hilo hiloPoint_of in
  let unitLabel := unitLabel units in
  let? len := get hourly p_length in
  Normal
    {| cfg_labels := labels;
       cfg_line :=
         {| line_label :=
              if truthy len
              then "Hourly predictions (" ++ unitLabel ++ ")"
              else "High/Low points (" ++ unitLabel ++ ")";
            line_data := series |};
       cfg_scatter :=
         {| scatter_label := "High / Low markers";
            scatter_data := hiloPoints;
            scatter_backgroundColor := markerColor |};
       cfg_tooltip_label := tooltipLabel units;
       cfg_y_title := "Height (" ++ unitLabel ++ ")" |}.

Definition renderChart (hourly hilo : value) (units : string) : JS unit :=
  emit (Call_renderChart hourly hilo units) ;;
  config <- pure (chart_config_of hourly hilo units) ;;
  replace_chart config.

Definition renderTable (hilo : value) (units : string) : JS unit :=
  emit (Call_renderTable hilo units) ;;
  set_tbody [] ;;
  let unitLabel := unitLabel units in
  rows <- pure (iterate hilo) ;;
  for_of rows (fun row =>
    t <- pure (get row p_t) ;;
    dt <- pure (toLocalISO t) ;;
    let dateStr := toLocaleDateString host dt in
    let timeStr := toLocaleTimeString_hm host dt in
    type <- pure (get row p_type) ;;
    let typeStr := typeStr type in
    v <- pure (get row p_v) ;;
    n <- pure (Number v) ;;
    let h := toFixed n 2 in
    tbody_appendChild (row_html dateStr timeStr typeStr h unitLabel)).

Definition loadData : JS unit :=
  run_block {| hourly := Some JNull; supportsHourly := true |}
    (w <- on_page (last7Next7 host) ;;
     let '(begin, end_) := w in
     datum <- on_page (gets datumSel_value) ;;
     units <- on_page (gets unitsSel_value) ;;
     try_catch
       (let urlHourly :=
          buildUrl host
            {| begin := begin; end_ := end_; product := "predictions";
               interval := Some "60"; datum := datum; units := units |} in
        res <- on_page (fetchJSON urlHourly) ;;
        predictions <- pure (get res p_predictions) ;;
        assign (set_hourly (or_else predictions empty_array)) ;;
        h <- local hourly ;;
        len <- pure (get h p_length) ;;
        when (negb (truthy len)) (assign (set_supportsHourly false)))
       (fun e => assign (set_supportsHourly false)) ;;
     let urlHilo :=
       buildUrl host
         {| begin := begin; end_ := end_; product := "predictions";
            interval := Some "hilo"; datum := datum; units := units |} in
     hiloRes <- on_page (fetchJSON urlHilo) ;;
     predictions <- pure (get hiloRes p_predictions) ;;
     let hilo := or_else predictions empty_array in
     s <- local supportsHourly ;;
     on_page (setHiloNote s) ;;
     h <- local hourly ;;
     on_page (renderChart h hilo units) ;;
     on_page (renderTable hilo units)).

End Script.

End V1.

(** ** Second revision of the script *)

Module V2.

Section Script.

Variable host : Host.

Definition toLocalDate (s : value) : completion Date :=
  let? s' := replace_space_T s in
  Normal (Date_parse host s').

Definition label_of (p : value) : completion Date :=
  let? t := get p p_t in toLocalDate t.

Definition height_of (p : value) : completion number :=
  let? v := get p p_v in Number v.

Definition hiloPoint_of (p : value) : completion HiloPoint :=
  let? t := get p p_t in
  let? x := toLocalDate t in
  let? v := get p p_v in
  let? y := Number v in
  let? type := get p p_type in
  Normal {| pt_x := x; pt_y := y; pt_type := type |}.

(** [hourly.length ? hourly : hilo], the sequence behind the line
    dataset. *)
Definition primary (hourly hilo : value) : completion value :=
  let? len := get hourly p_length in
  Normal (if truthy len then hourly else hilo).

Definition chart_config_of (hourly hilo : value) (units : string)
  : completion ChartConfig :=
  let unitLabel := unitLabel units in
  let? labels :=
    (let? src := primary hourly hilo in array_map src label_of) in
  let? series :=
    (let? src := primary hourly hilo in array_map src height_of) in
  let? hiloPoints := array_map hilo hiloPoint_of in
  let? len := get hourly p_length in
  Normal
    {| cfg_labels := labels;
       cfg_line :=
         {| line_label :=
              if truthy len
              then "Hourly predictions (" ++ unitLabel ++ ")"
              else "High/Low points (" ++ unitLabel ++ ")";
            line_data := series |};
       cfg_scatter :=
         {| scatter_label := "High / Low markers";
            scatter_data := hiloPoints;
            scatter_backgroundColor := markerColor |};
       cfg_tooltip_label := tooltipLabel units;
       cfg_y_title := "Height (" ++ unitLabel ++ ")" |}.

Definition renderChart (hourly hilo : value) (units : string) : JS unit :=
  emit (Call_renderChart hourly hilo units) ;;
  config <- pure (chart_config_of hourly hilo units) ;;
  replace_chart config.

Definition renderTable (hilo : value) (units : string) : JS unit :=
  emit (Call_renderTable hilo units) ;;
  set_tbody [] ;;
  let unitLabel := unitLabel units in
  rows <- pure (iterate hilo) ;;
  for_of rows (fun row =>
    t <- pure (get row p_t) ;;
    dt <- pure (toLocalDate t) ;;
    let dateStr := toLocaleDateString host dt in
    let timeStr := toLocaleTimeString_hm host dt in
    type <- pure (get row p_type) ;;
    let typeStr := typeStr type in
    v <- pure (get row p_v) ;;
    n <- pure (Number v) ;;
    let h := toFixed n 2 in
    tbody_appendChild (row_html dateStr timeStr typeStr h unitLabel)).

(** [Array.isArray(x) ? x : []] *)
Definition array_or_empty (x : value) : value :=
  if isArray x then x else empty_array.

Definition loadData : JS unit :=
  run_block {| hourly := empty_array; supportsHourly := true |}
    (w <- on_page (last7Next7 host) ;;
     let '(begin, end_) := w in
     datum <- on_page (gets datumSel_value) ;;
     units <- on_page (gets unitsSel_value) ;;
     try_catch
       (let urlHourly :=
          buildUrl host
            {| begin := begin; end_ := end_; product := "predictions";
               interval := Some "60"; datum := datum; units := units |} in
        res <- on_page (fetchJSON urlHourly) ;;
        predictions <- pure (get res p_predictions) ;;
        assign (set_hourly (array_or_empty predictions)) ;;
        h <- local hourly ;;
        len <- pure (get h p_length) ;;
        when (negb (truthy len)) (assign (set_supportsHourly false)))
       (fun e =>
          on_page (emit (Console_warn e)) ;;
          assign (set_supportsHourly false)) ;;
     let urlHilo :=
       buildUrl host
         {| begin := begin; end_ := end_; product := "predictions";
            interval := Some "hilo"; datum := datum; units := units |} in
     hiloRes <- on_page (fetchJSON urlHilo) ;;
     predictions <- pure (get hiloRes p_predictions) ;;
     let hilo := array_or_empty predictions in
     s <- local supportsHourly ;;
     on_page (setHiloNote s) ;;
     h <- local hourly ;;
     on_page (renderChart h hilo units) ;;
     on_page (renderTable hilo units)).

End Script.

End V2.

(** ** The forecast cards (second revision) *)

(** The property names [loadWeather] reads from JSON-born values; none
    is defined on a prototype, so a read that misses the own properties
    yields [undefined]. *)
Inductive wx_prop : Type :=
| w_properties | w_forecast | w_forecastGridData | w_periods
| w_icon | w_name | w_temperature | w_temperatureUnit | w_shortForecast
| w_windSpeed | w_windDirection.

Definition wx_prop_name (p : wx_prop) : string :=
  match p with
  | w_properties => "properties"
  | w_forecast => "forecast"
  | w_forecastGridData => "forecastGridData"
  | w_periods => "periods"
  | w_icon => "icon"
  | w_name => "name"
  | w_temperature => "temperature"
  | w_temperatureUnit => "temperatureUnit"
  | w_shortForecast => "shortForecast"
  | w_windSpeed => "windSpeed"
  | w_windDirection => "windDirection"
  end.

(** [v.p] *)
Definition get_wx (v : value) (p : wx_prop) : completion value :=
  match v with
  | None | Some JNull => Throw TypeError
  | Some (JObj members) => Normal (assoc (wx_prop_name p) members)
  | Some (JBool _) | Some (JNum _) | Some (JStr _) | Some (JArr _) =>
      Normal undefined
  end.

(** [v?.p] *)
Definition get_wx_optional (v : value) (p : wx_prop) : value :=
  match v with
  | None | Some JNull => undefined
  | Some (JObj members) => assoc (wx_prop_name p) members
  | Some (JBool _) | Some (JNum _) | Some (JStr _) | Some (JArr _) => undefined
  end.

(** The code points that the first [n] UTF-16 code units of a string
    belong to. *)
Fixpoint first_units (n : nat) (cps : list string) {struct cps} : list string :=
  match n, cps with
  | S n', cp :: rest =>
      cp :: first_units (if 1 <? utf16_length cp then Nat.pred n' else n') rest
  | _, _ => []
  end.

(** The values [for (const p of v.slice(0, 14))] goes through: arrays
    and strings have a callable [slice], other JSON values do not.  For
    a string these are one-character strings (when the slice cuts a
    surrogate pair the last one is a lone surrogate, here the code
    point it comes from: the loop reads nothing from it that tells the
    two apart). *)
Definition slice_0_14 (v : value) : completion (list value) :=
  match v with
  | Some (JArr items) => Normal (map Some (firstn 14 items))
  | Some (JStr s) =>
      Normal (map (fun c => Some (JStr c)) (first_units 14 (code_points s)))
  | _ => Throw TypeError
  end.

(** The double quote and the line feed. *)
Definition quote : string := String (ascii_of_nat 34) "".
Definition newline : string := String (ascii_of_nat 10) "".

(** The [img] element of a period that has an icon: an empty [alt],
    the icon as [src] and the fixed [style]. *)
Definition icon_html (icon : string) : string :=
  "<img alt=" ++ quote ++ quote ++ " src=" ++ quote ++ icon ++ quote
  ++ " style=" ++ quote ++ "width:36px;height:36px;float:right" ++ quote
  ++ "/>".

(** The template assigned to [card.innerHTML], line by line, with the
    line feeds and the indentation of the source. *)
Definition card_html (name icon temperature temperatureUnit shortForecast
                      windSpeed windDirection : string) : string :=
  newline
  ++ "        <h3>" ++ name ++ "</h3>" ++ newline
  ++ "        " ++ icon ++ newline
  ++ "        <div class=" ++ quote ++ "temp" ++ quote ++ ">"
  ++ temperature ++ "°" ++ temperatureUnit ++ "</div>" ++ newline
  ++ "        <div class=" ++ quote ++ "detail" ++ quote ++ ">"
  ++ shortForecast ++ "</div>" ++ newline
  ++ "        <div class=" ++ quote ++ "detail" ++ quote ++ ">Winds: "
  ++ windSpeed ++ " " ++ windDirection ++ "</div>" ++ newline
  ++ "      ".

(** The markup of the alert, [Weather forecast unavailable
    (message).] in a [div] of role [alert]. *)
Definition alert_html (message : string) : string :=
  "<div role=" ++ quote ++ "alert" ++ quote
  ++ ">Weather forecast unavailable (" ++ message ++ ").</div>".

(** The children of the grid: what the parser made of markup assigned
    to [innerHTML], or a [div] of class [wx-card] with its
    [innerHTML]. *)
Inductive grid_child : Type :=
| Markup (html : string)
| Card (innerHTML : string).

(** The part of the page [loadWeather] works on: the network, the
    children of the element with id [wxGrid] ([None] when the page has
    no such element) and the addresses requested so far, most recent
    first. *)
Record WxPage : Type := {
  wx_network : string -> completion Response;
  wxGrid : option (list grid_child);
  wx_requests : list string
}.

Definition with_wxGrid (children : list grid_child) (w : WxPage) : WxPage :=
  {| wx_network := wx_network w;
     wxGrid := Some children;
     wx_requests := wx_requests w |}.

Definition with_wx_request (url : string) (w : WxPage) : WxPage :=
  {| wx_network := wx_network w;
     wxGrid := wxGrid w;
     wx_requests := url :: wx_requests w |}.

(** [await fetch(url)]: the network is asked for the address as the
    script wrote it. *)
Definition wx_fetch (url : string) : M WxPage Response :=
  modify (with_wx_request url) ;;
  r <- gets (fun w => wx_network w url) ;;
  pure r.

(** [grid.innerHTML = html]: the children are replaced by what the
    markup stands for, nothing for the empty string. *)
Definition set_grid_innerHTML (html : string) : M WxPage unit :=
  modify (with_wxGrid (if String.eqb html "" then [] else [Markup html])).

(** [grid.appendChild(card)] *)
Definition grid_appendChild (card : grid_child) : M WxPage unit :=
  modify (fun w =>
    match wxGrid w with
    | Some children => with_wxGrid (children ++ [card])%list w
    | None => w
    end).

(** The numeric literals [48.035] and [-122.377]. *)
Definition WX_LAT : number := StringToNumber "48.035".
Definition WX_LON : number := StringToNumber "-122.377".

(** [`https://api.weather.gov/points/${WX_LAT},${WX_LON}`] *)
Definition points_url : string :=
  "https://api.weather.gov/points/" ++ Number_toString WX_LAT ++ ","
  ++ Number_toString WX_LON.

(** The card of one period: [icon] is the [img] element when [p.icon]
    is truthy and the empty string otherwise; the substitutions of the
    template are converted to strings in the order of the source. *)
Definition weather_card (p : value) : completion grid_child :=
  let? icon_value := get_wx p w_icon in
  let? icon :=
    (if truthy icon_value
     then let? src := ToString icon_value in Normal (icon_html src)
     else Normal "") in
  let? name := get_wx p w_name in
  let? name := ToString name in
  let? temperature := get_wx p w_temperature in
  let? temperature := ToString temperature in
  let? temperatureUnit := get_wx p w_temperatureUnit in
  let? temperatureUnit := ToString temperatureUnit in
  let? shortForecast := get_wx p w_shortForecast in
  let? shortForecast := ToString shortForecast in
  let? windSpeed := get_wx p w_windSpeed in
  let? windSpeed := ToString windSpeed in
  let? windDirection := get_wx p w_windDirection in
  let? windDirection := ToString (or_else windDirection (Some (JStr ""))) in
  Normal (Card (card_html name icon temperature temperatureUnit shortForecast
                  windSpeed windDirection)).

(** The body of the loop: a card is built and appended. *)
Definition append_card (p : value) : M WxPage unit :=
  card <- pure (weather_card p) ;;
  grid_appendChild card.

(** [points?.properties?.forecast || points?.properties?.forecastGridData] *)
Definition forecastUrl_of (points : json) : value :=
  let properties := get_wx_optional (Some points) w_properties in
  or_else (get_wx_optional properties w_forecast)
          (get_wx_optional properties w_forecastGridData).

(** [fc?.properties?.periods || []] *)
Definition periods_of (fc : json) : value :=
  or_else (get_wx_optional (get_wx_optional (Some fc) w_properties) w_periods)
          empty_array.

Section Weather.

(** [e.message] for an exception that the script did not create: the
    text is the engine's or the browser's. *)
Variable engine_message : exn -> string.

Definition message_of (e : exn) : string :=
  match e with
  | Error message => message
  | TypeError | HostError _ => engine_message e
  end.

Definition loadWeather : M WxPage unit :=
  grid <- gets wxGrid ;;
  match grid with
  | None => ret tt
  | Some _ =>
      set_grid_innerHTML "<div>Loading forecast…</div>" ;;
      try_catch
        (pointsResp <- wx_fetch points_url ;;
         if negb (ok pointsResp) then throw (Error "points lookup failed")
         else
           points <- pure (json_body pointsResp) ;;
           let forecastUrl := forecastUrl_of points in
           if negb (truthy forecastUrl) then throw (Error "forecast URL missing")
           else
             url <- pure (ToString forecastUrl) ;;
             fcResp <- wx_fetch url ;;
             if negb (ok fcResp) then throw (Error "forecast fetch failed")
             else
               fc <- pure (json_body fcResp) ;;
               let periods := periods_of fc in
               first14 <- pure (slice_0_14 periods) ;;
               set_grid_innerHTML "" ;;
               for_of first14 append_card)
        (fun e => set_grid_innerHTML (alert_html (message_of e)))
  end.

End Weather.

(** ** Vocabulary of the statements *)

(** The completion of [fetchJSON] as a function of what [fetch]
    produced. *)
Definition fetchJSON_result (r : completion Response) : completion value :=
  let? resp := r in
  if negb (ok resp) then Throw (Error ("HTTP " ++ string_of_Z (status resp)))
  else
    let? data := json_body resp in
    let? err := get (Some data) p_error in
    if truthy err then
      let? msg := get err p_message in
      let? message := ToString (or_else msg (Some (JStr "API error"))) in
      Throw (Error message)
    else Normal (Some data).

(** The window [last7Next7] computes when the clock shows [now]. *)
Definition window (host : Host) (now : Z) : Date * Date :=
  (setDate host (Some now) (option_map (fun d => d - 7) (getDate host (Some now))),
   setDate host (Some now) (option_map (fun d => d + 7) (getDate host (Some now)))).

(** The URL [loadData] requests for an interval, on the page [w]. *)
Definition request (host : Host) (interval : string) (w : World) : string :=
  buildUrl host
    {| begin := fst (window host (clock w));
       end_ := snd (window host (clock w));
       product := "predictions";
       interval := Some interval;
       datum := datumSel_value w;
       units := unitsSel_value w |}.

(** What the two requests of [loadData] come back with. *)
Definition hourly_reply (host : Host) (w : World) : completion value :=
  fetchJSON_result (network w (request host "60" w)).

Definition hilo_reply (host : Host) (w : World) : completion value :=
  fetchJSON_result (network w (request host "hilo" w)).

(** What the [try] statement of [loadData] leaves in the local
    variables, and the exception its [catch] clause received, if any.
    [initial] is the initial value of [hourly] and [normalise] what is
    applied to [res.predictions] before the assignment. *)
Definition hourly_attempt (initial : value) (normalise : value -> value)
  (reply : completion value) : Frame * option exn :=
  match reply with
  | Throw e => ({| hourly := initial; supportsHourly := false |}, Some e)
  | Normal res =>
      match get res p_predictions with
      | Throw e => ({| hourly := initial; supportsHourly := false |}, Some e)
      | Normal predictions =>
          let h := normalise predictions in
          match get h p_length with
          | Throw e => ({| hourly := h; supportsHourly := false |}, Some e)
          | Normal len => ({| hourly := h; supportsHourly := truthy len |}, None)
          end
      end
  end.

Definition attempt_v1 (host : Host) (w : World) : Frame * option exn :=
  hourly_attempt (Some JNull) (fun p => or_else p empty_array)
    (hourly_reply host w).

Definition attempt_v2 (host : Host) (w : World) : Frame * option exn :=
  hourly_attempt empty_array V2.array_or_empty (hourly_reply host w).

(** The page once both requests are settled (in the second revision a
    caught exception is logged to the console in between). *)
Definition after_requests_v1 (host : Host) (w : World) : World :=
  log_event (Fetch (request host "hilo" w))
    (log_event (Fetch (request host "60" w)) w).

Definition after_requests_v2 (host : Host) (w : World) : World :=
  log_event (Fetch (request host "hilo" w))
    (match snd (attempt_v2 host w) with
     | Some e => log_event (Console_warn e) (log_event (Fetch (request host "60" w)) w)
     | None => log_event (Fetch (request host "60" w)) w
     end).

(** Calls of the rendering mappers and actions on the chart. *)
Definition is_rendering (e : event) : bool :=
  match e with
  | Fetch _ | Console_warn _ => false
  | _ => true
  end.

(** The page as the user sees it: the chart, the note and the table. *)
Definition same_page (w w' : World) : Prop :=
  chart w' = chart w /\ live_charts w' = live_charts w
  /\ hiloNote w' = hiloNote w /\ tbody w' = tbody w.

(** The events of [w'] that were added to those of [w], oldest
    first. *)
Definition events_since (w w' : World) (evs : list event) : Prop :=
  trace w' = (rev evs ++ trace w)%list.

(** The global [chart] holds the only live chart, if any. *)
Definition chart_slot_owns_canvas (w : World) : Prop :=
  live_charts w =
  match chart w with
  | Some c => [chart_id c]
  | None => []
  end.

(** A freshly loaded page: [let chart;] and an empty canvas. *)
Definition fresh_page (w : World) : Prop :=
  chart w = None /\ live_charts w = [].




(** The page after [if (chart){ chart.destroy(); } chart = new
    Chart(ctx, config)]. *)
Definition chart_destroyed (w : World) : World :=
  match chart w with
  | Some c =>
      with_live_charts
        (filter (fun i => negb (Nat.eqb i (chart_id c))) (live_charts w))
        (next_chart_id w)
        (log_event (Chart_destroy (chart_id c)) w)
  | None => w
  end.

Definition chart_replaced (config : ChartConfig) (w : World) : World :=
  let w1 := chart_destroyed w in
  let i := next_chart_id w1 in
  with_chart (Some {| chart_id := i; chart_config := config |})
    (with_live_charts (i :: live_charts w1) (S i)
       (log_event (Chart_new i) w1)).

(** What can happen to a page between two runs of the script's
    synchronous code: [renderChart] or [loadData] run (in either
    revision), or something else changes the page without touching the
    chart (the user picks an option, time passes, the network answers
    differently, the other functions of the script write the note and
    the table).  [loadData] only suspends at its two [await]s, before
    any rendering, so every interleaving of several refreshes is a
    sequence of such steps. *)
Inductive page_step (host : Host) : World -> World -> Prop :=
| step_renderChart_v1 (w : World) (hourly hilo : value) (units : string) :
    page_step host w (snd (V1.renderChart host hourly hilo units w))
| step_renderChart_v2 (w : World) (hourly hilo : value) (units : string) :
    page_step host w (snd (V2.renderChart host hourly hilo units w))
| step_loadData_v1 (w : World) :
    page_step host w (snd (V1.loadData host w))
| step_loadData_v2 (w : World) :
    page_step host w (snd (V2.loadData host w))
| step_other (w w' : World) :
    chart w' = chart w -> live_charts w' = live_charts w ->
    page_step host w w'.

Inductive reachable (host : Host) : World -> Prop :=
| reach_fresh (w : World) : fresh_page w -> reachable host w
| reach_step (w w' : World) :
    reachable host w -> page_step host w w' -> reachable host w'.

(** Time zones: offsets stay below a day, and converting a local time
    to UTC and back stays on the same calendar day (a local time that a
    clock change skips is mapped to a nearby one). *)
Definition tz_bounded (host : Host) : Prop :=
  forall t b, Z.abs (LocalTZA host t b) <= msPerDay.

Definition tz_keeps_day (host : Host) : Prop :=
  forall t, Day (LocalTime host (UTC host t)) = Day t.

(** The local calendar date of a time value. *)
Definition local_ymd (host : Host) (t : Z) : Z * Z * Z :=
  (YearFromTime (LocalTime host t), MonthFromTime (LocalTime host t),
   DateFromTime (LocalTime host t)).

(** The row [renderTable] appends for [row]; [toDate] is [toLocalISO]
    or [toLocalDate]. *)
Definition table_row (host : Host) (toDate : value -> completion Date)
  (units : string) (row : value) : completion string :=
  let? t := get row p_t in
  let? dt := toDate t in
  let? type := get row p_type in
  let? v := get row p_v in
  let? n := Number v in
  Normal (row_html (toLocaleDateString host dt) (toLocaleTimeString_hm host dt)
            (typeStr type) (toFixed n 2) (unitLabel units)).

(** A run that failed with [e] before any rendering: the page looks
    as before and the only actions were requests and console output. *)
Definition aborted_before_rendering (e : exn) (w : World)
  (run : completion unit * World) : Prop :=
  fst run = Throw e
  /\ same_page w (snd run)
  /\ exists evs,
       events_since w (snd run) evs
       /\ forallb (fun ev => negb (is_rendering ev)) evs = true.


(** What [loadData] does once both requests are settled. *)
Definition render_v1 (host : Host) (supportsHourly : bool)
  (hourly hilo : value) (units : string) : JS unit :=
  setHiloNote supportsHourly ;;
  V1.renderChart host hourly hilo units ;;
  V1.renderTable host hilo units.

Definition render_v2 (host : Host) (supportsHourly : bool)
  (hourly hilo : value) (units : string) : JS unit :=
  setHiloNote supportsHourly ;;
  V2.renderChart host hourly hilo units ;;
  V2.renderTable host hilo units.

(** The [error] member of the body of a response ([undefined] when
    the body is no JSON or has no such member) and its [message]. *)
Definition error_payload (resp : Response) : value :=
  match json_body resp with
  | Normal data =>
      match get (Some data) p_error with
      | Normal v => v
      | Throw _ => undefined
      end
  | Throw _ => undefined
  end.

Definition payload_message (resp : Response) : value :=
  match get (error_payload resp) p_message with
  | Normal m => m
  | Throw _ => undefined
  end.

(** "On an error payload the failure message is the payload's message
    when present." *)
Definition message_comes_from_payload (resp : Response)
  (r : completion value) : Prop :=
  forall msg,
    truthy (error_payload resp) = true ->
    payload_message resp = Some (JStr msg) -> msg <> "" ->
    r = Throw (Error msg).

(** A prediction as the service delivers it: an object whose [t] and
    [v] are strings. *)
Definition prediction_point (p : json) : Prop :=
  exists t v,
    get (Some p) p_t = Normal (Some (JStr t))
    /\ get (Some p) p_v = Normal (Some (JStr v)).

Definition is_nil {A} (l : list A) : bool :=
  match l with
  | [] => true
  | _ => false
  end.

(** The one chart of a page that had none, drawn from [config]. *)
Definition first_chart (w : World) (config : ChartConfig) : option Chart :=
  Some {| chart_id := next_chart_id w; chart_config := config |}.

(** The content of a chart configuration for [N] hourly points [hs]
    and [M] extrema [ls]: the markers are the extrema; the line has the
    [N] hourly points or, without hourly points, the markers. *)
Definition series_pair (hiloPoint_of : value -> completion HiloPoint)
  (hs ls : list json) (config : ChartConfig) : Prop :=
  let markers := scatter_data (cfg_scatter config) in
  let primary := line_data (cfg_line config) in
  map_completion (fun p => hiloPoint_of (Some p)) ls = Normal markers
  /\ List.length markers = List.length ls
  /\ (hs <> [] ->
      List.length primary = List.length hs
      /\ List.length (cfg_labels config) = List.length hs)
  /\ (hs = [] ->
      primary = map pt_y markers /\ cfg_labels config = map pt_x markers).

(** A run on the page [w] that rendered: it completed, announced
    [supportsHourly] through the note, and left a chart drawn from
    [config] in the global [chart]. *)
Definition load_renders (w : World) (run : completion unit * World)
  (supportsHourly : bool) (config : ChartConfig) : Prop :=
  fst run = Normal tt
  /\ In (Call_setHiloNote supportsHourly) (trace (snd run))
  /\ hiloNote (snd run) = hiloNote_text supportsHourly
  /\ chart (snd run) = first_chart w config.

(** Compact dates: four digits for the year, two for the month (1 to
    12) and two for the day. *)
Definition two_digit (n : Z) : string :=
  String (digit_char (n / 10)) (String (digit_char (n mod 10)) "").

Definition four_digit (n : Z) : string :=
  two_digit (n / 100) ++ two_digit (n mod 100).

Definition yyyymmdd (ymd : Z * Z * Z) : string :=
  let '(y, m, d) := ymd in four_digit y ++ two_digit (m + 1) ++ two_digit d.

(** The parameters of a request for the window from [tb] to [te], in
    the order of the query string. *)
Definition request_parameters (host : Host) (a : UrlArgs) (tb te : Z)
  : URLSearchParams :=
  ([("product", product a);
    ("application", "Jeremy.Whidbey.Tides");
    ("begin_date", yyyymmdd (local_ymd host tb));
    ("end_date", yyyymmdd (local_ymd host te));
    ("datum", datum a);
    ("station", "9447856");
    ("time_zone", "lst_ldt");
    ("units", units a);
    ("format", "json")]
   ++ match interval a with
      | Some i => if String.eqb i "" then [] else [("interval", i)]
      | None => []
      end)%list.

Definition four_digit_year (host : Host) (t : Z) : Prop :=
  1000 <= YearFromTime (LocalTime host t) <= 9999.

(** What a call of [renderChart] does to the chart, in terms of the
    configuration it builds. *)
Definition chart_step (w : World) (call : event)
  (config : completion ChartConfig) (run : completion unit * World) : Prop :=
  match config with
  | Normal config =>
      fst run = Normal tt
      /\ live_charts (chart_destroyed (log_event call w)) = []
      /\ live_charts (snd run) = [next_chart_id w]
      /\ chart (snd run) = first_chart w config
      /\ events_since w (snd run)
           (call
            :: match chart w with
               | Some c => [Chart_destroy (chart_id c)]
               | None => []
               end ++ [Chart_new (next_chart_id w)])
  | Throw e =>
      fst run = Throw e
      /\ chart (snd run) = chart w /\ live_charts (snd run) = live_charts w
  end.

(** The addresses requested by a list of events, in order. *)
Definition fetched (evs : list event) : list string :=
  flat_map (fun ev => match ev with
                      | Fetch url => [url]
                      | _ => []
                      end) evs.

(** The exceptions logged to the console by a list of events, in
    order. *)
Definition warned (evs : list event) : list exn :=
  flat_map (fun ev => match ev with
                      | Console_warn e => [e]
                      | _ => []
                      end) evs.

(** The rows a loop over [items] appends before it stops, and the
    exception that stopped it, if any: the loop goes on until the first
    item whose row cannot be built. *)
Fixpoint rows_upto (row_of : value -> completion string) (items : list value)
  : list string * option exn :=
  match items with
  | [] => ([], None)
  | p :: rest =>
      match row_of p with
      | Normal tr =>
          let '(rows, stop) := rows_upto row_of rest in (tr :: rows, stop)
      | Throw e => ([], Some e)
      end
  end.

(** [predictions] in the body [fetchJSON] returned ([undefined] when
    the request failed). *)
Definition predictions_of (reply : completion value) : value :=
  match reply with
  | Normal res =>
      match get res p_predictions with
      | Normal predictions => predictions
      | Throw _ => undefined
      end
  | Throw _ => undefined
  end.


(** [predictions] is an array, or is missing (or another falsy
    value). *)
Definition array_or_absent (v : value) : Prop :=
  isArray v = true \/ truthy v = false.

(** The time and the height of a prediction whose [t] and [v] are
    strings. *)
Definition time_of (host : Host) (p : json) : Date :=
  match get (Some p) p_t with
  | Normal (Some (JStr t)) => Date_parse host (replace_first " " "T" t)
  | _ => None
  end.

Definition height_of_point (p : json) : number :=
  match get (Some p) p_v with
  | Normal (Some (JStr v)) => StringToNumber v
  | _ => NaN
  end.

Definition marker_of (host : Host) (p : json) : HiloPoint :=
  {| pt_x := time_of host p;
     pt_y := height_of_point p;
     pt_type := match get (Some p) p_type with
                | Normal type => type
                | Throw _ => undefined
                end |}.

(** The calendar date of a local time value. *)
Definition ymd (t : Z) : Z * Z * Z :=
  (YearFromTime t, MonthFromTime t, DateFromTime t).

(** The parameters of a request for the days from 7 days before to 7
    days after the local date of the clock. *)
Definition window_parameters (host : Host) (w : World) (interval : string)
  : URLSearchParams :=
  let today := LocalTime host (clock w) in
  [("product", "predictions");
   ("application", "Jeremy.Whidbey.Tides");
   ("begin_date", yyyymmdd (ymd (today + (-7) * msPerDay)));
   ("end_date", yyyymmdd (ymd (today + 7 * msPerDay)));
   ("datum", datumSel_value w);
   ("station", "9447856");
   ("time_zone", "lst_ldt");
   ("units", unitsSel_value w);
   ("format", "json");
   ("interval", interval)].

(** What a run of [loadData] leaves on display: the note, the rows of
    the table and the configuration of the chart. *)
Definition display (w : World) : string * list string * option ChartConfig :=
  (hiloNote w, tbody w, option_map chart_config (chart w)).

(** The same clock, selections and network. *)
Definition same_environment (w w' : World) : Prop :=
  clock w' = clock w
  /\ datumSel_value w' = datumSel_value w
  /\ unitsSel_value w' = unitsSel_value w
  /\ forall url, network w' url = network w url.


(** The outcomes of a load on the page [w]: nothing on display has
    changed; or only the note has; or the note, the chart and the table
    have, the table with one row per marker of the chart. *)
Definition load_outcome (w : World) (run : completion unit * World) : Prop :=
  (exists e, fst run = Throw e /\ same_page w (snd run))
  \/ (exists e b,
        fst run = Throw e
        /\ hiloNote (snd run) = hiloNote_text b
        /\ chart (snd run) = chart w /\ live_charts (snd run) = live_charts w
        /\ tbody (snd run) = tbody w)
  \/ (exists b config,
        fst run = Normal tt
        /\ hiloNote (snd run) = hiloNote_text b
        /\ chart (snd run) = first_chart w config
        /\ List.length (tbody (snd run))
           = List.length (scatter_data (cfg_scatter config))).

(** A child of the grid that is a card. *)
Definition is_card (c : grid_child) : Prop :=
  match c with
  | Card _ => True
  | Markup _ => False
  end.

(** The children of the grid once [loadWeather] has settled: an alert,
    or at most 14 cards. *)
Definition settled_grid (children : list grid_child) : Prop :=
  (exists message, children = [Markup (alert_html message)])
  \/ (Forall is_card children /\ (List.length children <= 14)%nat).

(** A value that is neither an object nor an array. *)
Definition primitive (v : value) : Prop :=
  match v with
  | Some (JArr _) | Some (JObj _) => False
  | _ => True
  end.

(** A forecast period whose members are primitive values (strings and
    numbers in the replies of the service); any of them may be
    missing. *)
Definition plain_period (p : json) : Prop :=
  exists members,
    p = JObj members
    /\ forall f, primitive (assoc (wx_prop_name f) members).

(** ** Example hosts, replies and pages *)

Definition two_digits (s : string) : option Z :=
  match s with
  | String a (String b _) =>
      if is_digit a && is_digit b then Some (digit_val a * 10 + digit_val b)
      else None
  | _ => None
  end.

(** [YYYY-MM-DDTHH:mm], read as local time at a fixed offset. *)
Definition parse_iso_minutes (offset : Z) (s : string) : Date :=
  match two_digits s, two_digits (drop 2 s), two_digits (drop 5 s),
        two_digits (drop 8 s), two_digits (drop 11 s), two_digits (drop 14 s)
  with
  | Some c, Some y, Some mo, Some d, Some h, Some mi =>
      Some (MakeDate (MakeDay (c * 100 + y) (mo - 1) d)
              (h * msPerHour + mi * 60000) - offset)
  | _, _, _, _, _, _ => None
  end.

Definition us_date (offset : Z) (d : Date) : string :=
  match d with
  | Some t =>
      string_of_Z (MonthFromTime (t + offset) + 1) ++ "/"
      ++ string_of_Z (DateFromTime (t + offset)) ++ "/"
      ++ string_of_Z (YearFromTime (t + offset))
  | None => "Invalid Date"
  end.

Definition us_time (offset : Z) (d : Date) : string :=
  match d with
  | Some t =>
      let h := TimeWithinDay (t + offset) / msPerHour in
      let mi := TimeWithinDay (t + offset) mod msPerHour / 60000 in
      let h12 := if h mod 12 =? 0 then 12 else h mod 12 in
      padStart (string_of_Z h12) 2 "0" ++ ":" ++ padStart (string_of_Z mi) 2 "0"
      ++ (if h <? 12 then " AM" else " PM")
  | None => "Invalid Date"
  end.

(** A browser at a fixed offset of eight hours behind UTC, en-US. *)
Definition host_pst : Host :=
  {| LocalTZA := fun _ _ => -8 * msPerHour;
     Date_parse := parse_iso_minutes (-8 * msPerHour);
     toLocaleDateString := us_date (-8 * msPerHour);
     toLocaleTimeString_hm := us_time (-8 * msPerHour) |}.

(** Pacific time in 2024: daylight saving time from 10 March 10:00 UTC
    to 3 November 09:00 UTC.  A skipped or repeated local time is read
    with the offset in force before the change. *)
Definition pacific_offset (t : Z) (isUTC : bool) : Z :=
  let dst :=
    if isUTC then (1710064800000 <=? t) && (t <? 1730624400000)
    else (1710068400000 <=? t + 8 * msPerHour)
         && (t + 8 * msPerHour <? 1730628000000) in
  if dst then -7 * msPerHour else -8 * msPerHour.

Definition host_pacific : Host :=
  {| LocalTZA := pacific_offset;
     Date_parse := parse_iso_minutes (-8 * msPerHour);
     toLocaleDateString := us_date (-8 * msPerHour);
     toLocaleTimeString_hm := us_time (-8 * msPerHour) |}.

Fixpoint has_substring (p s : string) : bool :=
  match starts_with p s with
  | Some _ => true
  | None =>
      match s with
      | String _ s' => has_substring p s'
      | EmptyString => false
      end
  end.

Definition point (t v : string) (type : option string) : json :=
  JObj ([("t", JStr t); ("v", JStr v)]
        ++ match type with
           | Some x => [("type", JStr x)]
           | None => []
           end)%list.

Definition reply_200 (body : json) : completion Response :=
  Normal {| ok := true; status := 200; json_body := Normal body |}.

Definition hilo_points : list json :=
  [point "2024-06-01 03:12" "3.14159" (Some "H");
   point "2024-06-01 09:40" "-1.005" (Some "L")].

Definition hourly_points : list json :=
  [point "2024-06-01 00:00" "1.5" None;
   point "2024-06-01 01:00" "1.75" None;
   point "2024-06-01 02:00" "2" None].

Definition hilo_found : completion Response :=
  reply_200 (JObj [("predictions", JArr hilo_points)]).

Definition hourly_found : completion Response :=
  reply_200 (JObj [("predictions", JArr hourly_points)]).

Definition hourly_empty : completion Response :=
  reply_200 (JObj [("predictions", JArr [])]).

Definition no_data : completion Response :=
  reply_200 (JObj [("error", JObj [("message", JStr "No data was found.")])]).

Definition server_error : completion Response :=
  Normal {| ok := false; status := 500;
            json_body := Throw (HostError "SyntaxError") |}.

Definition bad_request_with_message : completion Response :=
  Normal {| ok := false; status := 400;
            json_body :=
              Normal (JObj [("error",
                             JObj [("message", JStr "No data was found.")])]) |}.

(** A freshly loaded page on 1 June 2024, 21:00 UTC, whose hourly and
    extrema requests are answered by [hourly] and [hilo]. *)
Definition page (hourly hilo : completion Response) : World :=
  {| clock := 1717275600000;
     datumSel_value := "MLLW";
     unitsSel_value := "metric";
     network := fun url =>
       if has_substring "interval=60" url then hourly else hilo;
     chart := None;
     live_charts := [];
     next_chart_id := 0;
     hiloNote := "";
     tbody := [];
     trace := [] |}.

(** The same page on 8 March 2024, 20:00 UTC, two days before the
    clocks change. *)
Definition page_in_march : World :=
  {| clock := 1709928000000;
     datumSel_value := "MLLW";
     unitsSel_value := "english";
     network := fun url =>
       if has_substring "interval=60" url then hourly_found else hilo_found;
     chart := None;
     live_charts := [];
     next_chart_id := 0;
     hiloNote := "";
     tbody := [];
     trace := [] |}.

(** A reply whose error message is a number. *)
Definition numeric_error : completion Response :=
  reply_200 (JObj [("error", JObj [("message", JNum (number_of_Z 404))])]).

(** A period as the forecast service lists it. *)
Definition wx_period (name icon : string) (temperature : Z)
  (shortForecast windSpeed windDirection : string) : json :=
  JObj [("name", JStr name); ("icon", JStr icon);
        ("temperature", JNum (number_of_Z temperature));
        ("temperatureUnit", JStr "F");
        ("shortForecast", JStr shortForecast);
        ("windSpeed", JStr windSpeed);
        ("windDirection", JStr windDirection)].

Definition forecast_address : string :=
  "https://api.weather.gov/gridpoints/SEW/125,90/forecast".

Definition points_found : completion Response :=
  reply_200 (JObj [("properties", JObj [("forecast", JStr forecast_address)])]).

Definition two_periods : list json :=
  [wx_period "Tonight" "https://api.weather.gov/icons/land/night/bkn" 52
     "Mostly Cloudy" "5 mph" "S";
   wx_period "Monday" "" 61 "Rain" "5 to 10 mph" ""].

Definition forecast_of (periods : list json) : completion Response :=
  reply_200 (JObj [("properties", JObj [("periods", JArr periods)])]).

(** A page with an empty grid whose points lookup is answered by
    [points] and whose other requests are answered by [forecast]. *)
Definition wx_page (points forecast : completion Response) : WxPage :=
  {| wx_network := fun url =>
       if String.eqb url "https://api.weather.gov/points/48.035,-122.377"
       then points else forecast;
     wxGrid := Some [];
     wx_requests := [] |}.

(** ** Basic facts *)

(** Linear arithmetic with division and remainder by constants. *)
Ltac zlia := Z.div_mod_to_equations; lia.

(** Unfolding of the monad combinators, without touching the
    functions of the model. *)
Ltac step :=
  unfold fetch, emit, when, on_page, local, assign, run_block, try_catch,
    bind, ret, throw, pure, gets, modify, bind_completion;
  cbn [clock datumSel_value unitsSel_value network chart live_charts
       next_chart_id hiloNote tbody trace log_event with_trace
       with_hiloNote with_tbody with_chart with_live_charts fst snd negb
       hourly supportsHourly set_hourly set_supportsHourly].

Lemma fetchJSON_run (url : string) (w : World) :
  fetchJSON url w
  = (fetchJSON_result (network w url), log_event (Fetch url) w).
Proof.
  unfold fetchJSON, fetchJSON_result, fetch. step.
  destruct (network w url) as [resp|e]; [|reflexivity].
  destruct (ok resp); step; [|reflexivity].
  destruct (json_body resp) as [data|e]; step; [|reflexivity].
  destruct (get (Some data) p_error) as [err|e]; step; [|reflexivity].
  destruct (truthy err); step; [|reflexivity].
  destruct (get err p_message) as [msg|e]; step; [|reflexivity].
  destruct (ToString (or_else msg (Some (JStr "API error")))); reflexivity.
Qed.

Lemma last7Next7_run (host : Host) (w : World) :
  last7Next7 host w = (Normal (window host (clock w)), w).
Proof. reflexivity. Qed.

(** *** [loadData] as a function of the two replies *)

Ltac destruct_run c :=
  let e := fresh "e" in
  let w := fresh "w" in
  destruct c as [[[]|e] w]; step; [|reflexivity].

Ltac after_try render_chart render_table :=
  step; rewrite fetchJSON_run; step;
  match goal with
  | |- context [fetchJSON_result ?r] =>
      let hres := fresh "hres" in
      let e := fresh "e" in
      destruct (fetchJSON_result r) as [hres|e]; step; [|reflexivity];
      let hp := fresh "hp" in
      destruct (get hres p_predictions) as [hp|e]; step; [|reflexivity]
  end;
  match goal with
  | |- context [setHiloNote ?b ?w] => destruct_run (setHiloNote b w)
  end;
  match goal with
  | |- context [render_chart ?h ?a ?b ?c ?w] =>
      destruct_run (render_chart h a b c w)
  end;
  match goal with
  | |- context [render_table ?h ?a ?b ?w] =>
      destruct (render_table h a b w) as [[[]|?] ?]; reflexivity
  end.

Lemma loadData_run_v1 (host : Host) (w : World) :
  V1.loadData host w =
  let f := fst (attempt_v1 host w) in
  let w1 := after_requests_v1 host w in
  match hilo_reply host w with
  | Throw e => (Throw e, w1)
  | Normal hiloRes =>
      match get hiloRes p_predictions with
      | Throw e => (Throw e, w1)
      | Normal predictions =>
          let hilo := or_else predictions empty_array in
          (setHiloNote (supportsHourly f) ;;
           V1.renderChart host (hourly f) hilo (unitsSel_value w) ;;
           V1.renderTable host hilo (unitsSel_value w)) w1
      end
  end.
Proof.
  unfold V1.loadData, attempt_v1, hourly_attempt, hourly_reply, hilo_reply,
    after_requests_v1, request.
  step. rewrite last7Next7_run. unfold window. step.
  set (u60 := buildUrl host _). set (uhl := buildUrl host _).
  rewrite fetchJSON_run.
  destruct (fetchJSON_result (network w u60)) as [res|e]; step.
  - destruct (get res p_predictions) as [preds|e]; step.
    + destruct (get (or_else preds empty_array) p_length) as [len|e]; step.
      * destruct (truthy len); after_try V1.renderChart V1.renderTable.
      * after_try V1.renderChart V1.renderTable.
    + after_try V1.renderChart V1.renderTable.
  - after_try V1.renderChart V1.renderTable.
Qed.

Lemma loadData_run_v2 (host : Host) (w : World) :
  V2.loadData host w =
  let f := fst (attempt_v2 host w) in
  let w1 := after_requests_v2 host w in
  match hilo_reply host w with
  | Throw e => (Throw e, w1)
  | Normal hiloRes =>
      match get hiloRes p_predictions with
      | Throw e => (Throw e, w1)
      | Normal predictions =>
          let hilo := V2.array_or_empty predictions in
          (setHiloNote (supportsHourly f) ;;
           V2.renderChart host (hourly f) hilo (unitsSel_value w) ;;
           V2.renderTable host hilo (unitsSel_value w)) w1
      end
  end.
Proof.
  unfold V2.loadData, after_requests_v2, attempt_v2, hourly_attempt,
    hourly_reply, hilo_reply, request.
  step. rewrite last7Next7_run. unfold window. step.
  set (u60 := buildUrl host _). set (uhl := buildUrl host _).
  rewrite fetchJSON_run.
  destruct (fetchJSON_result (network w u60)) as [res|e]; step.
  - destruct (get res p_predictions) as [preds|e]; step.
    + destruct (get (V2.array_or_empty preds) p_length) as [len|e]; step.
      * destruct (truthy len); after_try V2.renderChart V2.renderTable.
      * after_try V2.renderChart V2.renderTable.
    + after_try V2.renderChart V2.renderTable.
  - after_try V2.renderChart V2.renderTable.
Qed.

(** *** The renderers, step by step *)

Lemma setHiloNote_run (b : bool) (w : World) :
  setHiloNote b w
  = (Normal tt,
     with_hiloNote (hiloNote_text b) (log_event (Call_setHiloNote b) w)).
Proof. reflexivity. Qed.

Lemma replace_chart_run (config : ChartConfig) (w : World) :
  replace_chart config w = (Normal tt, chart_replaced config w).
Proof.
  unfold replace_chart, chart_replaced, chart_destroyed, Chart_destroy_,
    Chart_new_, set_chart.
  step. destruct (chart w); reflexivity.
Qed.

Lemma renderChart_run_v1 (host : Host) (hourly hilo : value) (units : string)
  (w : World) :
  V1.renderChart host hourly hilo units w =
  let w0 := log_event (Call_renderChart hourly hilo units) w in
  match V1.chart_config_of host hourly hilo units with
  | Normal config => (Normal tt, chart_replaced config w0)
  | Throw e => (Throw e, w0)
  end.
Proof.
  unfold V1.renderChart. step.
  destruct (V1.chart_config_of host hourly hilo units); [|reflexivity].
  apply replace_chart_run.
Qed.

Lemma renderChart_run_v2 (host : Host) (hourly hilo : value) (units : string)
  (w : World) :
  V2.renderChart host hourly hilo units w =
  let w0 := log_event (Call_renderChart hourly hilo units) w in
  match V2.chart_config_of host hourly hilo units with
  | Normal config => (Normal tt, chart_replaced config w0)
  | Throw e => (Throw e, w0)
  end.
Proof.
  unfold V2.renderChart. step.
  destruct (V2.chart_config_of host hourly hilo units); [|reflexivity].
  apply replace_chart_run.
Qed.

(** A loop keeps what each of its iterations keeps. *)
Lemma for_of_keeps {A B : Type} (f : World -> B) (body : A -> JS unit)
  (l : list A) :
  (forall a w, f (snd (body a w)) = f w) ->
  forall w, f (snd (for_of l body w)) = f w.
Proof.
  intros Hbody. induction l as [|a l IH]; intros w; [reflexivity|].
  cbn [for_of]. unfold bind.
  specialize (Hbody a w). destruct (body a w) as [[[]|e] w']; cbn [snd] in *.
  - rewrite IH. exact Hbody.
  - exact Hbody.
Qed.

Ltac table_body_keeps Hf :=
  let row := fresh "row" in
  let w := fresh "w" in
  intros row w;
  repeat match goal with
         | |- context [match ?c with Normal _ => _ | Throw _ => _ end] =>
             destruct c; [|reflexivity]
         end;
  apply Hf.

(** [renderTable] rewrites the table body and nothing else on the page,
    and logs its own call. *)
Lemma renderTable_keeps_v1 {B : Type} (f : World -> B) (host : Host)
  (hilo : value) (units : string) (w : World) :
  (forall rows w, f (with_tbody rows w) = f w) ->
  f (snd (V1.renderTable host hilo units w))
  = f (log_event (Call_renderTable hilo units) w).
Proof.
  intros Hf. unfold V1.renderTable, tbody_appendChild, set_tbody. step.
  destruct (iterate hilo) as [rows|e]; [|apply Hf].
  rewrite for_of_keeps; [apply Hf|]. table_body_keeps Hf.
Qed.

Lemma renderTable_keeps_v2 {B : Type} (f : World -> B) (host : Host)
  (hilo : value) (units : string) (w : World) :
  (forall rows w, f (with_tbody rows w) = f w) ->
  f (snd (V2.renderTable host hilo units w))
  = f (log_event (Call_renderTable hilo units) w).
Proof.
  intros Hf. unfold V2.renderTable, tbody_appendChild, set_tbody. step.
  destruct (iterate hilo) as [rows|e]; [|apply Hf].
  rewrite for_of_keeps; [apply Hf|]. table_body_keeps Hf.
Qed.

(** A body that [fetchJSON] returned has readable properties. *)
Lemma fetchJSON_result_readable (r : completion Response) (v : value) (p : prop) :
  fetchJSON_result r = Normal v -> exists x, get v p = Normal x.
Proof.
  unfold fetchJSON_result, bind_completion.
  destruct r as [resp|]; [|discriminate].
  destruct (negb (ok resp)); [discriminate|].
  destruct (json_body resp) as [data|]; [|discriminate].
  destruct (get (Some data) p_error) as [err|] eqn:Herr; [|discriminate].
  destruct (truthy err).
  - destruct (get err p_message); [|discriminate].
    destruct (ToString _); discriminate.
  - intros [= <-]. destruct data; try discriminate; cbn; eauto.
    destruct p; eauto.
    destruct p; eauto.
Qed.


Lemma render_events_v2 (host : Host) (b : bool) (hourly hilo : value)
  (units : string) (w : World) :
  hiloNote (snd (render_v2 host b hourly hilo units w)) = hiloNote_text b
  /\ exists evs,
       events_since w (snd (render_v2 host b hourly hilo units w))
         ([Call_setHiloNote b; Call_renderChart hourly hilo units] ++ evs).
Proof.
  unfold render_v2, bind, events_since. rewrite setHiloNote_run.
  rewrite renderChart_run_v2. cbv zeta.
  destruct (V2.chart_config_of host hourly hilo units) as [config|e].
  - rewrite (renderTable_keeps_v2 hiloNote) by reflexivity.
    rewrite (renderTable_keeps_v2 trace) by reflexivity.
    unfold chart_replaced, chart_destroyed.
    cbn [chart log_event with_trace with_hiloNote].
    destruct (chart w) as [c|]; (split; [reflexivity|]).
    + exists [Chart_destroy (chart_id c); Chart_new (next_chart_id w);
              Call_renderTable hilo units]. reflexivity.
    + exists [Chart_new (next_chart_id w); Call_renderTable hilo units].
      reflexivity.
  - split; [reflexivity|]. exists []. reflexivity.
Qed.

Lemma events_since_trans (w w1 w2 : World) (evs1 evs2 : list event) :
  events_since w w1 evs1 -> events_since w1 w2 evs2 ->
  events_since w w2 (evs1 ++ evs2).
Proof.
  unfold events_since. intros H1 H2.
  rewrite H2, H1, rev_app_distr, app_assoc. reflexivity.
Qed.

(** *** Arrays, lengths and the chart configuration *)

Lemma div_ties_even_ge (p q : Z) : p / q <= div_ties_even p q.
Proof.
  unfold div_ties_even.
  destruct (2 * (p mod q) <? q); [lia|].
  destruct (q <? 2 * (p mod q)); [lia|].
  destruct (Z.even (p / q)); lia.
Qed.

Lemma round_positive_truthy (p : Z) :
  0 < p -> number_truthy (round_binary64 false p 1) = true.
Proof.
  intros Hp. unfold round_binary64.
  destruct (Z.eqb_spec p 0) as [|_]; [lia|].
  assert (Hlog : log2_ratio p 1 = Z.log2 p).
  { unfold log2_ratio. change (Z.log2 1) with 0. rewrite Z.sub_0_r.
    pose proof (Z.log2_nonneg p) as Hnn.
    destruct (Z.leb_spec 0 (Z.log2 p)) as [_|]; [|lia].
    pose proof (proj1 (Z.log2_spec p Hp)).
    destruct (Z.ltb_spec p (1 * 2 ^ Z.log2 p)); lia. }
  rewrite Hlog. set (k := Z.log2 p).
  assert (Hk : 0 <= k) by apply Z.log2_nonneg.
  replace (Z.max (k - 52) (-1074)) with (k - 52) by lia.
  set (m := div_ties_even _ _).
  assert (Hm : 0 < m).
  { subst m. eapply Z.lt_le_trans; [|apply div_ties_even_ge].
    pose proof (proj1 (Z.log2_spec p Hp)) as Hlo. fold k in Hlo.
    destruct (Z.le_gt_cases k 52).
    - replace (Z.max 0 (k - 52)) with 0 by lia. change (1 * 2 ^ 0) with 1.
      rewrite Z.div_1_r. apply Z.mul_pos_pos; [lia|]. apply Z.pow_pos_nonneg; lia.
    - replace (Z.max 0 (- (k - 52))) with 0 by lia. change (2 ^ 0) with 1.
      rewrite Z.mul_1_r, Z.mul_1_l.
      apply Z.div_str_pos. split; [apply Z.pow_pos_nonneg; lia|].
      etransitivity; [|exact Hlo]. apply Z.pow_le_mono_r; lia. }
  destruct (Z.eqb_spec m (2 ^ 53)).
  - destruct (971 <? k - 52 + 1); reflexivity.
  - destruct (971 <? k - 52); [reflexivity|]. cbn.
    destruct (Z.eqb_spec m 0); [lia|reflexivity].
Qed.

Lemma array_length_truthy (items : list json) :
  exists len,
    get (Some (JArr items)) p_length = Normal len
    /\ truthy len = negb (is_nil items).
Proof.
  eexists. split; [reflexivity|]. cbn [truthy]. unfold number_of_Z.
  destruct items as [|a items]; [reflexivity|].
  cbn [is_nil negb List.length].
  destruct (Z.ltb_spec (Z.of_nat (S (List.length items))) 0) as [|_]; [lia|].
  rewrite Z.abs_eq by lia. apply round_positive_truthy. lia.
Qed.

Lemma map_completion_length {A B} (f : A -> completion B) (l : list A)
  (r : list B) :
  map_completion f l = Normal r -> List.length r = List.length l.
Proof.
  revert r. induction l as [|a l IH]; intros r; cbn.
  - intros [= <-]. reflexivity.
  - destruct (f a); [|discriminate]. cbn.
    destruct (map_completion f l); [|discriminate]. cbn.
    intros [= <-]. cbn. f_equal. apply IH. reflexivity.
Qed.

(** Two callbacks mapped over the same items, one a projection of the
    other. *)
Lemma map_completion_project {A B C} (f : A -> completion B)
  (g : A -> completion C) (proj : B -> C) (l : list A)
  (bs : list B) (cs : list C) :
  (forall a b c, f a = Normal b -> g a = Normal c -> c = proj b) ->
  map_completion f l = Normal bs -> map_completion g l = Normal cs ->
  cs = map proj bs.
Proof.
  intros Hfg. revert bs cs. induction l as [|a l IH]; intros bs cs; cbn.
  - intros [= <-] [= <-]. reflexivity.
  - destruct (f a) as [b|] eqn:Hb; [|discriminate].
    destruct (g a) as [c|] eqn:Hc; [|discriminate]. cbn.
    destruct (map_completion f l) as [bs'|]; [|discriminate].
    destruct (map_completion g l) as [cs'|]; [|discriminate]. cbn.
    intros [= <-] [= <-]. cbn. f_equal; [eapply Hfg; eassumption|].
    apply IH; reflexivity.
Qed.

Lemma map_completion_total {A B} (f : A -> completion B) (l : list A) :
  Forall (fun a => exists b, f a = Normal b) l ->
  exists bs, map_completion f l = Normal bs.
Proof.
  induction 1 as [|a l [b Hb] _ [bs Hbs]]; cbn.
  - eexists. reflexivity.
  - rewrite Hb, Hbs. eexists. reflexivity.
Qed.

Lemma label_projects_v1 host (p : value) (pt : HiloPoint) (d : Date) :
  V1.hiloPoint_of host p = Normal pt -> V1.label_of host p = Normal d ->
  d = pt_x pt.
Proof.
  unfold V1.hiloPoint_of, V1.label_of, bind_completion.
  destruct (get p p_t); [|discriminate].
  destruct (V1.toLocalISO host a); [|discriminate].
  destruct (get p p_v); [|discriminate].
  destruct (Number a1); [|discriminate].
  destruct (get p p_type); [|discriminate].
  intros [= <-] [= <-]. reflexivity.
Qed.

Lemma height_projects_v1 host (p : value) (pt : HiloPoint) (n : number) :
  V1.hiloPoint_of host p = Normal pt -> V1.height_of p = Normal n ->
  n = pt_y pt.
Proof.
  unfold V1.hiloPoint_of, V1.height_of, bind_completion.
  destruct (get p p_t); [|discriminate].
  destruct (V1.toLocalISO host a); [|discriminate].
  destruct (get p p_v); [|discriminate].
  destruct (Number a1); [|discriminate].
  destruct (get p p_type); [|discriminate].
  intros [= <-] [= <-]. reflexivity.
Qed.

Lemma chart_config_series_v1 host hs ls units config :
  V1.chart_config_of host (Some (JArr hs)) (Some (JArr ls)) units = Normal config ->
  series_pair (V1.hiloPoint_of host) hs ls config.
Proof.
  unfold V1.chart_config_of, series_pair, array_map.
  destruct (array_length_truthy hs) as [len [-> Hlen]].
  cbn [bind_completion]. rewrite Hlen.
  destruct hs as [|h hs]; cbn [is_nil negb].
  - destruct (map_completion (fun x => V1.label_of host (Some x)) ls)
      as [labels|] eqn:Hlabels; [|discriminate].
    cbn [bind_completion].
    destruct (map_completion (fun x => V1.height_of (Some x)) ls)
      as [series|] eqn:Hseries; [|discriminate].
    cbn [bind_completion].
    destruct (map_completion (fun x => V1.hiloPoint_of host (Some x)) ls)
      as [pts|] eqn:Hpts; [|discriminate].
    cbn [bind_completion]. intros [= <-].
    cbn [scatter_data cfg_scatter line_data cfg_line cfg_labels].
    split; [reflexivity|]. split; [eapply map_completion_length; eassumption|].
    split; [congruence|]. intros _. split.
    + eapply map_completion_project; [|exact Hpts|exact Hseries].
      intros a b c. apply height_projects_v1.
    + eapply map_completion_project; [|exact Hpts|exact Hlabels].
      intros a b c. apply label_projects_v1.
  - destruct (map_completion (fun x => V1.label_of host (Some x)) (h :: hs))
      as [labels|] eqn:Hlabels; [|discriminate].
    cbn [bind_completion].
    destruct (map_completion (fun x => V1.height_of (Some x)) (h :: hs))
      as [series|] eqn:Hseries; [|discriminate].
    cbn [bind_completion].
    destruct (map_completion (fun x => V1.hiloPoint_of host (Some x)) ls)
      as [pts|] eqn:Hpts; [|discriminate].
    cbn [bind_completion]. intros [= <-].
    cbn [scatter_data cfg_scatter line_data cfg_line cfg_labels].
    split; [reflexivity|]. split; [eapply map_completion_length; eassumption|].
    split; [|discriminate]. intros _. split.
    + eapply map_completion_length; eassumption.
    + eapply map_completion_length; eassumption.
Qed.

Lemma label_projects_v2 host (p : value) (pt : HiloPoint) (d : Date) :
  V2.hiloPoint_of host p = Normal pt -> V2.label_of host p = Normal d ->
  d = pt_x pt.
Proof. exact (label_projects_v1 host p pt d). Qed.

Lemma height_projects_v2 host (p : value) (pt : HiloPoint) (n : number) :
  V2.hiloPoint_of host p = Normal pt -> V2.height_of p = Normal n ->
  n = pt_y pt.
Proof. exact (height_projects_v1 host p pt n). Qed.

Lemma chart_config_series_v2 host hs ls units config :
  V2.chart_config_of host (Some (JArr hs)) (Some (JArr ls)) units = Normal config ->
  series_pair (V2.hiloPoint_of host) hs ls config.
Proof.
  unfold V2.chart_config_of, V2.primary, series_pair.
  destruct (array_length_truthy hs) as [len [-> Hlen]].
  cbn [bind_completion]. rewrite Hlen.
  destruct hs as [|h hs]; cbn [is_nil negb array_map].
  - destruct (map_completion (fun x => V2.label_of host (Some x)) ls)
      as [labels|] eqn:Hlabels; [|discriminate].
    cbn [bind_completion].
    destruct (map_completion (fun x => V2.height_of (Some x)) ls)
      as [series|] eqn:Hseries; [|discriminate].
    cbn [bind_completion].
    destruct (map_completion (fun x => V2.hiloPoint_of host (Some x)) ls)
      as [pts|] eqn:Hpts; [|discriminate].
    cbn [bind_completion]. intros [= <-].
    cbn [scatter_data cfg_scatter line_data cfg_line cfg_labels].
    split; [reflexivity|]. split; [eapply map_completion_length; eassumption|].
    split; [congruence|]. intros _. split.
    + eapply map_completion_project; [|exact Hpts|exact Hseries].
      intros a b c. apply height_projects_v2.
    + eapply map_completion_project; [|exact Hpts|exact Hlabels].
      intros a b c. apply label_projects_v2.
  - destruct (map_completion (fun x => V2.label_of host (Some x)) (h :: hs))
      as [labels|] eqn:Hlabels; [|discriminate].
    cbn [bind_completion].
    destruct (map_completion (fun x => V2.height_of (Some x)) (h :: hs))
      as [series|] eqn:Hseries; [|discriminate].
    cbn [bind_completion].
    destruct (map_completion (fun x => V2.hiloPoint_of host (Some x)) ls)
      as [pts|] eqn:Hpts; [|discriminate].
    cbn [bind_completion]. intros [= <-].
    cbn [scatter_data cfg_scatter line_data cfg_line cfg_labels].
    split; [reflexivity|]. split; [eapply map_completion_length; eassumption|].
    split; [|discriminate]. intros _. split.
    + eapply map_completion_length; eassumption.
    + eapply map_completion_length; eassumption.
Qed.

Lemma prediction_point_renders host (p : json) :
  prediction_point p ->
  (exists pt, V1.hiloPoint_of host (Some p) = Normal pt)
  /\ (exists d, V1.label_of host (Some p) = Normal d)
  /\ (exists n, V1.height_of (Some p) = Normal n)
  /\ (forall units, exists tr,
        table_row host (V1.toLocalISO host) units (Some p) = Normal tr).
Proof.
  intros (t & v & Ht & Hv).
  unfold V1.hiloPoint_of, V1.label_of, V1.height_of, table_row.
  rewrite Ht, Hv. cbn.
  destruct p; try discriminate. cbn. repeat split; eauto.
Qed.

Lemma chart_config_total_v1 host hs ls units :
  Forall prediction_point hs -> Forall prediction_point ls ->
  exists config,
    V1.chart_config_of host (Some (JArr hs)) (Some (JArr ls)) units
    = Normal config.
Proof.
  intros Hhs Hls.
  assert (T : forall l, Forall prediction_point l ->
            (exists r, map_completion (fun x => V1.label_of host (Some x)) l = Normal r)
            /\ (exists r, map_completion (fun x => V1.height_of (Some x)) l = Normal r)
            /\ (exists r, map_completion (fun x => V1.hiloPoint_of host (Some x)) l = Normal r)).
  { intros l Hl. repeat split; apply map_completion_total;
      (eapply Forall_impl; [|exact Hl]); intros p Hp;
      apply (prediction_point_renders host) in Hp; tauto. }
  destruct (T hs Hhs) as ([lh Hlh] & [sh Hsh] & _).
  destruct (T ls Hls) as ([ll Hll] & [sl Hsl] & [pl Hpl]).
  unfold V1.chart_config_of, array_map.
  destruct (array_length_truthy hs) as [len [-> Hlen]].
  cbn [bind_completion].
  rewrite Hlh, Hsh, Hll, Hsl, Hpl.
  destruct (truthy len); cbn [bind_completion]; eexists; reflexivity.
Qed.

Lemma chart_config_total_v2 host hs ls units :
  Forall prediction_point hs -> Forall prediction_point ls ->
  exists config,
    V2.chart_config_of host (Some (JArr hs)) (Some (JArr ls)) units
    = Normal config.
Proof.
  intros Hhs Hls.
  assert (T : forall l, Forall prediction_point l ->
            (exists r, map_completion (fun x => V2.label_of host (Some x)) l = Normal r)
            /\ (exists r, map_completion (fun x => V2.height_of (Some x)) l = Normal r)
            /\ (exists r, map_completion (fun x => V2.hiloPoint_of host (Some x)) l = Normal r)).
  { intros l Hl. repeat split; apply map_completion_total;
      (eapply Forall_impl; [|exact Hl]); intros p Hp;
      apply (prediction_point_renders host) in Hp; tauto. }
  destruct (T hs Hhs) as ([lh Hlh] & [sh Hsh] & _).
  destruct (T ls Hls) as ([ll Hll] & [sl Hsl] & [pl Hpl]).
  unfold V2.chart_config_of, V2.primary.
  destruct (array_length_truthy hs) as [len [-> Hlen]].
  cbn [bind_completion].
  destruct (truthy len); cbn [bind_completion array_map];
    rewrite ?Hlh, ?Hsh, ?Hll, ?Hsl, ?Hpl; cbn [bind_completion];
    eexists; reflexivity.
Qed.

Lemma for_of_normal {A} (body : A -> JS unit) (l : list A) :
  Forall (fun a => forall w, fst (body a w) = Normal tt) l ->
  forall w, fst (for_of l body w) = Normal tt.
Proof.
  induction 1 as [|a l Ha _ IH]; intros w; [reflexivity|].
  cbn [for_of]. unfold bind. specialize (Ha w).
  destruct (body a w) as [[[]|e] w']; cbn [fst] in Ha; [apply IH|discriminate].
Qed.

Lemma renderTable_normal_v1 host ls units w :
  Forall prediction_point ls ->
  fst (V1.renderTable host (Some (JArr ls)) units w) = Normal tt.
Proof.
  intros Hls. unfold V1.renderTable, tbody_appendChild, set_tbody, iterate. step.
  apply for_of_normal. rewrite Forall_map.
  eapply Forall_impl; [|exact Hls]. intros p (t & v & Ht & Hv) w'.
  rewrite Ht, Hv. cbn. destruct p; try discriminate. reflexivity.
Qed.

Lemma renderTable_normal_v2 host ls units w :
  Forall prediction_point ls ->
  fst (V2.renderTable host (Some (JArr ls)) units w) = Normal tt.
Proof.
  intros Hls. unfold V2.renderTable, tbody_appendChild, set_tbody, iterate. step.
  apply for_of_normal. rewrite Forall_map.
  eapply Forall_impl; [|exact Hls]. intros p (t & v & Ht & Hv) w'.
  rewrite Ht, Hv. cbn. destruct p; try discriminate. reflexivity.
Qed.

Lemma render_renders_v1 host b hs ls units w config :
  V1.chart_config_of host (Some (JArr hs)) (Some (JArr ls)) units = Normal config ->
  Forall prediction_point ls ->
  let run := render_v1 host b (Some (JArr hs)) (Some (JArr ls)) units w in
  fst run = Normal tt
  /\ In (Call_setHiloNote b) (trace (snd run))
  /\ hiloNote (snd run) = hiloNote_text b
  /\ chart (snd run) = first_chart w config.
Proof.
  intros Hcfg Hls run. subst run. unfold render_v1, bind.
  rewrite setHiloNote_run, renderChart_run_v1. cbv zeta. rewrite Hcfg.
  split; [apply renderTable_normal_v1, Hls|].
  rewrite (renderTable_keeps_v1 trace), (renderTable_keeps_v1 hiloNote),
    (renderTable_keeps_v1 chart) by reflexivity.
  unfold chart_replaced, chart_destroyed, first_chart.
  cbn [chart log_event with_trace with_hiloNote].
  destruct (chart w); cbn; auto 10.
Qed.

Lemma render_renders_v2 host b hs ls units w config :
  V2.chart_config_of host (Some (JArr hs)) (Some (JArr ls)) units = Normal config ->
  Forall prediction_point ls ->
  let run := render_v2 host b (Some (JArr hs)) (Some (JArr ls)) units w in
  fst run = Normal tt
  /\ In (Call_setHiloNote b) (trace (snd run))
  /\ hiloNote (snd run) = hiloNote_text b
  /\ chart (snd run) = first_chart w config.
Proof.
  intros Hcfg Hls run. subst run. unfold render_v2, bind.
  rewrite setHiloNote_run, renderChart_run_v2. cbv zeta. rewrite Hcfg.
  split; [apply renderTable_normal_v2, Hls|].
  rewrite (renderTable_keeps_v2 trace), (renderTable_keeps_v2 hiloNote),
    (renderTable_keeps_v2 chart) by reflexivity.
  unfold chart_replaced, chart_destroyed, first_chart.
  cbn [chart log_event with_trace with_hiloNote].
  destruct (chart w); cbn; auto 10.
Qed.

(** *** Calendar arithmetic *)

Lemma DayFromYear_bounds (y : Z) :
  146097 * (y - 1970) - 600 <= 400 * DayFromYear y
  <= 146097 * (y - 1970) + 600.
Proof. unfold DayFromYear. zlia. Qed.

(** [YearFromTime t] is the year whose days contain [Day t]. *)
Lemma YearFromTime_spec (t : Z) :
  DayFromYear (YearFromTime t) <= Day t < DayFromYear (YearFromTime t + 1).
Proof.
  unfold YearFromTime. set (d := Day t). clearbody d.
  set (y := 1970 + 400 * d / 146097).
  assert (Hq : 146097 * (y - 1970) <= 400 * d
               < 146097 * (y - 1970) + 146097) by (subst y; zlia).
  clearbody y.
  pose proof (DayFromYear_bounds (y - 1)).
  pose proof (DayFromYear_bounds (y + 1 + 1)).
  destruct (Z.leb_spec (DayFromYear (y + 1)) d).
  - lia.
  - destruct (Z.ltb_spec d (DayFromYear y)).
    + replace (y - 1 + 1) with y by lia. lia.
    + lia.
Qed.

Lemma DayFromYear_succ (y : Z) :
  DayFromYear (y + 1) = DayFromYear y + DaysInYear y.
Proof.
  unfold DayFromYear, DaysInYear, is_leap.
  destruct (Z.eqb_spec (y mod 4) 0), (Z.eqb_spec (y mod 100) 0),
    (Z.eqb_spec (y mod 400) 0); cbn [negb andb orb]; zlia.
Qed.

Lemma DayWithinYear_range (t : Z) :
  0 <= DayWithinYear t < 365 + InLeapYear t.
Proof.
  unfold DayWithinYear, InLeapYear.
  pose proof (YearFromTime_spec t) as H.
  rewrite DayFromYear_succ in H. unfold DaysInYear in H.
  destruct (is_leap (YearFromTime t)); lia.
Qed.

Lemma InLeapYear_range (t : Z) : 0 <= InLeapYear t <= 1.
Proof. unfold InLeapYear. destruct (is_leap _); lia. Qed.

Ltac month_cases :=
  unfold MonthFromTime;
  repeat match goal with
         | |- context [if ?a <? ?b then _ else _] =>
             destruct (Z.ltb_spec a b)
         end.

Lemma MonthFromTime_range (t : Z) : 0 <= MonthFromTime t <= 11.
Proof. month_cases; lia. Qed.

Lemma DateFromTime_range (t : Z) : 1 <= DateFromTime t <= 31.
Proof.
  pose proof (DayWithinYear_range t). pose proof (InLeapYear_range t).
  unfold DateFromTime. month_cases; lia.
Qed.

Lemma YearFromTime_unique (t y : Z) :
  DayFromYear y <= Day t < DayFromYear (y + 1) -> YearFromTime t = y.
Proof.
  intros H. pose proof (YearFromTime_spec t) as H'.
  set (y' := YearFromTime t) in *. clearbody y'.
  pose proof (DayFromYear_bounds y). pose proof (DayFromYear_bounds (y + 1)).
  pose proof (DayFromYear_bounds y'). pose proof (DayFromYear_bounds (y' + 1)).
  destruct (Z.lt_trichotomy y' y) as [Hlt|[Heq|Hgt]]; [|exact Heq|].
  - destruct (Z.eq_dec (y' + 1) y) as [<-|]; lia.
  - destruct (Z.eq_dec (y + 1) y') as [<-|]; lia.
Qed.

(** [DayFromMonth y mn] is the day MakeDay looks for: the first day of
    month [mn] of year [y]. *)
Lemma DayFromMonth_first (y mn : Z) :
  0 <= mn <= 11 ->
  let t := DayFromMonth y mn * msPerDay in
  YearFromTime t = y /\ MonthFromTime t = mn /\ DateFromTime t = 1.
Proof.
  intros Hmn t.
  assert (Hday : Day t = DayFromMonth y mn).
  { subst t. unfold Day. apply Z.div_mul. discriminate. }
  assert (Hyear : YearFromTime t = y).
  { apply YearFromTime_unique. rewrite Hday, DayFromYear_succ.
    unfold DayFromMonth, DaysInYear.
    assert (C : mn = 0 \/ mn = 1 \/ mn = 2 \/ mn = 3 \/ mn = 4 \/ mn = 5
                \/ mn = 6 \/ mn = 7 \/ mn = 8 \/ mn = 9 \/ mn = 10
                \/ mn = 11) by lia.
    destruct (is_leap y);
      repeat (destruct C as [->|C]; [lia|]); subst mn; lia. }
  split; [exact Hyear|].
  unfold DateFromTime, MonthFromTime, DayWithinYear, InLeapYear.
  rewrite Hyear, Hday. unfold DayFromMonth.
  assert (C : mn = 0 \/ mn = 1 \/ mn = 2 \/ mn = 3 \/ mn = 4 \/ mn = 5
              \/ mn = 6 \/ mn = 7 \/ mn = 8 \/ mn = 9 \/ mn = 10
              \/ mn = 11) by lia.
  destruct (is_leap y);
    repeat (destruct C as [->|C];
            [rewrite Z.add_simpl_l; split; reflexivity|]);
    subst mn; rewrite Z.add_simpl_l; split; reflexivity.
Qed.

(** The date fields of a time determine its day number. *)
Lemma MakeDay_of_fields (t : Z) :
  MakeDay (YearFromTime t) (MonthFromTime t) (DateFromTime t) = Day t.
Proof.
  pose proof (MonthFromTime_range t) as Hm.
  unfold MakeDay.
  replace (MonthFromTime t / 12) with 0 by zlia.
  replace (MonthFromTime t mod 12) with (MonthFromTime t) by zlia.
  rewrite Z.add_0_r. clear Hm.
  unfold DayFromMonth, DateFromTime, DayWithinYear.
  fold (InLeapYear t). month_cases; lia.
Qed.

Lemma MakeDay_shift (y m d k : Z) : MakeDay y m (d + k) = MakeDay y m d + k.
Proof. unfold MakeDay. lia. Qed.

Lemma MakeDate_day_time (t : Z) : MakeDate (Day t) (TimeWithinDay t) = t.
Proof. unfold MakeDate, Day, TimeWithinDay, msPerDay. zlia. Qed.

(** [d.setDate(d.getDate() + k)] moves the local time by [k] days. *)
Lemma setDate_to (host : Host) (t k dt : Z) :
  dt = DateFromTime (LocalTime host t) + k ->
  setDate host (Some t) (Some dt)
  = TimeClip (UTC host (LocalTime host t + k * msPerDay)).
Proof.
  intros ->. unfold setDate.
  rewrite MakeDay_shift, MakeDay_of_fields.
  f_equal. f_equal.
  rewrite <- (MakeDate_day_time (LocalTime host t)) at 3.
  unfold MakeDate. lia.
Qed.

Lemma window_run (host : Host) (now : Z) :
  window host now
  = (TimeClip (UTC host (LocalTime host now + (-7) * msPerDay)),
     TimeClip (UTC host (LocalTime host now + 7 * msPerDay))).
Proof.
  unfold window, getDate. cbn [option_map].
  rewrite (setDate_to host now (-7)) by lia.
  rewrite (setDate_to host now 7) by lia.
  reflexivity.
Qed.


Lemma TimeClip_in_range (t : Z) :
  Z.abs t <= 8640000000000000 -> TimeClip t = Some t.
Proof.
  intros H. unfold TimeClip.
  destruct (Z.ltb_spec 8640000000000000 (Z.abs t)); [lia|reflexivity].
Qed.

(** Pacific time satisfies the two assumptions on time zones. *)
Lemma pacific_bounded : tz_bounded host_pacific.
Proof.
  intros t b. cbn [LocalTZA host_pacific]. unfold pacific_offset.
  unfold msPerHour, msPerDay. destruct (if b then _ else _); lia.
Qed.

Lemma pacific_keeps_day : tz_keeps_day host_pacific.
Proof.
  intros t. unfold LocalTime, UTC. cbn [LocalTZA host_pacific].
  unfold pacific_offset, Day, msPerDay, msPerHour.
  destruct (Z.leb_spec 1710068400000 (t + 8 * 3600000)),
    (Z.ltb_spec (t + 8 * 3600000) 1730628000000); cbn [andb].
  - destruct (Z.leb_spec 1710064800000 (t - -7 * 3600000)),
      (Z.ltb_spec (t - -7 * 3600000) 1730624400000); cbn [andb]; zlia.
  - destruct (Z.leb_spec 1710064800000 (t - -8 * 3600000)),
      (Z.ltb_spec (t - -8 * 3600000) 1730624400000); cbn [andb]; zlia.
  - destruct (Z.leb_spec 1710064800000 (t - -8 * 3600000)),
      (Z.ltb_spec (t - -8 * 3600000) 1730624400000); cbn [andb]; zlia.
  - destruct (Z.leb_spec 1710064800000 (t - -8 * 3600000)),
      (Z.ltb_spec (t - -8 * 3600000) 1730624400000); cbn [andb]; zlia.
Qed.

(** *** Query strings *)

Lemma urlencode_char (c : ascii) (s : string) :
  urldecode (urlencode (String c s)) = String c (urldecode (urlencode s))
  /\ free_of "&" (urlencode (String c s)) = free_of "&" (urlencode s)
  /\ free_of "=" (urlencode (String c s)) = free_of "=" (urlencode s).
Proof.
  destruct c as [[] [] [] [] [] [] [] []]; repeat split; reflexivity.
Qed.

Lemma urldecode_urlencode (s : string) : urldecode (urlencode s) = s.
Proof.
  induction s as [|c s IH]; [reflexivity|].
  rewrite (proj1 (urlencode_char c s)), IH. reflexivity.
Qed.

Lemma urlencode_free (s : string) :
  free_of "&" (urlencode s) = true /\ free_of "=" (urlencode s) = true.
Proof.
  induction s as [|c s [IH1 IH2]]; [split; reflexivity|].
  destruct (urlencode_char c s) as (_ & -> & ->). split; assumption.
Qed.

Lemma free_of_append (c : ascii) (a b : string) :
  free_of c (a ++ b) = free_of c a && free_of c b.
Proof.
  induction a as [|x a IH]; cbn; [reflexivity|].
  rewrite IH, andb_assoc. reflexivity.
Qed.

Lemma split_at_free (sep : ascii) (a : string) :
  free_of sep a = true -> split_at sep a = [a].
Proof.
  induction a as [|c a IH]; cbn; [reflexivity|].
  destruct (Ascii.eqb c sep); [discriminate|]. cbn. intros H.
  rewrite (IH H). reflexivity.
Qed.

Lemma split_at_append (sep : ascii) (a b : string) :
  free_of sep a = true ->
  split_at sep (a ++ String sep b) = a :: split_at sep b.
Proof.
  induction a as [|c a IH]; cbn.
  - rewrite Ascii.eqb_refl. reflexivity.
  - destruct (Ascii.eqb c sep); [discriminate|]. cbn. intros H.
    rewrite (IH H). reflexivity.
Qed.

Lemma cut_at_append (sep : ascii) (a b : string) :
  free_of sep a = true -> cut_at sep (a ++ String sep b) = (a, b).
Proof.
  induction a as [|c a IH]; cbn.
  - rewrite Ascii.eqb_refl. reflexivity.
  - destruct (Ascii.eqb c sep); [discriminate|]. cbn. intros H.
    rewrite (IH H). reflexivity.
Qed.

Lemma parse_pair (n v : string) :
  (let '(n', v') := cut_at "=" (urlencode n ++ "=" ++ urlencode v) in
   (urldecode n', urldecode v')) = (n, v).
Proof.
  change ("=" ++ urlencode v) with (String "=" (urlencode v)).
  rewrite cut_at_append by apply urlencode_free.
  rewrite !urldecode_urlencode. reflexivity.
Qed.

Lemma pair_free (n v : string) :
  free_of "&" (urlencode n ++ "=" ++ urlencode v) = true.
Proof.
  rewrite !free_of_append.
  rewrite (proj1 (urlencode_free n)), (proj1 (urlencode_free v)). reflexivity.
Qed.

(** The query string determines the parameters. *)
Lemma parse_query_toString (l : URLSearchParams) :
  parse_query (params_toString l) = l.
Proof.
  destruct l as [|[n v] l]; [reflexivity|].
  unfold parse_query, params_toString.
  assert (Hne : forall (l : URLSearchParams) n v,
            exists c s,
              join "&" (map (fun '(n, v) => urlencode n ++ "=" ++ urlencode v)
                          ((n, v) :: l)) = String c s).
  { intros l0 n0 v0. cbn [map join].
    destruct (map _ l0); destruct (urlencode n0); cbn; eauto. }
  destruct (Hne l n v) as (c & s & Hs). rewrite Hs, <- Hs. clear c s Hs.
  revert n v. induction l as [|[n' v'] l IH]; intros n v.
  - cbn [map join]. rewrite split_at_free by apply pair_free.
    cbn [map]. rewrite parse_pair. reflexivity.
  - cbn [map join] in *.
    change ("&" ++ ?x) with (String "&" x).
    rewrite split_at_append by apply pair_free.
    cbn [map]. rewrite parse_pair. f_equal. apply IH.
Qed.

(** *** Decimal digits *)

Lemma decimal_one_digit (n : Z) :
  0 <= n < 10 -> decimal n = String (digit_char n) "".
Proof.
  intros H. unfold decimal. cbn [digits_upto].
  destruct (Z.ltb_spec n 10); [|lia].
  rewrite Z.mod_small by lia. reflexivity.
Qed.

Lemma decimal_two_digits (n : Z) :
  10 <= n < 100 -> decimal n = two_digit n.
Proof.
  intros H. unfold decimal, two_digit.
  assert (Hlog : 3 <= Z.log2 n) by (apply (Z.log2_le_mono 8 n); lia).
  destruct (Z.to_nat (Z.log2 n)) as [|k] eqn:Hk; [lia|].
  cbn [digits_upto].
  destruct (Z.ltb_spec n 10); [lia|].
  destruct (Z.ltb_spec (n / 10) 10); [|zlia].
  rewrite (Z.mod_small (n / 10)) by zlia. reflexivity.
Qed.

Lemma decimal_four_digits (n : Z) :
  1000 <= n <= 9999 -> decimal n = four_digit n.
Proof.
  intros H. unfold decimal, four_digit, two_digit.
  assert (Hlog : 9 <= Z.log2 n) by (apply (Z.log2_le_mono 512 n); lia).
  assert (Hk : exists k, Z.to_nat (Z.log2 n) = S (S (S k)))
    by (exists (Z.to_nat (Z.log2 n) - 3)%nat; lia).
  destruct Hk as [k ->]. cbn [digits_upto append].
  destruct (Z.ltb_spec n 10); [lia|].
  destruct (Z.ltb_spec (n / 10) 10); [zlia|].
  destruct (Z.ltb_spec (n / 10 / 10) 10); [zlia|].
  destruct (Z.ltb_spec (n / 10 / 10 / 10) 10); [|zlia].
  repeat match goal with
         | |- String (digit_char ?x) _ = String (digit_char ?y) _ =>
             replace x with y by zlia; f_equal
         end.
Qed.

Lemma padStart_two_digits (n : Z) :
  0 <= n < 100 -> padStart (string_of_Z n) 2 "0" = two_digit n.
Proof.
  intros H. unfold string_of_Z.
  destruct (Z.ltb_spec n 0); [lia|].
  destruct (Z.lt_ge_cases n 10).
  - rewrite decimal_one_digit by lia. unfold two_digit, padStart.
    cbn [String.length Nat.sub repeat_char append].
    rewrite Z.div_small, Z.mod_small by lia. reflexivity.
  - rewrite decimal_two_digits by lia. reflexivity.
Qed.

(** [fmtDate] writes YYYYMMDD for the years 1000 to 9999. *)
Lemma fmtDate_yyyymmdd (host : Host) (t : Z) :
  four_digit_year host t ->
  fmtDate host (Some t) = yyyymmdd (local_ymd host t).
Proof.
  intros Hy. unfold four_digit_year in Hy.
  unfold fmtDate, yyyymmdd, local_ymd, getFullYear, getMonth, getDate.
  cbn [option_map String_of_int].
  pose proof (MonthFromTime_range (LocalTime host t)).
  pose proof (DateFromTime_range (LocalTime host t)).
  rewrite !padStart_two_digits by lia.
  unfold string_of_Z.
  destruct (Z.ltb_spec (YearFromTime (LocalTime host t)) 0); [lia|].
  rewrite decimal_four_digits by lia.
  rewrite (Z.add_comm 1). reflexivity.
Qed.

(** *** Digits and fixed-point notation *)






Lemma length_append (a b : string) :
  String.length (a ++ b) = (String.length a + String.length b)%nat.
Proof. induction a as [|c a IH]; cbn; [reflexivity|]. rewrite IH. reflexivity. Qed.

















(** *** The rows of the table *)








(** *** The chart slot *)

Lemma owns_canvas_transfer (w w' : World) :
  chart w' = chart w -> live_charts w' = live_charts w ->
  chart_slot_owns_canvas w -> chart_slot_owns_canvas w'.
Proof. unfold chart_slot_owns_canvas. intros -> ->. auto. Qed.

(** Destroying the chart of the slot empties the canvas; the new chart
    is then the only one. *)
Lemma chart_destroyed_empty (w : World) :
  chart_slot_owns_canvas w -> live_charts (chart_destroyed w) = [].
Proof.
  unfold chart_slot_owns_canvas, chart_destroyed.
  destruct (chart w) as [c|]; intros H; [|exact H].
  cbn [live_charts with_live_charts]. rewrite H. cbn [filter].
  rewrite Nat.eqb_refl. reflexivity.
Qed.

Lemma chart_replaced_owns (config : ChartConfig) (w : World) :
  chart_slot_owns_canvas w ->
  chart_slot_owns_canvas (chart_replaced config w)
  /\ live_charts (chart_replaced config w) = [next_chart_id w]
  /\ chart (chart_replaced config w) = first_chart w config.
Proof.
  intros H. pose proof (chart_destroyed_empty w H) as Hempty.
  assert (Hnext : next_chart_id (chart_destroyed w) = next_chart_id w).
  { unfold chart_destroyed. destruct (chart w); reflexivity. }
  unfold chart_slot_owns_canvas, chart_replaced, first_chart.
  cbn [chart live_charts with_chart with_live_charts chart_id].
  rewrite Hempty, Hnext. repeat split.
Qed.

Lemma chart_replaced_events (config : ChartConfig) (w : World) :
  events_since w (chart_replaced config w)
    (match chart w with
     | Some c => [Chart_destroy (chart_id c)]
     | None => []
     end ++ [Chart_new (next_chart_id w)]).
Proof.
  unfold events_since, chart_replaced, chart_destroyed.
  destruct (chart w); reflexivity.
Qed.

Lemma chart_step_holds (w : World) (call : event)
  (config : completion ChartConfig) :
  chart_slot_owns_canvas w ->
  chart_step w call config
    (match config with
     | Normal c => (Normal tt, chart_replaced c (log_event call w))
     | Throw e => (Throw e, log_event call w)
     end)
  /\ chart_slot_owns_canvas
       (snd (match config with
             | Normal c => (Normal tt, chart_replaced c (log_event call w))
             | Throw e => (Throw e, log_event call w)
             end)).
Proof.
  intros H.
  assert (H0 : chart_slot_owns_canvas (log_event call w)) by exact H.
  destruct config as [c|e]; cbn [chart_step fst snd].
  - destruct (chart_replaced_owns c _ H0) as (Howns & Hlive & Hchart).
    repeat split; try assumption.
    + apply chart_destroyed_empty, H0.
    + exact (events_since_trans w (log_event call w) _ [call] _ eq_refl
               (chart_replaced_events c (log_event call w))).
  - repeat split. exact H0.
Qed.

Lemma renderChart_owns_v1 (host : Host) (hourly hilo : value) (units : string)
  (w : World) :
  chart_slot_owns_canvas w ->
  chart_slot_owns_canvas (snd (V1.renderChart host hourly hilo units w)).
Proof.
  intros H. rewrite renderChart_run_v1.
  apply (chart_step_holds w _ (V1.chart_config_of host hourly hilo units) H).
Qed.

Lemma renderChart_owns_v2 (host : Host) (hourly hilo : value) (units : string)
  (w : World) :
  chart_slot_owns_canvas w ->
  chart_slot_owns_canvas (snd (V2.renderChart host hourly hilo units w)).
Proof.
  intros H. rewrite renderChart_run_v2.
  apply (chart_step_holds w _ (V2.chart_config_of host hourly hilo units) H).
Qed.

Lemma render_owns_v1 (host : Host) (b : bool) (hourly hilo : value)
  (units : string) (w : World) :
  chart_slot_owns_canvas w ->
  chart_slot_owns_canvas (snd (render_v1 host b hourly hilo units w)).
Proof.
  intros H. unfold render_v1, bind. rewrite setHiloNote_run.
  match goal with
  | |- context [V1.renderChart host hourly hilo units ?w1] =>
      pose proof (renderChart_owns_v1 host hourly hilo units w1 H) as H1;
      destruct (V1.renderChart host hourly hilo units w1) as [[[]|e] w2]
  end; cbn [snd] in *; [|exact H1].
  eapply owns_canvas_transfer; [| |exact H1].
  - apply (renderTable_keeps_v1 chart). reflexivity.
  - apply (renderTable_keeps_v1 live_charts). reflexivity.
Qed.

Lemma render_owns_v2 (host : Host) (b : bool) (hourly hilo : value)
  (units : string) (w : World) :
  chart_slot_owns_canvas w ->
  chart_slot_owns_canvas (snd (render_v2 host b hourly hilo units w)).
Proof.
  intros H. unfold render_v2, bind. rewrite setHiloNote_run.
  match goal with
  | |- context [V2.renderChart host hourly hilo units ?w1] =>
      pose proof (renderChart_owns_v2 host hourly hilo units w1 H) as H1;
      destruct (V2.renderChart host hourly hilo units w1) as [[[]|e] w2]
  end; cbn [snd] in *; [|exact H1].
  eapply owns_canvas_transfer; [| |exact H1].
  - apply (renderTable_keeps_v2 chart). reflexivity.
  - apply (renderTable_keeps_v2 live_charts). reflexivity.
Qed.

Lemma loadData_owns_v1 (host : Host) (w : World) :
  chart_slot_owns_canvas w ->
  chart_slot_owns_canvas (snd (V1.loadData host w)).
Proof.
  intros H. rewrite loadData_run_v1. cbv zeta.
  assert (H1 : chart_slot_owns_canvas (after_requests_v1 host w)) by exact H.
  destruct (hilo_reply host w) as [hiloRes|e]; [|exact H1].
  destruct (get hiloRes p_predictions) as [predictions|e]; [|exact H1].
  apply (render_owns_v1 host _ _ _ _ _ H1).
Qed.

Lemma loadData_owns_v2 (host : Host) (w : World) :
  chart_slot_owns_canvas w ->
  chart_slot_owns_canvas (snd (V2.loadData host w)).
Proof.
  intros H. rewrite loadData_run_v2. cbv zeta.
  assert (H1 : chart_slot_owns_canvas (after_requests_v2 host w)).
  { unfold after_requests_v2. destruct (snd (attempt_v2 host w)); exact H. }
  destruct (hilo_reply host w) as [hiloRes|e]; [|exact H1].
  destruct (get hiloRes p_predictions) as [predictions|e]; [|exact H1].
  apply (render_owns_v2 host _ _ _ _ _ H1).
Qed.

Lemma reachable_owns (host : Host) (w : World) :
  reachable host w -> chart_slot_owns_canvas w.
Proof.
  induction 1 as [w [Hchart Hlive]|w w' _ IH Hstep].
  - unfold chart_slot_owns_canvas. rewrite Hchart, Hlive. reflexivity.
  - destruct Hstep.
    + apply renderChart_owns_v1, IH.
    + apply renderChart_owns_v2, IH.
    + apply loadData_owns_v1, IH.
    + apply loadData_owns_v2, IH.
    + eapply owns_canvas_transfer; eassumption.
Qed.

(** ** The claims *)

(** *** C1 *)

(** C1: if the mandatory extrema request fails (non-success status or
    error payload, or any other failure of [fetchJSON]), [loadData]
    fails with the same exception, neither [setHiloNote] nor
    [renderChart] nor [renderTable] is called, and the chart, the note
    and the table stay as they were.  Both revisions. *)
Theorem mandatory_failure_aborts_load (host : Host) (w : World) (e : exn) :
  hilo_reply host w = Throw e ->
  aborted_before_rendering e w (V1.loadData host w)
  /\ aborted_before_rendering e w (V2.loadData host w).
Proof.
  intros Hhilo. rewrite loadData_run_v1, loadData_run_v2. cbv zeta.
  rewrite Hhilo. unfold aborted_before_rendering, same_page, events_since.
  cbn [fst snd]. split.
  - repeat split.
    exists [Fetch (request host "60" w); Fetch (request host "hilo" w)].
    split; reflexivity.
  - unfold after_requests_v2.
    destruct (snd (attempt_v2 host w)) as [caught|]; repeat split.
    + exists [Fetch (request host "60" w); Console_warn caught;
              Fetch (request host "hilo" w)].
      split; reflexivity.
    + exists [Fetch (request host "60" w); Fetch (request host "hilo" w)].
      split; reflexivity.
Qed.

Lemma mandatory_failure_aborts_load_witness :
  aborted_before_rendering (Error "No data was found.")
    (page hourly_found no_data)
    (V1.loadData host_pst (page hourly_found no_data))
  /\ aborted_before_rendering (Error "No data was found.")
       (page hourly_found no_data)
       (V2.loadData host_pst (page hourly_found no_data)).
Proof.
  apply (mandatory_failure_aborts_load host_pst (page hourly_found no_data)).
  vm_compute. reflexivity.
Defined.

(** *** C2 *)







(** *** C3 *)

(** C3, first revision: when the hourly request fails and the extrema
    request succeeds, [loadData] calls [renderChart] with [hourly]
    still [null] (its initial value, which the [catch] clause leaves
    alone); [renderChart] faults on [hourly.length], so [loadData]
    fails with a TypeError, the chart and the table are not touched.
    The claim does not hold for this revision. *)
Theorem hourly_failure_passes_null_v1 (host : Host) (w : World) (e : exn)
  (hiloRes : value) :
  hourly_reply host w = Throw e ->
  hilo_reply host w = Normal hiloRes ->
  exists hilo,
    fst (V1.loadData host w) = Throw TypeError
    /\ events_since w (snd (V1.loadData host w))
         [Fetch (request host "60" w); Fetch (request host "hilo" w);
          Call_setHiloNote false;
          Call_renderChart (Some JNull) hilo (unitsSel_value w)]
    /\ isArray (Some JNull) = false
    /\ get (Some JNull) p_length = Throw TypeError
    /\ chart (snd (V1.loadData host w)) = chart w
    /\ live_charts (snd (V1.loadData host w)) = live_charts w
    /\ tbody (snd (V1.loadData host w)) = tbody w.
Proof.
  intros Hhourly Hhilo.
  destruct (fetchJSON_result_readable _ _ p_predictions Hhilo)
    as [predictions Hp].
  exists (or_else predictions empty_array).
  rewrite loadData_run_v1. cbv zeta. rewrite Hhilo, Hp.
  unfold attempt_v1, hourly_attempt. rewrite Hhourly.
  cbn [fst hourly supportsHourly]. unfold bind.
  rewrite setHiloNote_run, renderChart_run_v1.
  repeat split; reflexivity.
Qed.

Lemma hourly_failure_passes_null_v1_witness :
  exists hilo,
    let w := page server_error hilo_found in
    fst (V1.loadData host_pst w) = Throw TypeError
    /\ events_since w (snd (V1.loadData host_pst w))
         [Fetch (request host_pst "60" w); Fetch (request host_pst "hilo" w);
          Call_setHiloNote false;
          Call_renderChart (Some JNull) hilo (unitsSel_value w)]
    /\ isArray (Some JNull) = false
    /\ get (Some JNull) p_length = Throw TypeError
    /\ chart (snd (V1.loadData host_pst w)) = chart w
    /\ live_charts (snd (V1.loadData host_pst w)) = live_charts w
    /\ tbody (snd (V1.loadData host_pst w)) = tbody w.
Proof.
  apply (hourly_failure_passes_null_v1 host_pst (page server_error hilo_found)
           (Error "HTTP 500")
           (Some (JObj [("predictions", JArr hilo_points)])));
    vm_compute; reflexivity.
Defined.

(** The second revision initialises [hourly] with an empty array: in
    the same situation [renderChart] receives an array and reads its
    [length] without fault. *)
Lemma hourly_failure_passes_array_v2 (host : Host) (w : World) (e : exn)
  (hiloRes : value) :
  hourly_reply host w = Throw e ->
  hilo_reply host w = Normal hiloRes ->
  exists hilo evs,
    events_since w (snd (V2.loadData host w))
      ([Fetch (request host "60" w); Console_warn e;
        Fetch (request host "hilo" w);
        Call_setHiloNote false;
        Call_renderChart empty_array hilo (unitsSel_value w)] ++ evs)
    /\ isArray empty_array = true
    /\ exists len, get empty_array p_length = Normal len.
Proof.
  intros Hhourly Hhilo.
  destruct (fetchJSON_result_readable _ _ p_predictions Hhilo)
    as [predictions Hp].
  rewrite loadData_run_v2. cbv zeta. rewrite Hhilo, Hp.
  unfold after_requests_v2, attempt_v2, hourly_attempt. rewrite Hhourly.
  cbn [fst snd hourly supportsHourly].
  fold (render_v2 host false empty_array (V2.array_or_empty predictions)
          (unitsSel_value w)).
  match goal with
  | |- context [render_v2 _ _ _ _ _ ?w1] =>
      destruct (render_events_v2 host false empty_array
                  (V2.array_or_empty predictions) (unitsSel_value w) w1)
        as [_ [evs Hevs]]
  end.
  exists (V2.array_or_empty predictions), evs.
  split; [|split; [reflexivity|eexists; reflexivity]].
  refine (events_since_trans w _ _
            [Fetch (request host "60" w); Console_warn e;
             Fetch (request host "hilo" w)] _ _ Hevs).
  reflexivity.
Qed.

(** *** C4 *)

(** C4: when the hourly request yields the points [hs] and the extrema
    request the points [ls] (predictions as the service delivers them),
    [loadData] completes, calls [setHiloNote] with [supportsHourly]
    true exactly when [hs] is not empty, and hands Chart.js a
    configuration whose marker series is built from the [M] extrema
    (one marker each) and whose line series has the [N] hourly points
    when [N > 0] and is the marker series (same times, same heights)
    when [hs] is empty.  Both revisions. *)
Theorem load_builds_series_pair (host : Host) (w : World)
  (res hiloRes : value) (hs ls : list json) :
  hourly_reply host w = Normal res ->
  get res p_predictions = Normal (Some (JArr hs)) ->
  hilo_reply host w = Normal hiloRes ->
  get hiloRes p_predictions = Normal (Some (JArr ls)) ->
  Forall prediction_point hs -> Forall prediction_point ls ->
  let supportsHourly := negb (is_nil hs) in
  (exists config,
     load_renders w (V1.loadData host w) supportsHourly config
     /\ series_pair (V1.hiloPoint_of host) hs ls config)
  /\ (exists config,
        load_renders w (V2.loadData host w) supportsHourly config
        /\ series_pair (V2.hiloPoint_of host) hs ls config).
Proof.
  intros Hhourly Hpreds Hhilo Hhp Hhs Hls sup. subst sup.
  destruct (array_length_truthy hs) as [len [Hlen Htruthy]].
  split.
  - destruct (chart_config_total_v1 host hs ls (unitsSel_value w) Hhs Hls)
      as [config Hcfg].
    exists config. split; [|eapply chart_config_series_v1; exact Hcfg].
    rewrite loadData_run_v1. cbv zeta. rewrite Hhilo, Hhp.
    unfold attempt_v1, hourly_attempt. rewrite Hhourly, Hpreds.
    change (or_else (Some (JArr hs)) empty_array) with (Some (JArr hs)).
    change (or_else (Some (JArr ls)) empty_array) with (Some (JArr ls)).
    rewrite Hlen, Htruthy. cbn [fst hourly supportsHourly].
    apply (render_renders_v1 host _ hs ls _ (after_requests_v1 host w) config
             Hcfg Hls).
  - destruct (chart_config_total_v2 host hs ls (unitsSel_value w) Hhs Hls)
      as [config Hcfg].
    exists config. split; [|eapply chart_config_series_v2; exact Hcfg].
    rewrite loadData_run_v2. cbv zeta. rewrite Hhilo, Hhp.
    unfold attempt_v2, hourly_attempt. rewrite Hhourly, Hpreds.
    change (V2.array_or_empty (Some (JArr hs))) with (Some (JArr hs)).
    change (V2.array_or_empty (Some (JArr ls))) with (Some (JArr ls)).
    rewrite Hlen, Htruthy. cbn [fst hourly supportsHourly].
    assert (Hnext : first_chart (after_requests_v2 host w) config
                    = first_chart w config).
    { unfold after_requests_v2.
      destruct (snd (attempt_v2 host w)); reflexivity. }
    unfold load_renders. rewrite <- Hnext.
    apply (render_renders_v2 host _ hs ls _ (after_requests_v2 host w) config
             Hcfg Hls).
Qed.

Lemma load_builds_series_pair_witness :
  let w := page hourly_found hilo_found in
  (exists config,
     load_renders w (V1.loadData host_pst w) true config
     /\ series_pair (V1.hiloPoint_of host_pst) hourly_points hilo_points config)
  /\ (exists config,
        load_renders w (V2.loadData host_pst w) true config
        /\ series_pair (V2.hiloPoint_of host_pst) hourly_points hilo_points
             config).
Proof.
  apply (load_builds_series_pair host_pst (page hourly_found hilo_found)
           (Some (JObj [("predictions", JArr hourly_points)]))
           (Some (JObj [("predictions", JArr hilo_points)]))
           hourly_points hilo_points);
    try (vm_compute; reflexivity);
    repeat constructor; eexists; eexists; split; reflexivity.
Defined.

(** *** C5 *)

(** A response with status 400 whose body carries an error message:
    [fetchJSON] never reads the body and reports the status. *)
Lemma status_shadows_payload_message :
  let w := page bad_request_with_message bad_request_with_message in
  let url := request host_pst "hilo" w in
  let resp :=
    {| ok := false; status := 400;
       json_body :=
         Normal (JObj [("error",
                        JObj [("message", JStr "No data was found.")])]) |} in
  network w url = Normal resp
  /\ fst (fetchJSON url w) = Throw (Error "HTTP 400")
  /\ truthy (error_payload resp) = true
  /\ payload_message resp = Some (JStr "No data was found.")
  /\ ~ message_comes_from_payload resp (fst (fetchJSON url w)).
Proof.
  intros w url resp.
  assert (Hrun : fst (fetchJSON url w) = Throw (Error "HTTP 400"))
    by (vm_compute; reflexivity).
  split; [vm_compute; reflexivity|]. split; [exact Hrun|].
  split; [reflexivity|]. split; [reflexivity|].
  unfold message_comes_from_payload. rewrite Hrun. intros H.
  specialize (H "No data was found." eq_refl eq_refl).
  assert (Hne : "No data was found." <> "") by discriminate.
  specialize (H Hne). inversion H.
Qed.

(** [fetchJSON] on a success status whose body is a JSON value other
    than [null]. *)
Lemma fetchJSON_result_ok (resp : Response) (data : json) :
  ok resp = true -> json_body resp = Normal data -> data <> JNull ->
  fetchJSON_result (Normal resp)
  = if truthy (error_payload resp)
    then match ToString (or_else (payload_message resp)
                           (Some (JStr "API error"))) with
         | Normal message => Throw (Error message)
         | Throw e => Throw e
         end
    else Normal (Some data).
Proof.
  intros Hok Hbody Hdata.
  unfold fetchJSON_result, payload_message, error_payload, bind_completion.
  rewrite Hok, Hbody. cbn [negb].
  assert (Herr : exists err, get (Some data) p_error = Normal err).
  { destruct data; try contradiction; eexists; reflexivity. }
  destruct Herr as [err ->].
  destruct (truthy err) eqn:Htruthy; [|reflexivity].
  assert (Hmsg : exists m, get err p_message = Normal m).
  { destruct err as [[]|]; try discriminate; eexists; reflexivity. }
  destruct Hmsg as [m ->]. reflexivity.
Qed.

Lemma error_payload_body (resp : Response) :
  truthy (error_payload resp) = true ->
  exists data, json_body resp = Normal data /\ data <> JNull.
Proof.
  unfold error_payload.
  destruct (json_body resp) as [data|]; [|discriminate].
  intros H. exists data. split; [reflexivity|].
  intros ->. discriminate H.
Qed.

(** C5, amended: for a response [resp] of [fetch], [fetchJSON]
    - fails with the message [HTTP <status>] when the status is not a
      success, whatever the body says (the body is not read);
    - on a success status, fails with the message of the error payload
      when that message is present, and with [API error] when the
      payload has no message;
    - provided the body is a JSON value other than [null], fails if
      and only if the status is not a success or the body has a
      (truthy) [error] member, and otherwise returns the body. *)
Theorem fetchJSON_failure_rule (w : World) (url : string) (resp : Response) :
  network w url = Normal resp ->
  let r := fst (fetchJSON url w) in
  (ok resp = false ->
   r = Throw (Error ("HTTP " ++ string_of_Z (status resp))))
  /\ (ok resp = true -> message_comes_from_payload resp r)
  /\ (ok resp = true -> truthy (error_payload resp) = true ->
      truthy (payload_message resp) = false ->
      r = Throw (Error "API error"))
  /\ (forall data,
        json_body resp = Normal data -> data <> JNull ->
        ((exists e, r = Throw e)
         <-> ok resp = false \/ truthy (error_payload resp) = true)
        /\ (ok resp = true -> truthy (error_payload resp) = false ->
            r = Normal (Some data))).
Proof.
  intros Hnet r. subst r. rewrite fetchJSON_run. cbn [fst]. rewrite Hnet.
  split; [|split; [|split]].
  - intros Hok. unfold fetchJSON_result, bind_completion. rewrite Hok.
    reflexivity.
  - intros Hok msg Hpay Hmsg Hne.
    destruct (error_payload_body resp Hpay) as [data [Hbody Hdata]].
    rewrite (fetchJSON_result_ok resp data Hok Hbody Hdata), Hpay, Hmsg.
    unfold or_else. cbn [truthy].
    destruct (String.eqb_spec msg ""); [contradiction|reflexivity].
  - intros Hok Hpay Hmsg.
    destruct (error_payload_body resp Hpay) as [data [Hbody Hdata]].
    rewrite (fetchJSON_result_ok resp data Hok Hbody Hdata), Hpay.
    unfold or_else. rewrite Hmsg. reflexivity.
  - intros data Hbody Hdata.
    destruct (ok resp) eqn:Hok.
    + rewrite (fetchJSON_result_ok resp data Hok Hbody Hdata).
      destruct (truthy (error_payload resp)).
      * split; [split; [intros _; right; reflexivity|]|discriminate].
        intros _. destruct (ToString _); eexists; reflexivity.
      * split; [split|reflexivity].
        -- intros [e He]. discriminate He.
        -- intros [H|H]; discriminate H.
    + unfold fetchJSON_result, bind_completion. rewrite Hok. cbn [negb].
      split; [split|discriminate].
      * intros _. left. reflexivity.
      * intros _. eexists. reflexivity.
Qed.

Lemma fetchJSON_failure_rule_witness :
  let w := page hourly_found no_data in
  let url := request host_pst "hilo" w in
  fst (fetchJSON url w) = Throw (Error "No data was found.").
Proof.
  intros w url.
  assert (Hnet : network w url
                 = Normal
                     {| ok := true; status := 200;
                        json_body :=
                          Normal (JObj [("error",
                                         JObj [("message",
                                                JStr "No data was found.")])]) |})
    by (vm_compute; reflexivity).
  destruct (fetchJSON_failure_rule w url _ Hnet) as [_ [Hmsg _]].
  apply (Hmsg eq_refl "No data was found."); [reflexivity|reflexivity|].
  discriminate.
Defined.

(** *** C6 *)

(** C6: for a window whose two dates have four-digit years,
    [buildUrl] yields the base address, a question mark and the
    serialisation of exactly these parameters, in this order: product,
    application, begin_date, end_date, datum, station, time_zone,
    units, format, followed by interval when the caller gave a
    non-empty one (['60'], ['hilo']) and by nothing otherwise; parsing
    the query string gives these parameters back; datum and units are
    passed through, and the two dates are written as YYYYMMDD in local
    time (1 June 2024 gives [20240601], 15 June 2024 gives
    [20240615]). *)
Theorem buildUrl_parameters (host : Host) (a : UrlArgs) (tb te : Z) :
  begin a = Some tb -> end_ a = Some te ->
  four_digit_year host tb -> four_digit_year host te ->
  buildUrl_params host a = request_parameters host a tb te
  /\ buildUrl host a
     = API_BASE ++ "?" ++ params_toString (request_parameters host a tb te)
  /\ parse_query (params_toString (request_parameters host a tb te))
     = request_parameters host a tb te
  /\ params_names (buildUrl_params host a)
     = (["product"; "application"; "begin_date"; "end_date"; "datum";
         "station"; "time_zone"; "units"; "format"]
        ++ (if string_truthy (interval a) then ["interval"] else []))%list
  /\ (interval a = Some "60" ->
      params_get "interval" (buildUrl_params host a) = Some "60")
  /\ (interval a = Some "hilo" ->
      params_get "interval" (buildUrl_params host a) = Some "hilo")
  /\ (interval a = None ->
      params_get "interval" (buildUrl_params host a) = None)
  /\ (local_ymd host tb = (2024, 5, 1) ->
      params_get "begin_date" (buildUrl_params host a) = Some "20240601")
  /\ (local_ymd host te = (2024, 5, 15) ->
      params_get "end_date" (buildUrl_params host a) = Some "20240615").
Proof.
  intros Hb He Hyb Hye.
  assert (Hparams : buildUrl_params host a = request_parameters host a tb te).
  { unfold buildUrl_params, request_parameters, string_truthy.
    rewrite Hb, He, !fmtDate_yyyymmdd by assumption.
    destruct (interval a) as [i|]; [|reflexivity].
    destruct (String.eqb i ""); reflexivity. }
  unfold buildUrl. rewrite Hparams.
  split; [reflexivity|]. split; [reflexivity|].
  split; [apply parse_query_toString|].
  unfold request_parameters. split.
  { unfold string_truthy. destruct (interval a) as [i|]; [|reflexivity].
    destruct (String.eqb i ""); reflexivity. }
  split; [intros ->; reflexivity|]. split; [intros ->; reflexivity|].
  split; [intros ->; reflexivity|].
  split; intros ->; reflexivity.
Qed.

Lemma buildUrl_parameters_witness :
  let a :=
    {| begin := Some 1717275600000; end_ := Some 1718485200000;
       product := "predictions"; interval := Some "hilo";
       datum := "MLLW"; units := "english" |} in
  buildUrl host_pst a
  = "https://api.tidesandcurrents.noaa.gov/api/prod/datagetter?product=predictions&application=Jeremy.Whidbey.Tides&begin_date=20240601&end_date=20240615&datum=MLLW&station=9447856&time_zone=lst_ldt&units=english&format=json&interval=hilo".
Proof.
  intros a.
  destruct (buildUrl_parameters host_pst a 1717275600000 1718485200000
              eq_refl eq_refl)
    as [_ [Hurl _]].
  - unfold four_digit_year. vm_compute. split; discriminate.
  - unfold four_digit_year. vm_compute. split; discriminate.
  - rewrite Hurl. vm_compute. reflexivity.
Defined.

(** *** C7 *)



(** Across the start of daylight saving time the two ends are 14
    calendar days but 14 days less one hour apart. *)
Example window_across_clock_change :
  window host_pacific (clock page_in_march)
  = (Some 1709323200000, Some 1710529200000)
  /\ 1710529200000 - 1709323200000 = 14 * msPerDay - msPerHour
  /\ local_ymd host_pacific 1709323200000 = (2024, 2, 1)
  /\ local_ymd host_pacific 1710529200000 = (2024, 2, 15)
  /\ fmtDate host_pacific (Some 1709323200000) = "20240301"
  /\ fmtDate host_pacific (Some 1710529200000) = "20240315".
Proof. vm_compute. repeat split; reflexivity. Qed.

(** *** C8 *)



(** *** C9 *)


(** *** C10 *)

(** C10: on every page reachable from a fresh one through any number
    of [renderChart] and [loadData] runs (either revision, in any order
    and interleaving), the live charts are at most one, the one held by
    the global [chart].  A call of [renderChart] on such a page that
    builds its configuration destroys the chart of the slot, if any,
    before it creates the new one (in between no chart is live), and
    the new one is then the only live chart and sits in the slot; a
    call that faults leaves the chart alone. *)
Theorem at_most_one_chart (host : Host) (w : World) :
  reachable host w ->
  chart_slot_owns_canvas w
  /\ (List.length (live_charts w) <= 1)%nat
  /\ forall hourly hilo units,
       chart_step w (Call_renderChart hourly hilo units)
         (V1.chart_config_of host hourly hilo units)
         (V1.renderChart host hourly hilo units w)
       /\ chart_step w (Call_renderChart hourly hilo units)
            (V2.chart_config_of host hourly hilo units)
            (V2.renderChart host hourly hilo units w).
Proof.
  intros Hreach. pose proof (reachable_owns host w Hreach) as H.
  split; [exact H|]. split.
  - unfold chart_slot_owns_canvas in H. rewrite H.
    destruct (chart w); cbn; lia.
  - intros hourly hilo units.
    rewrite renderChart_run_v1, renderChart_run_v2. cbv zeta.
    split; apply chart_step_holds; exact H.
Qed.

Lemma at_most_one_chart_witness :
  let w := snd (V2.loadData host_pst
                  (snd (V1.loadData host_pst (page hourly_found hilo_found)))) in
  live_charts w = [1%nat]
  /\ chart_slot_owns_canvas w
  /\ (List.length (live_charts w) <= 1)%nat.
Proof.
  intros w. split; [vm_compute; reflexivity|].
  assert (Hreach : reachable host_pst w).
  { subst w. eapply reach_step; [|apply step_loadData_v2].
    eapply reach_step; [|apply step_loadData_v1].
    apply reach_fresh. split; reflexivity. }
  destruct (at_most_one_chart host_pst w Hreach) as (Howns & Hlen & _).
  split; assumption.
Defined.

(** ** Further facts *)

(** *** The rows of the table, row by row *)

Lemma for_of_rows_upto (body : value -> JS unit)
  (row_of : value -> completion string) (items : list value) :
  (forall p w,
     body p w = match row_of p with
                | Normal tr => (Normal tt, with_tbody (tbody w ++ [tr]) w)
                | Throw e => (Throw e, w)
                end) ->
  forall w,
    for_of items body w
    = (match snd (rows_upto row_of items) with
       | None => Normal tt
       | Some e => Throw e
       end,
       with_tbody (tbody w ++ fst (rows_upto row_of items)) w).
Proof.
  intros Hbody. induction items as [|p items IH]; intros w.
  - cbn. rewrite app_nil_r. destruct w; reflexivity.
  - cbn [for_of rows_upto]. unfold bind. rewrite Hbody.
    destruct (row_of p) as [tr|e].
    + rewrite IH. destruct (rows_upto row_of items) as [rows stop].
      cbn [fst snd tbody with_tbody]. rewrite <- app_assoc. reflexivity.
    + cbn [fst snd]. rewrite app_nil_r. destruct w; reflexivity.
Qed.

Lemma table_body_row (host : Host) (toDate : value -> completion Date)
  (units : string) (p : value) (w : World) :
  (t <- pure (get p p_t) ;;
   dt <- pure (toDate t) ;;
   let dateStr := toLocaleDateString host dt in
   let timeStr := toLocaleTimeString_hm host dt in
   type <- pure (get p p_type) ;;
   let typeStr := typeStr type in
   v <- pure (get p p_v) ;;
   n <- pure (Number v) ;;
   let h := toFixed n 2 in
   tbody_appendChild (row_html dateStr timeStr typeStr h (unitLabel units))) w
  = match table_row host toDate units p with
    | Normal tr => (Normal tt, with_tbody (tbody w ++ [tr]) w)
    | Throw e => (Throw e, w)
    end.
Proof.
  unfold table_row, tbody_appendChild, set_tbody. step.
  destruct (get p p_t); [|reflexivity].
  destruct (toDate a); [|reflexivity].
  destruct (get p p_type); [|reflexivity].
  destruct (get p p_v); [|reflexivity].
  destruct (Number a2); reflexivity.
Qed.

(** [renderTable] as a function of the rows that can be built. *)
Lemma renderTable_run (host : Host) (hilo : value) (units : string) (w : World) :
  V2.renderTable host hilo units w
  = let w0 := log_event (Call_renderTable hilo units) w in
    match iterate hilo with
    | Throw e => (Throw e, with_tbody [] w0)
    | Normal items =>
        let '(rows, stop) :=
          rows_upto (table_row host (V2.toLocalDate host) units) items in
        (match stop with
         | None => Normal tt
         | Some e => Throw e
         end, with_tbody rows w0)
    end.
Proof.
  unfold V2.renderTable, set_tbody. step.
  destruct (iterate hilo) as [items|e]; [|reflexivity].
  rewrite (for_of_rows_upto _ (table_row host (V2.toLocalDate host) units));
    [|intros p w'; exact (table_body_row host (V2.toLocalDate host) units p w')].
  destruct (rows_upto _ items) as [rows stop]. reflexivity.
Qed.

Lemma renderTable_run_v1 (host : Host) (hilo : value) (units : string) (w : World) :
  V1.renderTable host hilo units w
  = let w0 := log_event (Call_renderTable hilo units) w in
    match iterate hilo with
    | Throw e => (Throw e, with_tbody [] w0)
    | Normal items =>
        let '(rows, stop) :=
          rows_upto (table_row host (V2.toLocalDate host) units) items in
        (match stop with
         | None => Normal tt
         | Some e => Throw e
         end, with_tbody rows w0)
    end.
Proof. exact (renderTable_run host hilo units w). Qed.

Lemma rows_upto_all (row_of : value -> completion string) (items : list json)
  (rows : list string) :
  map_completion (fun p => row_of (Some p)) items = Normal rows ->
  rows_upto row_of (map Some items) = (rows, None).
Proof.
  revert rows. induction items as [|p items IH]; intros rows; cbn.
  - intros [= <-]. reflexivity.
  - destruct (row_of (Some p)) as [tr|]; [|discriminate]. cbn.
    destruct (map_completion _ items) as [rows'|]; [|discriminate]. cbn.
    intros [= <-]. rewrite (IH rows' eq_refl). reflexivity.
Qed.

Lemma rows_upto_fault (row_of : value -> completion string)
  (good rest : list json) (bad : json) (rows : list string) (e : exn) :
  map_completion (fun p => row_of (Some p)) good = Normal rows ->
  row_of (Some bad) = Throw e ->
  rows_upto row_of (map Some (good ++ bad :: rest)) = (rows, Some e).
Proof.
  intros Hgood Hbad. revert rows Hgood.
  induction good as [|p good IH]; intros rows; cbn.
  - intros [= <-]. rewrite Hbad. reflexivity.
  - destruct (row_of (Some p)) as [tr|]; [|discriminate]. cbn.
    destruct (map_completion _ good) as [rows'|]; [|discriminate]. cbn.
    intros [= <-]. rewrite (IH rows' eq_refl). reflexivity.
Qed.

Lemma map_completion_inv {A B} (f : A -> completion B) (l : list A)
  (r : list B) :
  map_completion f l = Normal r -> Forall (fun a => exists b, f a = Normal b) l.
Proof.
  revert r. induction l as [|a l IH]; intros r; cbn; [constructor|].
  destruct (f a) as [b|] eqn:Hb; [|discriminate]. cbn.
  destruct (map_completion f l) as [bs|]; [|discriminate]. cbn.
  intros _. constructor; [eauto|]. eapply IH. reflexivity.
Qed.

Lemma hiloPoint_row (host : Host) (units : string) (p : value) (pt : HiloPoint) :
  V2.hiloPoint_of host p = Normal pt ->
  exists tr, table_row host (V2.toLocalDate host) units p = Normal tr.
Proof.
  unfold V2.hiloPoint_of, table_row, bind_completion.
  destruct (get p p_t); [|discriminate].
  destruct (V2.toLocalDate host a); [|discriminate].
  destruct (get p p_v); [|discriminate].
  destruct (Number a1); [|discriminate].
  destruct (get p p_type); [|discriminate].
  intros _. eexists. reflexivity.
Qed.

(** *** The rendering phase *)

(** The two revisions build the same chart configuration. *)
Lemma chart_config_same (host : Host) (hourly hilo : value) (units : string) :
  V1.chart_config_of host hourly hilo units
  = V2.chart_config_of host hourly hilo units.
Proof.
  unfold V1.chart_config_of, V2.chart_config_of, V2.primary, bind_completion.
  destruct (get hourly p_length) as [len|e]; [|reflexivity].
  destruct (truthy len); reflexivity.
Qed.

Lemma render_same (host : Host) (b : bool) (hourly hilo : value)
  (units : string) (w : World) :
  render_v1 host b hourly hilo units w = render_v2 host b hourly hilo units w.
Proof.
  unfold render_v1, render_v2, bind. rewrite setHiloNote_run.
  rewrite renderChart_run_v1, renderChart_run_v2, chart_config_same.
  reflexivity.
Qed.

(** The rendering phase as a function of the configuration and the
    rows. *)
Lemma render_run (host : Host) (b : bool) (hourly hilo : value)
  (units : string) (w : World) :
  render_v2 host b hourly hilo units w
  = let w2 :=
      log_event (Call_renderChart hourly hilo units)
        (with_hiloNote (hiloNote_text b) (log_event (Call_setHiloNote b) w)) in
    match V2.chart_config_of host hourly hilo units with
    | Throw e => (Throw e, w2)
    | Normal config => V2.renderTable host hilo units (chart_replaced config w2)
    end.
Proof.
  unfold render_v2, bind. rewrite setHiloNote_run, renderChart_run_v2.
  cbv zeta. destruct (V2.chart_config_of host hourly hilo units); reflexivity.
Qed.

(** No request is sent while rendering. *)
Lemma render_fetches_nothing (host : Host) (b : bool) (hourly hilo : value)
  (units : string) (w : World) :
  exists evs,
    events_since w (snd (render_v2 host b hourly hilo units w)) evs
    /\ fetched evs = [].
Proof.
  rewrite render_run. cbv zeta. unfold events_since.
  destruct (V2.chart_config_of host hourly hilo units) as [config|e].
  - rewrite (renderTable_keeps_v2 trace) by reflexivity.
    unfold chart_replaced, chart_destroyed.
    cbn [chart log_event with_trace with_hiloNote].
    destruct (chart w) as [c|].
    + exists [Call_setHiloNote b; Call_renderChart hourly hilo units;
              Chart_destroy (chart_id c); Chart_new (next_chart_id w);
              Call_renderTable hilo units]. split; reflexivity.
    + exists [Call_setHiloNote b; Call_renderChart hourly hilo units;
              Chart_new (next_chart_id w); Call_renderTable hilo units].
      split; reflexivity.
  - exists [Call_setHiloNote b; Call_renderChart hourly hilo units].
    split; reflexivity.
Qed.

Lemma fetched_app (a b : list event) :
  fetched (a ++ b)%list = (fetched a ++ fetched b)%list.
Proof. apply flat_map_app. Qed.

Lemma chart_destroyed_keeps {B : Type} (f : World -> B) (w : World) :
  (forall t w, f (with_trace t w) = f w) ->
  (forall l n w, f (with_live_charts l n w) = f w) ->
  f (chart_destroyed w) = f w.
Proof.
  intros Ht Hl. unfold chart_destroyed, log_event.
  destruct (chart w); [|reflexivity]. rewrite Hl, Ht. reflexivity.
Qed.

Lemma chart_destroyed_next (w : World) :
  next_chart_id (chart_destroyed w) = next_chart_id w.
Proof. unfold chart_destroyed. destruct (chart w); reflexivity. Qed.

Lemma chart_replaced_keeps {B : Type} (f : World -> B) (config : ChartConfig)
  (w : World) :
  (forall t w, f (with_trace t w) = f w) ->
  (forall l n w, f (with_live_charts l n w) = f w) ->
  (forall c w, f (with_chart c w) = f w) ->
  f (chart_replaced config w) = f w.
Proof.
  intros Ht Hl Hc. unfold chart_replaced, chart_destroyed, log_event.
  rewrite Hc, Hl, Ht. destruct (chart w); [|reflexivity].
  rewrite Hl, Ht. reflexivity.
Qed.

Lemma render_keeps {B : Type} (f : World -> B) (host : Host) (b : bool)
  (hourly hilo : value) (units : string) (w : World) :
  (forall t w, f (with_trace t w) = f w) ->
  (forall l n w, f (with_live_charts l n w) = f w) ->
  (forall c w, f (with_chart c w) = f w) ->
  (forall s w, f (with_hiloNote s w) = f w) ->
  (forall rows w, f (with_tbody rows w) = f w) ->
  f (snd (render_v2 host b hourly hilo units w)) = f w.
Proof.
  intros Ht Hl Hc Hn Hr. rewrite render_run. cbv zeta.
  destruct (V2.chart_config_of host hourly hilo units) as [config|e].
  - rewrite (renderTable_keeps_v2 f) by exact Hr.
    unfold log_event. rewrite Ht, (chart_replaced_keeps f) by assumption.
    rewrite Ht, Hn, Ht. reflexivity.
  - cbn [snd]. unfold log_event. rewrite Ht, Hn, Ht. reflexivity.
Qed.

(** The rendering phase on two pages: same completion and, when it
    completes, same display. *)
Lemma render_display (host : Host) (b : bool) (hourly hilo : value)
  (units : string) (w w' : World) :
  fst (render_v2 host b hourly hilo units w')
  = fst (render_v2 host b hourly hilo units w)
  /\ (fst (render_v2 host b hourly hilo units w) = Normal tt ->
      display (snd (render_v2 host b hourly hilo units w'))
      = display (snd (render_v2 host b hourly hilo units w))).
Proof.
  rewrite !render_run. cbv zeta.
  destruct (V2.chart_config_of host hourly hilo units) as [config|e];
    [|split; [reflexivity|discriminate]].
  rewrite !renderTable_run. cbv zeta.
  destruct (iterate hilo) as [items|e]; [|split; [reflexivity|discriminate]].
  destruct (rows_upto _ items) as [rows stop].
  split; [reflexivity|]. intros _.
  unfold display, chart_replaced.
  cbn [snd hiloNote tbody chart with_tbody with_chart with_live_charts
       log_event with_trace with_hiloNote option_map chart_config].
  rewrite !(chart_destroyed_keeps hiloNote) by reflexivity.
  reflexivity.
Qed.

Lemma render_display_v1 (host : Host) (b : bool) (hourly hilo : value)
  (units : string) (w w' : World) :
  fst (render_v1 host b hourly hilo units w')
  = fst (render_v1 host b hourly hilo units w)
  /\ (fst (render_v1 host b hourly hilo units w) = Normal tt ->
      display (snd (render_v1 host b hourly hilo units w'))
      = display (snd (render_v1 host b hourly hilo units w))).
Proof. rewrite !render_same. apply render_display. Qed.

(** A configuration can only be built from an array of extrema, each
    of which also has a row. *)
Lemma chart_config_markers (host : Host) (hourly hilo : value) (units : string)
  (config : ChartConfig) :
  V2.chart_config_of host hourly hilo units = Normal config ->
  exists ls rows,
    hilo = Some (JArr ls)
    /\ map_completion
         (fun p => table_row host (V2.toLocalDate host) units (Some p)) ls
       = Normal rows
    /\ List.length (scatter_data (cfg_scatter config)) = List.length rows.
Proof.
  unfold V2.chart_config_of.
  destruct (let? src := V2.primary hourly hilo in array_map src (V2.label_of host));
    [|discriminate].
  destruct (let? src := V2.primary hourly hilo in array_map src V2.height_of);
    [|discriminate].
  cbn [bind_completion].
  destruct (array_map hilo (V2.hiloPoint_of host)) as [pts|] eqn:Hpts;
    [|discriminate].
  cbn [bind_completion].
  destruct (get hourly p_length); [|discriminate]. cbn [bind_completion].
  intros [= <-]. cbn [scatter_data cfg_scatter].
  destruct hilo as [[| | | |ls|]|]; try discriminate. cbn [array_map] in Hpts.
  destruct (map_completion_total
              (fun p => table_row host (V2.toLocalDate host) units (Some p)) ls)
    as [rows Hrows].
  { eapply Forall_impl; [|exact (map_completion_inv _ _ _ Hpts)].
    intros p [pt Hpt]. eapply hiloPoint_row. exact Hpt. }
  exists ls, rows. split; [reflexivity|]. split; [exact Hrows|].
  rewrite (map_completion_length _ _ _ Hpts), (map_completion_length _ _ _ Hrows).
  reflexivity.
Qed.

Lemma render_outcome (host : Host) (b : bool) (hourly hilo : value)
  (units : string) (w : World) :
  let run := render_v2 host b hourly hilo units w in
  (exists e,
     fst run = Throw e
     /\ hiloNote (snd run) = hiloNote_text b
     /\ chart (snd run) = chart w /\ live_charts (snd run) = live_charts w
     /\ tbody (snd run) = tbody w)
  \/ (exists config,
        fst run = Normal tt
        /\ hiloNote (snd run) = hiloNote_text b
        /\ chart (snd run) = first_chart w config
        /\ List.length (tbody (snd run))
           = List.length (scatter_data (cfg_scatter config))).
Proof.
  cbv zeta. rewrite render_run. cbv zeta.
  destruct (V2.chart_config_of host hourly hilo units) as [config|e] eqn:Hcfg.
  - right. exists config.
    destruct (chart_config_markers host hourly hilo units config Hcfg)
      as (ls & rows & -> & Hrows & Hlen).
    rewrite renderTable_run. cbv zeta. cbn [iterate].
    rewrite (rows_upto_all _ _ _ Hrows). cbn [fst snd].
    unfold chart_replaced, first_chart.
    cbn [hiloNote tbody chart with_tbody with_chart with_live_charts
         log_event with_trace with_hiloNote].
    rewrite (chart_destroyed_keeps hiloNote) by reflexivity.
    rewrite chart_destroyed_next.
    repeat split. symmetry. exact Hlen.
  - left. exists e. repeat split.
Qed.


Lemma map_completion_map {A B} (f : A -> completion B) (g : A -> B)
  (l : list A) :
  Forall (fun a => f a = Normal (g a)) l ->
  map_completion f l = Normal (map g l).
Proof.
  induction 1 as [|a l Ha _ IH]; cbn; [reflexivity|].
  rewrite Ha, IH. reflexivity.
Qed.

Lemma prediction_point_values (host : Host) (p : json) :
  prediction_point p ->
  V2.label_of host (Some p) = Normal (time_of host p)
  /\ V2.height_of (Some p) = Normal (height_of_point p)
  /\ V2.hiloPoint_of host (Some p) = Normal (marker_of host p).
Proof.
  intros (t & v & Ht & Hv).
  unfold V2.label_of, V2.height_of, V2.hiloPoint_of, marker_of, time_of,
    height_of_point.
  rewrite Ht, Hv. destruct p; try discriminate. repeat split.
Qed.

(** *** The requests of a load *)

Lemma ymd_of_Day (t t' : Z) : Day t = Day t' -> ymd t = ymd t'.
Proof.
  intros H.
  assert (Hy : YearFromTime t = YearFromTime t')
    by (unfold YearFromTime; rewrite H; reflexivity).
  assert (Hd : DayWithinYear t = DayWithinYear t')
    by (unfold DayWithinYear; rewrite H, Hy; reflexivity).
  assert (Hl : InLeapYear t = InLeapYear t')
    by (unfold InLeapYear; rewrite Hy; reflexivity).
  assert (Hm : MonthFromTime t = MonthFromTime t')
    by (unfold MonthFromTime; rewrite Hd, Hl; reflexivity).
  unfold ymd, DateFromTime. rewrite Hy, Hm, Hd, Hl. reflexivity.
Qed.

Lemma request_of_window (host : Host) (w : World) (i : string) :
  tz_bounded host -> tz_keeps_day host ->
  Z.abs (clock w) <= 8640000000000000 - 9 * msPerDay ->
  1000 <= YearFromTime (LocalTime host (clock w) + (-7) * msPerDay) <= 9999 ->
  1000 <= YearFromTime (LocalTime host (clock w) + 7 * msPerDay) <= 9999 ->
  i <> "" ->
  request host i w
  = API_BASE ++ "?" ++ params_toString (window_parameters host w i).
Proof.
  intros Hbound Hday Hclock Hyb Hye Hi.
  unfold request, buildUrl. do 2 f_equal. rewrite window_run.
  set (tl := LocalTime host (clock w)) in *.
  pose proof (Hbound (clock w) true) as H0.
  pose proof (Hbound (tl + (-7) * msPerDay) false) as H1.
  pose proof (Hbound (tl + 7 * msPerDay) false) as H2.
  assert (Htl : tl = clock w + LocalTZA host (clock w) true) by reflexivity.
  unfold msPerDay in H0, H1, H2, Hclock.
  cbn [fst snd]. rewrite !TimeClip_in_range by (unfold UTC, msPerDay; lia).
  assert (Hymd : forall x,
            local_ymd host (UTC host x) = ymd x).
  { intros x. apply (ymd_of_Day (LocalTime host (UTC host x)) x), Hday. }
  assert (Hfmt : forall x,
            1000 <= YearFromTime x <= 9999 ->
            fmtDate host (Some (UTC host x)) = yyyymmdd (ymd x)).
  { intros x Hx. rewrite fmtDate_yyyymmdd; [rewrite Hymd; reflexivity|].
    unfold four_digit_year.
    change (YearFromTime (LocalTime host (UTC host x)))
      with (fst (fst (local_ymd host (UTC host x)))).
    rewrite Hymd. exact Hx. }
  unfold buildUrl_params, window_parameters, string_truthy.
  cbn [interval begin end_ product datum units].
  rewrite !Hfmt by assumption.
  destruct (String.eqb_spec i "") as [|_]; [contradiction|]. reflexivity.
Qed.

Lemma loadData_fetches_v2 (host : Host) (w : World) :
  exists evs,
    events_since w (snd (V2.loadData host w)) evs
    /\ fetched evs = [request host "60" w; request host "hilo" w].
Proof.
  assert (H2 : exists evs,
             events_since w (after_requests_v2 host w) evs
             /\ fetched evs = [request host "60" w; request host "hilo" w]).
  { unfold after_requests_v2. destruct (snd (attempt_v2 host w)) as [caught|].
    - exists [Fetch (request host "60" w); Console_warn caught;
              Fetch (request host "hilo" w)]. split; reflexivity.
    - exists [Fetch (request host "60" w); Fetch (request host "hilo" w)].
      split; reflexivity. }
  rewrite loadData_run_v2. cbv zeta.
  destruct (hilo_reply host w) as [hiloRes|e]; [|exact H2].
  destruct (get hiloRes p_predictions) as [predictions|e]; [|exact H2].
  fold (render_v2 host (supportsHourly (fst (attempt_v2 host w)))
          (hourly (fst (attempt_v2 host w)))
          (V2.array_or_empty predictions) (unitsSel_value w)).
  destruct H2 as (evs1 & Hevs1 & Hf1).
  destruct (render_fetches_nothing host
              (supportsHourly (fst (attempt_v2 host w)))
              (hourly (fst (attempt_v2 host w)))
              (V2.array_or_empty predictions) (unitsSel_value w)
              (after_requests_v2 host w)) as (evs2 & Hevs2 & Hf2).
  exists (evs1 ++ evs2)%list. split; [eapply events_since_trans; eassumption|].
  rewrite fetched_app, Hf1, Hf2. reflexivity.
Qed.

Lemma loadData_fetches_v1 (host : Host) (w : World) :
  exists evs,
    events_since w (snd (V1.loadData host w)) evs
    /\ fetched evs = [request host "60" w; request host "hilo" w].
Proof.
  assert (H1 : exists evs,
             events_since w (after_requests_v1 host w) evs
             /\ fetched evs = [request host "60" w; request host "hilo" w]).
  { exists [Fetch (request host "60" w); Fetch (request host "hilo" w)].
    split; reflexivity. }
  rewrite loadData_run_v1. cbv zeta.
  destruct (hilo_reply host w) as [hiloRes|e]; [|exact H1].
  destruct (get hiloRes p_predictions) as [predictions|e]; [|exact H1].
  fold (render_v1 host (supportsHourly (fst (attempt_v1 host w)))
          (hourly (fst (attempt_v1 host w)))
          (or_else predictions empty_array) (unitsSel_value w)).
  rewrite render_same.
  destruct H1 as (evs1 & Hevs1 & Hf1).
  destruct (render_fetches_nothing host
              (supportsHourly (fst (attempt_v1 host w)))
              (hourly (fst (attempt_v1 host w)))
              (or_else predictions empty_array) (unitsSel_value w)
              (after_requests_v1 host w)) as (evs2 & Hevs2 & Hf2).
  exists (evs1 ++ evs2)%list. split; [eapply events_since_trans; eassumption|].
  rewrite fetched_app, Hf1, Hf2. reflexivity.
Qed.



Lemma loadData_keeps_v2 {B : Type} (f : World -> B) (host : Host) (w : World) :
  (forall t w, f (with_trace t w) = f w) ->
  (forall l n w, f (with_live_charts l n w) = f w) ->
  (forall c w, f (with_chart c w) = f w) ->
  (forall s w, f (with_hiloNote s w) = f w) ->
  (forall rows w, f (with_tbody rows w) = f w) ->
  f (snd (V2.loadData host w)) = f w.
Proof.
  intros Ht Hl Hc Hn Hr. rewrite loadData_run_v2. cbv zeta.
  assert (H1 : f (after_requests_v2 host w) = f w).
  { unfold after_requests_v2, log_event.
    destruct (snd (attempt_v2 host w)); rewrite !Ht; reflexivity. }
  destruct (hilo_reply host w) as [hiloRes|e]; [|exact H1].
  destruct (get hiloRes p_predictions) as [predictions|e]; [|exact H1].
  rewrite <- H1. apply (render_keeps f host); assumption.
Qed.

Lemma loadData_keeps_v1 {B : Type} (f : World -> B) (host : Host) (w : World) :
  (forall t w, f (with_trace t w) = f w) ->
  (forall l n w, f (with_live_charts l n w) = f w) ->
  (forall c w, f (with_chart c w) = f w) ->
  (forall s w, f (with_hiloNote s w) = f w) ->
  (forall rows w, f (with_tbody rows w) = f w) ->
  f (snd (V1.loadData host w)) = f w.
Proof.
  intros Ht Hl Hc Hn Hr. rewrite loadData_run_v1. cbv zeta.
  assert (H1 : f (after_requests_v1 host w) = f w).
  { unfold after_requests_v1, log_event. rewrite !Ht. reflexivity. }
  destruct (hilo_reply host w) as [hiloRes|e]; [|exact H1].
  destruct (get hiloRes p_predictions) as [predictions|e]; [|exact H1].
  rewrite <- H1.
  exact (eq_trans (f_equal (fun r => f (snd r)) (render_same host _ _ _ _ _))
           (render_keeps f host _ _ _ _ _ Ht Hl Hc Hn Hr)).
Qed.

Lemma same_environment_replies (host : Host) (w w' : World) :
  same_environment w w' ->
  hourly_reply host w' = hourly_reply host w
  /\ hilo_reply host w' = hilo_reply host w.
Proof.
  intros (Hc & Hd & Hu & Hn). unfold hourly_reply, hilo_reply, request.
  rewrite Hc, Hd, Hu, !Hn. split; reflexivity.
Qed.

Lemma decimal_three_digits (n : Z) :
  100 <= n < 1000 ->
  decimal n = String (digit_char (n / 100)) (two_digit (n mod 100)).
Proof.
  intros H. unfold decimal, two_digit.
  assert (Hlog : 6 <= Z.log2 n) by (apply (Z.log2_le_mono 64 n); lia).
  assert (Hk : exists k, Z.to_nat (Z.log2 n) = S (S k))
    by (exists (Z.to_nat (Z.log2 n) - 2)%nat; lia).
  destruct Hk as [k ->]. cbn [digits_upto].
  destruct (Z.ltb_spec n 10); [lia|].
  destruct (Z.ltb_spec (n / 10) 10); [zlia|].
  destruct (Z.ltb_spec (n / 10 / 10) 10); [|zlia].
  repeat match goal with
         | |- String (digit_char ?x) _ = String (digit_char ?y) _ =>
             replace x with y by zlia; f_equal
         end.
Qed.

(** *** The console and the lengths of the series *)

Lemma warned_app (a b : list event) :
  warned (a ++ b)%list = (warned a ++ warned b)%list.
Proof. apply flat_map_app. Qed.

Lemma render_warns_nothing (host : Host) (b : bool) (hourly hilo : value)
  (units : string) (w : World) :
  exists evs,
    events_since w (snd (render_v2 host b hourly hilo units w)) evs
    /\ warned evs = [].
Proof.
  rewrite render_run. cbv zeta. unfold events_since.
  destruct (V2.chart_config_of host hourly hilo units) as [config|e].
  - rewrite (renderTable_keeps_v2 trace) by reflexivity.
    unfold chart_replaced, chart_destroyed.
    cbn [chart log_event with_trace with_hiloNote].
    destruct (chart w) as [c|].
    + exists [Call_setHiloNote b; Call_renderChart hourly hilo units;
              Chart_destroy (chart_id c); Chart_new (next_chart_id w);
              Call_renderTable hilo units]. split; reflexivity.
    + exists [Call_setHiloNote b; Call_renderChart hourly hilo units;
              Chart_new (next_chart_id w); Call_renderTable hilo units].
      split; reflexivity.
  - exists [Call_setHiloNote b; Call_renderChart hourly hilo units].
    split; reflexivity.
Qed.

(** The exception the [catch] clause of the second revision receives
    is the one [fetchJSON] failed with. *)
Lemma attempt_caught_v2 (host : Host) (w : World) :
  snd (attempt_v2 host w)
  = match hourly_reply host w with
    | Throw e => Some e
    | Normal _ => None
    end.
Proof.
  unfold attempt_v2, hourly_attempt.
  destruct (hourly_reply host w) as [res|e] eqn:Hreply; [|reflexivity].
  destruct (fetchJSON_result_readable _ _ p_predictions Hreply) as [preds ->].
  assert (Hlen : exists len, get (V2.array_or_empty preds) p_length = Normal len).
  { unfold V2.array_or_empty. destruct preds as [[]|]; eexists; reflexivity. }
  destruct Hlen as [len ->]. reflexivity.
Qed.

Lemma array_map_length {B} (v : value) (f : value -> completion B)
  (r : list B) :
  array_map v f = Normal r ->
  exists items, v = Some (JArr items) /\ List.length r = List.length items.
Proof.
  destruct v as [[| | | |items|]|]; try discriminate. cbn [array_map].
  intros H. exists items. split; [reflexivity|].
  eapply map_completion_length. exact H.
Qed.

(** *** The forecast cards *)

Ltac wstep :=
  unfold wx_fetch, set_grid_innerHTML, grid_appendChild, try_catch,
    bind, ret, throw, pure, gets, modify, bind_completion;
  cbn [wx_network wxGrid wx_requests with_wxGrid with_wx_request fst snd negb].

Lemma for_of_cards (items : list value) (w : WxPage) (children : list grid_child) :
  wxGrid w = Some children ->
  let run := for_of items append_card w in
  wx_network (snd run) = wx_network w
  /\ wx_requests (snd run) = wx_requests w
  /\ match map_completion weather_card items with
     | Normal cards =>
         fst run = Normal tt /\ wxGrid (snd run) = Some (children ++ cards)%list
     | Throw e => fst run = Throw e /\ exists some, wxGrid (snd run) = Some some
     end.
Proof.
  revert w children. induction items as [|p items IH]; intros w children Hgrid.
  - cbn. rewrite app_nil_r. auto.
  - assert (Hone : append_card p w
                   = match weather_card p with
                     | Normal card =>
                         (Normal tt, with_wxGrid (children ++ [card])%list w)
                     | Throw e => (Throw e, w)
                     end).
    { unfold append_card. wstep.
      destruct (weather_card p); wstep; [rewrite Hgrid|]; reflexivity. }
    cbv zeta. cbn [for_of map_completion]. unfold bind, bind_completion.
    rewrite Hone. destruct (weather_card p) as [card|e]; cbn [fst snd];
      [|eauto 6].
    specialize (IH (with_wxGrid (children ++ [card])%list w)
                  (children ++ [card])%list eq_refl).
    cbv zeta in IH. destruct IH as (Hnet & Hreq & Hres).
    split; [exact Hnet|]. split; [exact Hreq|].
    destruct (map_completion weather_card items) as [cards|e].
    + rewrite <- app_assoc in Hres. exact Hres.
    + exact Hres.
Qed.

Lemma weather_card_is_card (p : value) (c : grid_child) :
  weather_card p = Normal c -> is_card c.
Proof.
  unfold weather_card, bind_completion.
  repeat match goal with
         | |- context [match ?c with Normal _ => _ | Throw _ => _ end] =>
             destruct c; try discriminate
         | |- context [if ?b then _ else _] => destruct b
         end;
    intros [= <-]; exact I.
Qed.

Lemma map_completion_Forall {A B} (f : A -> completion B) (P : B -> Prop)
  (l : list A) (r : list B) :
  (forall a b, f a = Normal b -> P b) ->
  map_completion f l = Normal r -> Forall P r.
Proof.
  intros Hf. revert r. induction l as [|a l IH]; intros r; cbn.
  - intros [= <-]. constructor.
  - destruct (f a) as [b|] eqn:Hb; [|discriminate]. cbn.
    destruct (map_completion f l) as [bs|]; [|discriminate]. cbn.
    intros [= <-]. constructor; [eapply Hf; exact Hb|apply IH; reflexivity].
Qed.

Lemma first_units_length (n : nat) (cps : list string) :
  (List.length (first_units n cps) <= n)%nat.
Proof.
  revert n. induction cps as [|cp rest IH]; intros n.
  - destruct n; cbn; lia.
  - destruct n as [|n']; cbn [first_units List.length]; [lia|].
    destruct (1 <? utf16_length cp).
    + specialize (IH (Nat.pred n')). lia.
    + specialize (IH n'). lia.
Qed.

Lemma slice_0_14_length (v : value) (l : list value) :
  slice_0_14 v = Normal l -> (List.length l <= 14)%nat.
Proof.
  unfold slice_0_14. destruct v as [[]|]; try discriminate; intros H.
  - replace l with (map (fun c => Some (JStr c)) (first_units 14 (code_points s)))
      by congruence.
    rewrite length_map. apply first_units_length.
  - replace l with (map Some (firstn 14 items)) by congruence.
    rewrite length_map. apply firstn_le_length.
Qed.

Lemma ToString_primitive (v : value) :
  primitive v -> exists s, ToString v = Normal s.
Proof.
  destruct v as [[]|]; cbn; try contradiction; eauto.
Qed.

Lemma plain_period_card (p : json) :
  plain_period p -> exists card, weather_card (Some p) = Normal card.
Proof.
  intros (members & -> & Hprim). unfold weather_card, get_wx.
  cbn [bind_completion].
  assert (T : forall f, exists s,
            ToString (assoc (wx_prop_name f) members) = Normal s).
  { intros f. apply ToString_primitive, Hprim. }
  destruct (T w_icon) as [s0 H0]. destruct (T w_name) as [s1 H1].
  destruct (T w_temperature) as [s2 H2].
  destruct (T w_temperatureUnit) as [s3 H3].
  destruct (T w_shortForecast) as [s4 H4].
  destruct (T w_windSpeed) as [s5 H5].
  assert (H6 : exists s, ToString (or_else (assoc (wx_prop_name w_windDirection) members)
                                     (Some (JStr ""))) = Normal s).
  { unfold or_else. destruct (truthy _); [apply T|eexists; reflexivity]. }
  destruct H6 as [s6 H6].
  rewrite H0, H1, H2, H3, H4, H5, H6.
  destruct (truthy _); cbn [bind_completion]; eexists; reflexivity.
Qed.

(** ** Further properties of the code *)

(** *** X1 *)

(** X1: [fmtDate] writes the local year as it is, without padding,
    followed by the month (counted from 1) and the day of the month
    with two digits each: eight digits for the years 1000 to 9999, fewer
    characters for the years 0 to 999.  An invalid date gives
    [NaNNaNNaN]. *)
Theorem fmtDate_pads_month_and_day_only (host : Host) :
  fmtDate host None = "NaNNaNNaN"
  /\ forall t,
       let y := YearFromTime (LocalTime host t) in
       let m := MonthFromTime (LocalTime host t) in
       let d := DateFromTime (LocalTime host t) in
       fmtDate host (Some t) = string_of_Z y ++ two_digit (m + 1) ++ two_digit d
       /\ (1000 <= y <= 9999 -> String.length (fmtDate host (Some t)) = 8%nat)
       /\ (0 <= y < 1000 -> (String.length (fmtDate host (Some t)) < 8)%nat).
Proof.
  split; [reflexivity|]. intros t y m d.
  assert (Hfmt : fmtDate host (Some t)
                 = string_of_Z y ++ two_digit (m + 1) ++ two_digit d).
  { unfold fmtDate, getFullYear, getMonth, getDate.
    cbn [option_map String_of_int].
    pose proof (MonthFromTime_range (LocalTime host t)).
    pose proof (DateFromTime_range (LocalTime host t)).
    rewrite !padStart_two_digits by lia.
    rewrite (Z.add_comm 1). reflexivity. }
  rewrite Hfmt. split; [reflexivity|].
  rewrite !length_append.
  change (String.length (two_digit (m + 1))) with 2%nat.
  change (String.length (two_digit d)) with 2%nat.
  unfold string_of_Z. split; intros Hy.
  - destruct (Z.ltb_spec y 0); [lia|].
    rewrite decimal_four_digits by lia. reflexivity.
  - destruct (Z.ltb_spec y 0); [lia|].
    destruct (Z.lt_ge_cases y 10); [rewrite decimal_one_digit by lia; cbn; lia|].
    destruct (Z.lt_ge_cases y 100); [rewrite decimal_two_digits by lia; cbn; lia|].
    rewrite decimal_three_digits by lia. cbn. lia.
Qed.

(** *** X2 *)

(** X2: the query string [buildUrl] produces can be read back without
    ambiguity, whatever the selected values contain (separators,
    spaces, bytes outside ASCII) and whatever the dates are: it parses
    to the parameters that were set, every name occurs once, and
    product, datum, units and a non-empty interval come back
    verbatim. *)
Theorem buildUrl_query_reads_back (host : Host) (a : UrlArgs) :
  exists query,
    buildUrl host a = API_BASE ++ "?" ++ query
    /\ parse_query query = buildUrl_params host a
    /\ NoDup (params_names (parse_query query))
    /\ params_get "product" (parse_query query) = Some (product a)
    /\ params_get "datum" (parse_query query) = Some (datum a)
    /\ params_get "units" (parse_query query) = Some (units a)
    /\ params_get "interval" (parse_query query)
       = (if string_truthy (interval a) then interval a else None).
Proof.
  exists (params_toString (buildUrl_params host a)).
  split; [reflexivity|]. rewrite parse_query_toString.
  split; [reflexivity|].
  unfold buildUrl_params, string_truthy.
  destruct (interval a) as [i|].
  - destruct (String.eqb i ""); cbn.
    + split; [|repeat split].
      repeat constructor; cbn; intuition discriminate.
    + split; [|repeat split].
      repeat constructor; cbn; intuition discriminate.
  - cbn. split; [|repeat split].
    repeat constructor; cbn; intuition discriminate.
Qed.

(** *** X3 *)

(** X3: [fetchJSON] returns a value only in one situation: the request
    was answered with a success status, the body was read as JSON and
    has no truthy [error] member; what it returns is then that body,
    unchanged.  Whatever happens it sends one request and touches
    nothing else on the page. *)
Theorem fetchJSON_returns_clean_bodies_only (url : string) (w : World)
  (v : value) :
  (fst (fetchJSON url w) = Normal v
   <-> exists resp data err,
         network w url = Normal resp
         /\ ok resp = true
         /\ json_body resp = Normal data
         /\ get (Some data) p_error = Normal err
         /\ truthy err = false
         /\ v = Some data)
  /\ snd (fetchJSON url w) = log_event (Fetch url) w.
Proof.
  rewrite fetchJSON_run. cbn [fst snd]. split; [|reflexivity].
  unfold fetchJSON_result, bind_completion. split.
  - destruct (network w url) as [resp|]; [|discriminate].
    destruct (ok resp) eqn:Hok; [|discriminate]. cbn [negb].
    destruct (json_body resp) as [data|] eqn:Hbody; [|discriminate].
    destruct (get (Some data) p_error) as [err|] eqn:Herr; [|discriminate].
    destruct (truthy err) eqn:Htruthy.
    + destruct (get err p_message); [|discriminate].
      destruct (ToString _); discriminate.
    + intros [= <-]. exists resp, data, err. auto 10.
  - intros (resp & data & err & -> & -> & -> & -> & -> & ->). reflexivity.
Qed.

(** *** X4 *)

(** X4: the failures [fetchJSON] does not turn into a message of its
    own.  A rejected request and, on a success status, a body that
    cannot be read as JSON are passed on as they are; the body [null]
    makes it fail with a TypeError; and a truthy message of the error
    payload is converted to a string, so that a number reads as its
    digits and a structured message as [[object Object]]. *)
Theorem fetchJSON_edge_cases (url : string) (w : World) :
  let r := fst (fetchJSON url w) in
  (forall e, network w url = Throw e -> r = Throw e)
  /\ (forall resp,
        network w url = Normal resp -> ok resp = true ->
        (forall e, json_body resp = Throw e -> r = Throw e)
        /\ (json_body resp = Normal JNull -> r = Throw TypeError)
        /\ (truthy (error_payload resp) = true ->
            (forall n,
               payload_message resp = Some (JNum n) -> number_truthy n = true ->
               r = Throw (Error (Number_toString n)))
            /\ (forall members,
                  payload_message resp = Some (JObj members) ->
                  assoc "toString" members = None ->
                  r = Throw (Error "[object Object]")))).
Proof.
  intros r. subst r. rewrite fetchJSON_run. cbn [fst]. split.
  - intros e ->. reflexivity.
  - intros resp -> Hok. split; [|split].
    + intros e Hbody. unfold fetchJSON_result, bind_completion.
      rewrite Hok, Hbody. reflexivity.
    + intros Hbody. unfold fetchJSON_result, bind_completion.
      rewrite Hok, Hbody. reflexivity.
    + intros Hpay.
      destruct (error_payload_body resp Hpay) as (data & Hbody & Hdata).
      rewrite (fetchJSON_result_ok resp data Hok Hbody Hdata), Hpay.
      split.
      * intros n -> Hn. unfold or_else. cbn [truthy]. rewrite Hn. reflexivity.
      * intros members -> Hmem. unfold or_else.
        cbn [truthy ToString ToString_json]. rewrite Hmem. reflexivity.
Qed.

Lemma fetchJSON_edge_cases_witness :
  let w := page hourly_found numeric_error in
  fst (fetchJSON (request host_pst "hilo" w) w) = Throw (Error "404").
Proof.
  intros w.
  destruct (fetchJSON_edge_cases (request host_pst "hilo" w) w) as [_ H].
  destruct (H {| ok := true; status := 200;
                 json_body :=
                   Normal (JObj [("error",
                                  JObj [("message", JNum (number_of_Z 404))])]) |}
              ltac:(vm_compute; reflexivity) eq_refl)
    as (_ & _ & Hpay).
  destruct (Hpay eq_refl) as [Hnum _].
  rewrite (Hnum (number_of_Z 404) eq_refl ltac:(vm_compute; reflexivity)).
  vm_compute. reflexivity.
Defined.

(** *** X5 *)

(** X5: every run of [loadData] sends exactly two requests, the hourly
    one and then the extrema one, whatever the replies are and however
    the run ends.  In a time zone as in C7 and for four-digit years,
    both ask for the same window, datum and units: the local dates 7
    days before and 7 days after today, written YYYYMMDD, and differ in
    [interval] only.  Both revisions. *)
Theorem loadData_sends_two_requests (host : Host) (w : World) :
  (exists evs,
     events_since w (snd (V1.loadData host w)) evs
     /\ fetched evs = [request host "60" w; request host "hilo" w])
  /\ (exists evs,
        events_since w (snd (V2.loadData host w)) evs
        /\ fetched evs = [request host "60" w; request host "hilo" w])
  /\ (tz_bounded host -> tz_keeps_day host ->
      Z.abs (clock w) <= 8640000000000000 - 9 * msPerDay ->
      1000 <= YearFromTime (LocalTime host (clock w) + (-7) * msPerDay) <= 9999 ->
      1000 <= YearFromTime (LocalTime host (clock w) + 7 * msPerDay) <= 9999 ->
      request host "60" w
      = API_BASE ++ "?" ++ params_toString (window_parameters host w "60")
      /\ request host "hilo" w
         = API_BASE ++ "?" ++ params_toString (window_parameters host w "hilo")).
Proof.
  split; [apply loadData_fetches_v1|]. split; [apply loadData_fetches_v2|].
  intros Hbound Hday Hclock Hyb Hye.
  split; apply request_of_window; assumption || discriminate.
Qed.

Lemma loadData_sends_two_requests_witness :
  exists evs,
    events_since page_in_march (snd (V2.loadData host_pacific page_in_march)) evs
    /\ fetched evs
       = ["https://api.tidesandcurrents.noaa.gov/api/prod/datagetter?product=predictions&application=Jeremy.Whidbey.Tides&begin_date=20240301&end_date=20240315&datum=MLLW&station=9447856&time_zone=lst_ldt&units=english&format=json&interval=60";
          "https://api.tidesandcurrents.noaa.gov/api/prod/datagetter?product=predictions&application=Jeremy.Whidbey.Tides&begin_date=20240301&end_date=20240315&datum=MLLW&station=9447856&time_zone=lst_ldt&units=english&format=json&interval=hilo"].
Proof.
  destruct (loadData_sends_two_requests host_pacific page_in_march)
    as (_ & (evs & Hevs & Hsent) & Hurls).
  destruct (Hurls pacific_bounded pacific_keeps_day) as [H60 Hhilo].
  - vm_compute. discriminate.
  - vm_compute. split; discriminate.
  - vm_compute. split; discriminate.
  - exists evs. split; [exact Hevs|]. rewrite Hsent, H60, Hhilo.
    vm_compute. reflexivity.
Defined.

(** *** X6 *)

(** X6: the second revision behaves exactly like the first whenever the
    hourly request succeeds and [predictions] is, in both replies, an
    array or absent: same completion, same page, same actions.  (The
    revisions differ when the hourly request fails and when
    [predictions] is some other truthy value.) *)
Theorem revisions_agree_on_regular_replies (host : Host) (w : World)
  (res : value) :
  hourly_reply host w = Normal res ->
  array_or_absent (predictions_of (hourly_reply host w)) ->
  array_or_absent (predictions_of (hilo_reply host w)) ->
  V1.loadData host w = V2.loadData host w.
Proof.
  intros Hhourly Hhp Hlp.
  assert (Hnorm : forall v, array_or_absent v ->
            or_else v empty_array = V2.array_or_empty v).
  { intros v [H|H]; unfold or_else, V2.array_or_empty.
    - rewrite H. destruct v as [[]|]; try discriminate. reflexivity.
    - rewrite H. destruct v as [[]|]; try discriminate; reflexivity. }
  destruct (fetchJSON_result_readable _ _ p_predictions Hhourly) as [hp Hp].
  assert (Hattempt : attempt_v1 host w = attempt_v2 host w
                     /\ snd (attempt_v2 host w) = None).
  { unfold attempt_v1, attempt_v2, hourly_attempt.
    unfold predictions_of in Hhp. rewrite Hhourly in *. rewrite Hp in *.
    rewrite (Hnorm hp Hhp).
    assert (Hlen : exists len, get (V2.array_or_empty hp) p_length = Normal len).
    { unfold V2.array_or_empty. destruct hp as [[]|]; eexists; reflexivity. }
    destruct Hlen as [len ->]. split; reflexivity. }
  destruct Hattempt as [Hattempt Hnone].
  rewrite loadData_run_v1, loadData_run_v2. cbv zeta.
  unfold after_requests_v1, after_requests_v2. rewrite Hattempt, Hnone.
  unfold predictions_of in Hlp.
  destruct (hilo_reply host w) as [hiloRes|e]; [|reflexivity].
  destruct (get hiloRes p_predictions) as [lp|e]; [|reflexivity].
  rewrite (Hnorm lp Hlp).
  exact (render_same host _ _ _ _ _).
Qed.

Lemma revisions_agree_on_regular_replies_witness :
  V1.loadData host_pst (page hourly_found hilo_found)
  = V2.loadData host_pst (page hourly_found hilo_found).
Proof.
  apply (revisions_agree_on_regular_replies host_pst
           (page hourly_found hilo_found)
           (Some (JObj [("predictions", JArr hourly_points)]))).
  - vm_compute. reflexivity.
  - left. vm_compute. reflexivity.
  - left. vm_compute. reflexivity.
Defined.

(** *** X7 *)



(** *** X8 *)

(** X8: a run of [loadData] ends in one of three ways.  It fails before
    rendering and the page is as before; or it fails while the chart
    configuration is built, then the note is already rewritten but the
    chart and the table are the previous ones; or it completes with a
    new note, a new chart and a new table that has one row per marker
    of the chart.  In particular [renderTable] never fails inside
    [loadData], and the chart and the table are never out of step.
    Both revisions. *)
Theorem load_has_three_outcomes (host : Host) (w : World) :
  load_outcome w (V1.loadData host w) /\ load_outcome w (V2.loadData host w).
Proof.
  assert (Hfail : forall e w1,
            chart w1 = chart w -> live_charts w1 = live_charts w ->
            hiloNote w1 = hiloNote w -> tbody w1 = tbody w ->
            load_outcome w (Throw e, w1)).
  { intros e w1 H1 H2 H3 H4. left. exists e. repeat split; assumption. }
  assert (Hrender : forall b hourly hilo units w1,
            chart w1 = chart w -> live_charts w1 = live_charts w ->
            next_chart_id w1 = next_chart_id w -> tbody w1 = tbody w ->
            load_outcome w (render_v2 host b hourly hilo units w1)).
  { intros b hourly hilo units w1 H1 H2 H3 H4.
    destruct (render_outcome host b hourly hilo units w1)
      as [(e & Hfst & Hnote & Hc & Hl & Ht)|(config & Hfst & Hnote & Hc & Hlen)].
    - right. left. exists e, b. rewrite Hc, Hl, Ht. auto 10.
    - right. right. exists b, config. unfold first_chart in *.
      rewrite Hc, H3. auto. }
  split.
  - rewrite loadData_run_v1. cbv zeta.
    destruct (hilo_reply host w) as [hiloRes|e]; [|apply Hfail; reflexivity].
    destruct (get hiloRes p_predictions) as [predictions|e];
      [|apply Hfail; reflexivity].
    fold (render_v1 host (supportsHourly (fst (attempt_v1 host w)))
            (hourly (fst (attempt_v1 host w)))
            (or_else predictions empty_array) (unitsSel_value w)).
    rewrite render_same. apply Hrender; reflexivity.
  - rewrite loadData_run_v2. cbv zeta.
    assert (Hreq : forall (B : Type) (f : World -> B),
              (forall t w, f (with_trace t w) = f w) ->
              f (after_requests_v2 host w) = f w).
    { intros B f Hf. unfold after_requests_v2, log_event.
      destruct (snd (attempt_v2 host w)); rewrite !Hf; reflexivity. }
    destruct (hilo_reply host w) as [hiloRes|e];
      [|apply Hfail; apply Hreq; reflexivity].
    destruct (get hiloRes p_predictions) as [predictions|e];
      [|apply Hfail; apply Hreq; reflexivity].
    apply Hrender; apply Hreq; reflexivity.
Qed.

(** *** X9 *)

(** X9: what [loadData] puts on display is a function of the clock, the
    two selections and the replies of the network: on two pages that
    agree on these, whatever they showed before, it completes in the
    same way and, when it completes, leaves the same note, the same
    rows and a chart of the same configuration.  It changes none of
    them itself, so a refresh repeated at once shows the same again.
    Both revisions. *)
Theorem display_depends_on_environment_only (host : Host) (w w' : World) :
  same_environment w w' ->
  (fst (V1.loadData host w') = fst (V1.loadData host w)
   /\ (fst (V1.loadData host w) = Normal tt ->
       display (snd (V1.loadData host w')) = display (snd (V1.loadData host w)))
   /\ same_environment w (snd (V1.loadData host w)))
  /\ (fst (V2.loadData host w') = fst (V2.loadData host w)
      /\ (fst (V2.loadData host w) = Normal tt ->
          display (snd (V2.loadData host w'))
          = display (snd (V2.loadData host w)))
      /\ same_environment w (snd (V2.loadData host w))).
Proof.
  intros Henv. destruct (same_environment_replies host w w' Henv) as [Hh Hl].
  destruct Henv as (_ & _ & Hu & _).
  split.
  - split; [|split].
    + rewrite !loadData_run_v1. cbv zeta. unfold attempt_v1. rewrite Hh, Hl, Hu.
      destruct (hilo_reply host w) as [hiloRes|e]; [|reflexivity].
      destruct (get hiloRes p_predictions) as [predictions|e]; [|reflexivity].
      apply render_display_v1.
    + rewrite !loadData_run_v1. cbv zeta. unfold attempt_v1. rewrite Hh, Hl, Hu.
      destruct (hilo_reply host w) as [hiloRes|e]; [|discriminate].
      destruct (get hiloRes p_predictions) as [predictions|e]; [|discriminate].
      apply render_display_v1.
    + unfold same_environment.
      rewrite (loadData_keeps_v1 clock), (loadData_keeps_v1 datumSel_value),
        (loadData_keeps_v1 unitsSel_value), (loadData_keeps_v1 network)
        by reflexivity.
      repeat split.
  - split; [|split].
    + rewrite !loadData_run_v2. cbv zeta.
      unfold after_requests_v2, attempt_v2. rewrite Hh, Hl, Hu.
      destruct (hilo_reply host w) as [hiloRes|e]; [|reflexivity].
      destruct (get hiloRes p_predictions) as [predictions|e]; [|reflexivity].
      apply render_display.
    + rewrite !loadData_run_v2. cbv zeta.
      unfold after_requests_v2, attempt_v2. rewrite Hh, Hl, Hu.
      destruct (hilo_reply host w) as [hiloRes|e]; [|discriminate].
      destruct (get hiloRes p_predictions) as [predictions|e]; [|discriminate].
      apply render_display.
    + unfold same_environment.
      rewrite (loadData_keeps_v2 clock), (loadData_keeps_v2 datumSel_value),
        (loadData_keeps_v2 unitsSel_value), (loadData_keeps_v2 network)
        by reflexivity.
      repeat split.
Qed.

Lemma display_depends_on_environment_only_witness :
  let w := page hourly_found hilo_found in
  let w' := with_tbody ["<td>stale</td>"] (with_hiloNote "stale" w) in
  display (snd (V2.loadData host_pst w')) = display (snd (V2.loadData host_pst w)).
Proof.
  intros w w'.
  assert (Henv : same_environment w w') by (repeat split).
  destruct (display_depends_on_environment_only host_pst w w' Henv)
    as (_ & _ & H & _).
  apply H. vm_compute. reflexivity.
Defined.

(** *** X10 *)

(** X10: for points as the service delivers them, the configuration
    handed to Chart.js lists, in the order received, the times of the
    primary points (the hourly points, or the extrema when there are no
    hourly points), each parsed from [t] with its first space replaced
    by [T], their heights [Number(v)], and one marker per extremum with
    its time, height and [type]; the legend of the line names the
    series that is drawn and the unit, the axis title the unit.  Both
    revisions. *)
Theorem chart_shows_the_points (host : Host) (hs ls : list json)
  (units : string) :
  Forall prediction_point hs -> Forall prediction_point ls ->
  exists config,
    V1.chart_config_of host (Some (JArr hs)) (Some (JArr ls)) units
    = Normal config
    /\ V2.chart_config_of host (Some (JArr hs)) (Some (JArr ls)) units
       = Normal config
    /\ (let primary := if is_nil hs then ls else hs in
        cfg_labels config = map (time_of host) primary
        /\ line_data (cfg_line config) = map height_of_point primary)
    /\ scatter_data (cfg_scatter config) = map (marker_of host) ls
    /\ line_label (cfg_line config)
       = (if is_nil hs then "High/Low points (" else "Hourly predictions (")
         ++ unitLabel units ++ ")"
    /\ scatter_label (cfg_scatter config) = "High / Low markers"
    /\ cfg_y_title config = "Height (" ++ unitLabel units ++ ")".
Proof.
  intros Hhs Hls.
  assert (T : forall l, Forall prediction_point l ->
            map_completion (fun x => V2.label_of host (Some x)) l
            = Normal (map (time_of host) l)
            /\ map_completion (fun x => V2.height_of (Some x)) l
               = Normal (map height_of_point l)
            /\ map_completion (fun x => V2.hiloPoint_of host (Some x)) l
               = Normal (map (marker_of host) l)).
  { intros l Hl. repeat split; apply map_completion_map;
      (eapply Forall_impl; [|exact Hl]); intros p Hp;
      apply (prediction_point_values host) in Hp; tauto. }
  destruct (T hs Hhs) as (Hlh & Hsh & _).
  destruct (T ls Hls) as (Hll & Hsl & Hpl).
  rewrite chart_config_same.
  unfold V2.chart_config_of, V2.primary.
  destruct (array_length_truthy hs) as (len & -> & Hlen).
  cbn [bind_completion]. rewrite Hlen.
  destruct hs as [|h hs]; cbn [is_nil negb array_map];
    rewrite ?Hlh, ?Hsh, ?Hll, ?Hsl, ?Hpl; cbn [bind_completion];
    eexists; repeat split.
Qed.

Lemma chart_shows_the_points_witness :
  exists config,
    V2.chart_config_of host_pst (Some (JArr [])) (Some (JArr hilo_points))
      "metric" = Normal config
    /\ cfg_labels config = [Some 1717240320000; Some 1717263600000]
    /\ line_label (cfg_line config) = "High/Low points (m)".
Proof.
  assert (Hls : Forall prediction_point hilo_points)
    by (repeat constructor; eexists; eexists; split; reflexivity).
  destruct (chart_shows_the_points host_pst [] hilo_points "metric"
              (Forall_nil _) Hls)
    as (config & _ & Hcfg & (Hlabels & _) & _ & Hlabel & _).
  exists config. split; [exact Hcfg|]. split; [|exact Hlabel].
  rewrite Hlabels. vm_compute. reflexivity.
Defined.

(** *** X11 *)

(** X11: [renderTable] replaces the rows of the table: for extrema as the
    service delivers them it completes and the table then holds one row
    per extremum, in the order received, whatever it held before
    (nothing for an empty array).  Both revisions. *)
Theorem renderTable_replaces_rows (host : Host) (items : list json)
  (units : string) :
  Forall prediction_point items ->
  exists rows,
    map_completion (fun p => table_row host (V2.toLocalDate host) units (Some p))
      items = Normal rows
    /\ List.length rows = List.length items
    /\ forall w,
         fst (V1.renderTable host (Some (JArr items)) units w) = Normal tt
         /\ tbody (snd (V1.renderTable host (Some (JArr items)) units w)) = rows
         /\ fst (V2.renderTable host (Some (JArr items)) units w) = Normal tt
         /\ tbody (snd (V2.renderTable host (Some (JArr items)) units w)) = rows.
Proof.
  intros Hitems.
  destruct (map_completion_total
              (fun p => table_row host (V2.toLocalDate host) units (Some p))
              items) as [rows Hrows].
  { eapply Forall_impl; [|exact Hitems]. intros p Hp.
    apply (prediction_point_renders host) in Hp.
    destruct Hp as (_ & _ & _ & Hrow). exact (Hrow units). }
  exists rows. split; [exact Hrows|].
  split; [eapply map_completion_length; exact Hrows|].
  intros w. rewrite renderTable_run_v1, renderTable_run. cbv zeta.
  cbn [iterate]. rewrite (rows_upto_all _ _ _ Hrows). repeat split.
Qed.

Lemma renderTable_replaces_rows_witness :
  tbody (snd (V2.renderTable host_pst (Some (JArr hilo_points)) "english"
                (with_tbody ["<td>stale</td>"] (page hourly_found hilo_found))))
  = ["<td>6/1/2024</td><td>03:12 AM</td><td>High</td><td>3.14 ft</td>";
     "<td>6/1/2024</td><td>09:40 AM</td><td>Low</td><td>-1.00 ft</td>"].
Proof.
  assert (Hpoints : Forall prediction_point hilo_points)
    by (repeat constructor; eexists; eexists; split; reflexivity).
  destruct (renderTable_replaces_rows host_pst hilo_points "english" Hpoints)
    as (rows & Hrows & _ & Hrun).
  destruct (Hrun (with_tbody ["<td>stale</td>"] (page hourly_found hilo_found)))
    as (_ & _ & _ & ->).
  assert (H : Normal rows
              = Normal
                  ["<td>6/1/2024</td><td>03:12 AM</td><td>High</td><td>3.14 ft</td>";
                   "<td>6/1/2024</td><td>09:40 AM</td><td>Low</td><td>-1.00 ft</td>"]).
  { rewrite <- Hrows. vm_compute. reflexivity. }
  injection H as ->. reflexivity.
Defined.

(** *** X12 *)

(** X12: [renderTable] stops at the first item it cannot build a row
    for: it fails with the exception of that item, the rows of the
    items before it are in the table (the previous content is gone) and
    the items after it are not looked at.  Both revisions. *)
Theorem renderTable_stops_at_faulty_row (host : Host)
  (good rest : list json) (bad : json) (units : string) (rows : list string)
  (e : exn) :
  map_completion (fun p => table_row host (V2.toLocalDate host) units (Some p))
    good = Normal rows ->
  table_row host (V2.toLocalDate host) units (Some bad) = Throw e ->
  forall w,
    let hilo := Some (JArr (good ++ bad :: rest)) in
    fst (V1.renderTable host hilo units w) = Throw e
    /\ tbody (snd (V1.renderTable host hilo units w)) = rows
    /\ fst (V2.renderTable host hilo units w) = Throw e
    /\ tbody (snd (V2.renderTable host hilo units w)) = rows.
Proof.
  intros Hgood Hbad w hilo. subst hilo.
  rewrite renderTable_run_v1, renderTable_run. cbv zeta. cbn [iterate].
  rewrite (rows_upto_fault _ good rest bad rows e Hgood Hbad). repeat split.
Qed.

Lemma renderTable_stops_at_faulty_row_witness :
  let hilo :=
    Some (JArr ([point "2024-06-01 03:12" "3.14159" (Some "H")]
                ++ JNull :: [point "2024-06-01 09:40" "-1.005" (Some "L")])) in
  let w := page hourly_found hilo_found in
  fst (V2.renderTable host_pst hilo "metric" w) = Throw TypeError
  /\ tbody (snd (V2.renderTable host_pst hilo "metric" w))
     = ["<td>6/1/2024</td><td>03:12 AM</td><td>High</td><td>3.14 m</td>"].
Proof.
  intros hilo w. subst hilo.
  destruct (renderTable_stops_at_faulty_row host_pst
              [point "2024-06-01 03:12" "3.14159" (Some "H")]
              [point "2024-06-01 09:40" "-1.005" (Some "L")]
              JNull "metric"
              ["<td>6/1/2024</td><td>03:12 AM</td><td>High</td><td>3.14 m</td>"]
              TypeError ltac:(vm_compute; reflexivity) eq_refl w)
    as (_ & _ & H1 & H2).
  split; assumption.
Defined.

(** *** X13 *)



(** *** X14 *)

(** X14: [loadWeather] never fails, whatever the network answers:
    every exception is caught.  On a page without the grid it does
    nothing and sends no request.  Otherwise it sends the points lookup
    and at most one more request, and when it returns the grid holds
    either one alert or cards only, at most 14 of them: the loading
    placeholder is gone, and cards and an alert are never shown
    together. *)
Theorem loadWeather_settles (engine_message : exn -> string) (w : WxPage) :
  let run := loadWeather engine_message w in
  points_url = "https://api.weather.gov/points/48.035,-122.377"
  /\ fst run = Normal tt
  /\ match wxGrid w with
     | None => snd run = w
     | Some _ =>
         (exists children,
            wxGrid (snd run) = Some children /\ settled_grid children)
         /\ (wx_requests (snd run) = points_url :: wx_requests w
             \/ exists url,
                  wx_requests (snd run) = url :: points_url :: wx_requests w)
     end.
Proof.
  cbv zeta. split; [vm_compute; reflexivity|].
  unfold loadWeather. wstep.
  destruct (wxGrid w) as [old|]; [|split; reflexivity].
  wstep. cbn [String.eqb Ascii.eqb Bool.eqb].
  assert (Halert : forall m, exists children,
            Some (if String.eqb (alert_html m) "" then []
                  else [Markup (alert_html m)])
            = Some children /\ settled_grid children).
  { intros m. eexists. split; [reflexivity|]. left. exists m. reflexivity. }
  destruct (wx_network w points_url) as [pointsResp|e]; wstep; [|auto].
  destruct (ok pointsResp); wstep; [|auto].
  destruct (json_body pointsResp) as [points|e]; wstep; [|auto].
  destruct (truthy (forecastUrl_of points)); wstep; [|auto].
  destruct (ToString (forecastUrl_of points)) as [url|e]; wstep; [|auto].
  destruct (wx_network w url) as [fcResp|e]; wstep; [|eauto 6].
  destruct (ok fcResp); wstep; [|eauto 6].
  destruct (json_body fcResp) as [fc|e]; wstep; [|eauto 6].
  destruct (slice_0_14 (periods_of fc)) as [first14|e] eqn:Hslice; wstep;
    [|eauto 6].
  match goal with
  | |- context [for_of first14 _ ?w1] =>
      pose proof (for_of_cards first14 w1 [] eq_refl) as Hloop;
      cbv zeta in Hloop;
      destruct (for_of first14 append_card w1) as [[[]|e] w2]
  end; cbn [fst snd] in *; destruct Hloop as (_ & Hreq & Hres);
    (split; [reflexivity|]).
  - split; [|right; exists url; exact Hreq].
    destruct (map_completion weather_card first14) as [cards|e] eqn:Hcards.
    + destruct Hres as [_ Hgrid]. exists cards. split; [exact Hgrid|]. right.
      split.
      * eapply map_completion_Forall; [|exact Hcards].
        apply weather_card_is_card.
      * rewrite (map_completion_length _ _ _ Hcards).
        eapply slice_0_14_length. exact Hslice.
    + destruct Hres as [Hres _]. discriminate Hres.
  - split; [apply Halert|]. right. exists url. exact Hreq.
Qed.

(** *** X15 *)

(** X15: when the points lookup names a forecast address and that
    address answers with a list of periods whose members are primitive
    values, [loadWeather] requests exactly these two addresses and
    fills the grid with one card per period for the first 14 periods,
    in order; the periods after the 14th are ignored. *)
Theorem loadWeather_shows_first_14 (engine_message : exn -> string)
  (w : WxPage) (old : list grid_child) (pointsResp fcResp : Response)
  (points fc : json) (url : string) (items : list json) :
  wxGrid w = Some old ->
  wx_network w points_url = Normal pointsResp ->
  ok pointsResp = true -> json_body pointsResp = Normal points ->
  forecastUrl_of points = Some (JStr url) -> url <> "" ->
  wx_network w url = Normal fcResp ->
  ok fcResp = true -> json_body fcResp = Normal fc ->
  periods_of fc = Some (JArr items) ->
  Forall plain_period (firstn 14 items) ->
  exists cards,
    map_completion (fun p => weather_card (Some p)) (firstn 14 items)
    = Normal cards
    /\ List.length cards = Nat.min 14 (List.length items)
    /\ fst (loadWeather engine_message w) = Normal tt
    /\ wxGrid (snd (loadWeather engine_message w)) = Some cards
    /\ wx_requests (snd (loadWeather engine_message w))
       = url :: points_url :: wx_requests w.
Proof.
  intros Hgrid Hnet1 Hok1 Hbody1 Hurl Hne Hnet2 Hok2 Hbody2 Hperiods Hplain.
  destruct (map_completion_total (fun p => weather_card (Some p))
              (firstn 14 items)) as [cards Hcards].
  { eapply Forall_impl; [|exact Hplain]. apply plain_period_card. }
  exists cards. split; [exact Hcards|]. split.
  { rewrite (map_completion_length _ _ _ Hcards). apply length_firstn. }
  unfold loadWeather. wstep. rewrite Hgrid. wstep.
  rewrite Hnet1. wstep. rewrite Hok1. wstep. rewrite Hbody1. wstep.
  rewrite Hurl. cbn [truthy ToString ToString_json].
  destruct (String.eqb_spec url "") as [|_]; [contradiction|]. wstep.
  rewrite Hnet2. wstep. rewrite Hok2. wstep. rewrite Hbody2. wstep.
  rewrite Hperiods. cbn [slice_0_14]. wstep.
  assert (Hmap : map_completion weather_card (map Some (firstn 14 items))
                 = Normal cards).
  { rewrite <- Hcards. clear. induction (firstn 14 items) as [|a l IH];
      [reflexivity|cbn [map map_completion]; rewrite IH; reflexivity]. }
  match goal with
  | |- context [@for_of ?S ?A ?l append_card ?w1] =>
      pose proof (for_of_cards l w1 [] eq_refl) as Hloop;
      cbv zeta in Hloop; rewrite Hmap in Hloop;
      destruct (@for_of S A l append_card w1) as [r w2]
  end.
  cbn [fst snd] in Hloop. destruct Hloop as (_ & Hreq & -> & Hres). auto.
Qed.

Lemma loadWeather_shows_first_14_witness :
  wxGrid (snd (loadWeather (fun _ => "null has no properties")
                 (wx_page points_found (forecast_of two_periods))))
  = Some [Card (card_html "Tonight"
                  (icon_html "https://api.weather.gov/icons/land/night/bkn")
                  "52" "F" "Mostly Cloudy" "5 mph" "S");
          Card (card_html "Monday" "" "61" "F" "Rain" "5 to 10 mph" "")].
Proof.
  assert (Hne : forecast_address <> "") by discriminate.
  assert (Hplain : Forall plain_period (firstn 14 two_periods)).
  { repeat constructor; eexists; (split; [reflexivity|]); intros []; exact I. }
  destruct (loadWeather_shows_first_14 (fun _ => "null has no properties")
              (wx_page points_found (forecast_of two_periods)) []
              {| ok := true; status := 200;
                 json_body :=
                   Normal (JObj [("properties",
                                  JObj [("forecast", JStr forecast_address)])]) |}
              {| ok := true; status := 200;
                 json_body :=
                   Normal (JObj [("properties",
                                  JObj [("periods", JArr two_periods)])]) |}
              (JObj [("properties", JObj [("forecast", JStr forecast_address)])])
              (JObj [("properties", JObj [("periods", JArr two_periods)])])
              forecast_address two_periods
              eq_refl ltac:(vm_compute; reflexivity) eq_refl eq_refl eq_refl
              Hne ltac:(vm_compute; reflexivity) eq_refl eq_refl eq_refl Hplain)
    as (cards & Hcards & _ & _ & Hgrid & _).
  rewrite Hgrid. f_equal.
  assert (H : Normal cards
              = Normal [Card (card_html "Tonight"
                  (icon_html "https://api.weather.gov/icons/land/night/bkn")
                  "52" "F" "Mostly Cloudy" "5 mph" "S");
          Card (card_html "Monday" "" "61" "F" "Rain" "5 to 10 mph" "")]).
  { rewrite <- Hcards. vm_compute. reflexivity. }
  injection H as ->. reflexivity.
Defined.

(** *** X16 *)



(** *** X17 *)



(** *** X18 *)

(** X18: the console.  The first revision never writes to it.  The
    second revision writes one warning exactly when the hourly request
    failed, with the exception [fetchJSON] failed with; it writes
    nothing for a failed extrema request or a fault while rendering. *)
Theorem console_warns_of_hourly_failure_only (host : Host) (w : World) :
  (exists evs,
     events_since w (snd (V1.loadData host w)) evs /\ warned evs = [])
  /\ (exists evs,
        events_since w (snd (V2.loadData host w)) evs
        /\ warned evs = match hourly_reply host w with
                        | Throw e => [e]
                        | Normal _ => []
                        end).
Proof.
  split.
  - assert (H1 : exists evs,
               events_since w (after_requests_v1 host w) evs /\ warned evs = []).
    { exists [Fetch (request host "60" w); Fetch (request host "hilo" w)].
      split; reflexivity. }
    rewrite loadData_run_v1. cbv zeta.
    destruct (hilo_reply host w) as [hiloRes|e]; [|exact H1].
    destruct (get hiloRes p_predictions) as [predictions|e]; [|exact H1].
    fold (render_v1 host (supportsHourly (fst (attempt_v1 host w)))
            (hourly (fst (attempt_v1 host w)))
            (or_else predictions empty_array) (unitsSel_value w)).
    rewrite render_same.
    destruct H1 as (evs1 & Hevs1 & Hw1).
    destruct (render_warns_nothing host
                (supportsHourly (fst (attempt_v1 host w)))
                (hourly (fst (attempt_v1 host w)))
                (or_else predictions empty_array) (unitsSel_value w)
                (after_requests_v1 host w)) as (evs2 & Hevs2 & Hw2).
    exists (evs1 ++ evs2)%list. split; [eapply events_since_trans; eassumption|].
    rewrite warned_app, Hw1, Hw2. reflexivity.
  - assert (H2 : exists evs,
               events_since w (after_requests_v2 host w) evs
               /\ warned evs = match hourly_reply host w with
                               | Throw e => [e]
                               | Normal _ => []
                               end).
    { unfold after_requests_v2. rewrite attempt_caught_v2.
      destruct (hourly_reply host w) as [res|caught].
      - exists [Fetch (request host "60" w); Fetch (request host "hilo" w)].
        split; reflexivity.
      - exists [Fetch (request host "60" w); Console_warn caught;
                Fetch (request host "hilo" w)]. split; reflexivity. }
    rewrite loadData_run_v2. cbv zeta.
    destruct (hilo_reply host w) as [hiloRes|e]; [|exact H2].
    destruct (get hiloRes p_predictions) as [predictions|e]; [|exact H2].
    fold (render_v2 host (supportsHourly (fst (attempt_v2 host w)))
            (hourly (fst (attempt_v2 host w)))
            (V2.array_or_empty predictions) (unitsSel_value w)).
    destruct H2 as (evs1 & Hevs1 & Hw1).
    destruct (render_warns_nothing host
                (supportsHourly (fst (attempt_v2 host w)))
                (hourly (fst (attempt_v2 host w)))
                (V2.array_or_empty predictions) (unitsSel_value w)
                (after_requests_v2 host w)) as (evs2 & Hevs2 & Hw2).
    exists (evs1 ++ evs2)%list. split; [eapply events_since_trans; eassumption|].
    rewrite warned_app, Hw1, Hw2, app_nil_r. reflexivity.
Qed.

Lemma console_warns_of_hourly_failure_only_witness :
  let w := page server_error hilo_found in
  exists evs,
    events_since w (snd (V2.loadData host_pst w)) evs
    /\ warned evs = [Error "HTTP 500"].
Proof.
  intros w.
  destruct (console_warns_of_hourly_failure_only host_pst w)
    as [_ (evs & Hevs & Hwarned)].
  exists evs. split; [exact Hevs|]. rewrite Hwarned. vm_compute. reflexivity.
Defined.

(** *** X19 *)

(** X19: whenever [renderChart] builds a configuration, for any
    arguments, its labels and the data of its line have the same
    length (they are mapped from the same array), [hilo] is an array
    and there is one marker per item of it.  Both revisions. *)
Theorem labels_and_series_line_up (host : Host) (hourly hilo : value)
  (units : string) (config : ChartConfig) :
  V1.chart_config_of host hourly hilo units = Normal config
  \/ V2.chart_config_of host hourly hilo units = Normal config ->
  List.length (cfg_labels config) = List.length (line_data (cfg_line config))
  /\ exists ls,
       hilo = Some (JArr ls)
       /\ List.length (scatter_data (cfg_scatter config)) = List.length ls.
Proof.
  rewrite chart_config_same. intros H.
  assert (Hcfg : V2.chart_config_of host hourly hilo units = Normal config)
    by (destruct H; assumption).
  clear H. revert Hcfg. unfold V2.chart_config_of, V2.primary.
  destruct (get hourly p_length) as [len|]; [|discriminate].
  cbn [bind_completion].
  set (src := if truthy len then hourly else hilo).
  destruct (array_map src (V2.label_of host)) as [labels|] eqn:Hlabels;
    [|discriminate].
  destruct (array_map src V2.height_of) as [series|] eqn:Hseries;
    [|discriminate].
  destruct (array_map hilo (V2.hiloPoint_of host)) as [pts|] eqn:Hpts;
    [|discriminate].
  cbn [bind_completion]. intros [= <-].
  cbn [cfg_labels line_data cfg_line scatter_data cfg_scatter].
  destruct (array_map_length _ _ _ Hlabels) as (items & Hsrc & Hl1).
  destruct (array_map_length _ _ _ Hseries) as (items' & Hsrc' & Hl2).
  destruct (array_map_length _ _ _ Hpts) as (ls & Hhilo & Hl3).
  split.
  - rewrite Hl1, Hl2. rewrite Hsrc in Hsrc'. injection Hsrc' as <-. reflexivity.
  - exists ls. split; assumption.
Qed.

Lemma labels_and_series_line_up_witness :
  exists config,
    V2.chart_config_of host_pst (Some (JArr hourly_points))
      (Some (JArr hilo_points)) "metric" = Normal config
    /\ List.length (cfg_labels config)
       = List.length (line_data (cfg_line config))
    /\ exists ls,
         Some (JArr hilo_points) = Some (JArr ls)
         /\ List.length (scatter_data (cfg_scatter config)) = List.length ls.
Proof.
  assert (Hhs : Forall prediction_point hourly_points)
    by (repeat constructor; eexists; eexists; split; reflexivity).
  assert (Hls : Forall prediction_point hilo_points)
    by (repeat constructor; eexists; eexists; split; reflexivity).
  destruct (chart_config_total_v2 host_pst hourly_points hilo_points "metric"
              Hhs Hls) as [config Hcfg].
  exists config. split; [exact Hcfg|].
  exact (labels_and_series_line_up host_pst _ _ _ config (or_intror Hcfg)).
Defined.
